(** * APMS backend: stock mutation and alert derivation

    A shallow embedding of the request handlers of the pharmacy inventory
    backend (routes/medicines.js, routes/issuances.js, routes/users.js,
    routes/alerts.js, routes/reports.js, routes/dashboard.js), of the two side
    channels
    (middleware/alertService.js, middleware/logging.js) and of the Mongoose
    schemas they save through (models/Medicine.js, models/Issuance.js,
    models/Alert.js, models/ActivityLog.js).

    Conventions of the embedding.
    - A JavaScript number that the validators force to be an integer is a
      [Z]; no rounding of large numbers is modelled.
    - A [Date] is its epoch value in milliseconds.  [setDate(getDate() + 30)]
      is taken in a zone without offset change inside the window, so that it
      adds exactly thirty days of 86400000 ms.
    - A handler is an [async] function whose [await]s run in sequence; it is a
      computation in the monad [M], which threads the stores and can throw.
      A throw keeps the writes made before it (there is no rollback).
      Requests are served one after the other.
    - Every call that reaches the database may fail: the world carries, for
      each collection, the outcomes of the coming calls ([faults]).
    - Every [new Date()] and [Date.now()] reads [clock]; the clock then
      advances by the next entry of [ticks].
    - [save()] runs the validators of the schema on the whole document, then
      the round trip, then the unique index; every call of [save()] is
      entered in [journal] with its outcome.
    - A request body is taken after the sanitizers of express-validator ran,
      and the type of a field stands for its format validator ([isMongoId],
      [isISO8601], [isInt], [isFloat], [isEmail], [isBoolean]); fields that
      a handler never reads are left out.  Where a handler spreads the body
      into a constructor, the body sets the paths of the schema that it
      names: the body of POST /api/medicines carries [isActive] and
      [updatedBy] beside the validated fields; the body of POST
      /api/issuances is taken to name the validated fields only (no
      [issuedAt]), and no body to name [_id] or a timestamp.
    - A collection is the list of its documents in the order of their
      insertion, which is the order of [createdAt]: [.sort({ createdAt: -1 })]
      reverses the list.  A [.sort] on a string compares code units
      ([String.leb]).  [findByIdAndUpdate] and [updateMany] write without
      [save()]: they run no validator and are not entered in [journal].
    - A number that can have a fraction (a price, a value of stock) is an
      exact rational: the rounding of floating point arithmetic is not
      modelled, and no statement below speaks of a sum of prices.
      [Math.round] rounds a half upwards.
    - The monitor of MongoDB that removes an alert after its [expiresAt] is
      not part of the server and is left out.
    - Left out as well: the authentication middleware (a handler starts once
      it let the request through), the [createdAt] and [updatedAt] stamps,
      what [populate] adds to a document (its round trip is kept), and the
      lines written by [console.error]. *)

From Stdlib Require Import ZArith List String Ascii Bool Lia QArith DecimalString
  Sorted Permutation Qround.
Import ListNotations.

Open Scope string_scope.
Open Scope Z_scope.

(** ** Values *)

Definition ObjectId := N.
Definition Date := Z.

Definition msPerDay : Z := 24 * 60 * 60 * 1000.

(** [d.setDate(d.getDate() + n)] *)
Definition addDays (n : Z) (d : Date) : Date := d + n * msPerDay.

(** Template literal interpolation of an integer. *)
Definition show (z : Z) : string := NilZero.string_of_int (Z.to_int z).

Definition dquote : string := String (ascii_of_nat 34) EmptyString.
Definition quoted (s : string) : string := dquote ++ s ++ dquote.

(** JavaScript truthiness of an optional string and of an optional number. *)
Definition truthy_str (o : option string) : bool :=
  match o with
  | Some s => negb (s =? "")%string
  | None => false
  end.

Definition truthy_num (o : option Z) : bool :=
  match o with
  | Some z => negb (z =? 0)
  | None => false
  end.

(** [o ?? d] *)
Definition nullish {A : Type} (o : option A) (d : A) : A :=
  match o with
  | Some a => a
  | None => d
  end.

Definition opt_str_eqb (a b : option string) : bool :=
  match a, b with
  | Some x, Some y => (x =? y)%string
  | None, None => true
  | _, _ => false
  end.

Definition isIn (s : string) (l : list string) : bool :=
  existsb (String.eqb s) l.

Definition maxlength (n : nat) (s : string) : bool :=
  (String.length s <=? n)%nat.

Definition opt_maxlength (n : nat) (o : option string) : bool :=
  match o with
  | Some s => maxlength n s
  | None => true
  end.

(** [isLength({ min, max })] *)
Definition isLength (lo hi : nat) (s : string) : bool :=
  (lo <=? String.length s)%nat && (String.length s <=? hi)%nat.

(** A [required] string path rejects the empty string. *)
Definition required_str (s : string) : bool := negb (s =? "")%string.

(** ** Schemas *)

Module Medicine.

Definition categories : list string :=
  [ "Antibiotics"; "Painkillers"; "Supplements"; "Vaccines";
    "Antiseptics"; "Cardiovascular"; "Respiratory";
    "Digestive"; "Neurological"; "Other" ].

Record t := mk {
  _id : ObjectId;
  name : string;
  barcode : option string;
  category : string;
  quantity : Z;
  initialStock : Z;
  minQuantity : Z;
  price : Q;
  expiryDate : Date;
  supplier : option string;
  batchNumber : option string;
  description : option string;
  isActive : bool;
  createdBy : ObjectId;
  updatedBy : option ObjectId
}.

(** The validators of the schema, run by [save()] on the whole document. *)
Definition validate (m : t) : bool :=
  required_str (name m) && maxlength 200 (name m)
  && isIn (category m) categories
  && (0 <=? quantity m)
  && (0 <=? initialStock m)
  && (1 <=? minQuantity m)
  && Qle_bool 0 (price m)
  && opt_maxlength 200 (supplier m)
  && opt_maxlength 100 (batchNumber m)
  && opt_maxlength 500 (description m).

(** Virtuals; [now] is the value of the [new Date()] they read. *)
Definition isLowStock (m : t) : bool := quantity m <=? minQuantity m.

Definition isExpired (now : Date) (m : t) : bool := expiryDate m <? now.

Definition isExpiringSoon (now : Date) (m : t) : bool :=
  let thirtyDaysFromNow := addDays 30 now in
  (expiryDate m <=? thirtyDaysFromNow) && (now <? expiryDate m).

(** [(this.initialStock || 0) - (this.quantity || 0)] *)
Definition stockOut (m : t) : Z :=
  (if initialStock m =? 0 then 0 else initialStock m)
  - (if quantity m =? 0 then 0 else quantity m).

Definition set_quantity (q : Z) (m : t) : t :=
  mk (_id m) (name m) (barcode m) (category m) q (initialStock m)
     (minQuantity m) (price m) (expiryDate m) (supplier m) (batchNumber m)
     (description m) (isActive m) (createdBy m) (updatedBy m).

Definition set_initialStock (i : Z) (m : t) : t :=
  mk (_id m) (name m) (barcode m) (category m) (quantity m) i
     (minQuantity m) (price m) (expiryDate m) (supplier m) (batchNumber m)
     (description m) (isActive m) (createdBy m) (updatedBy m).

Definition set_isActive (b : bool) (m : t) : t :=
  mk (_id m) (name m) (barcode m) (category m) (quantity m) (initialStock m)
     (minQuantity m) (price m) (expiryDate m) (supplier m) (batchNumber m)
     (description m) b (createdBy m) (updatedBy m).

Definition set_updatedBy (u : ObjectId) (m : t) : t :=
  mk (_id m) (name m) (barcode m) (category m) (quantity m) (initialStock m)
     (minQuantity m) (price m) (expiryDate m) (supplier m) (batchNumber m)
     (description m) (isActive m) (createdBy m) (Some u).

End Medicine.

Module Issuance.

Definition recipients : list string := [ "GIZ Guest"; "AZI Guest"; "Employee" ].

Record t := mk {
  _id : ObjectId;
  medicineId : ObjectId;
  issuedTo : string;
  recipientName : string;
  recipientID : string;
  quantityIssued : Z;
  prescribedBy : string;
  notes : option string;
  issuedBy : ObjectId;
  issuedAt : Date
}.

Definition validate (i : t) : bool :=
  isIn (issuedTo i) recipients
  && required_str (recipientName i) && maxlength 200 (recipientName i)
  && required_str (recipientID i) && maxlength 100 (recipientID i)
  && (1 <=? quantityIssued i)
  && required_str (prescribedBy i) && maxlength 200 (prescribedBy i)
  && opt_maxlength 500 (notes i).

End Issuance.

Module Alert.

Definition types : list string :=
  [ "user_added"; "stock_low"; "medicine_expiring"; "medicine_expired";
    "stock_entry"; "medicine_issued"; "user_deleted"; "medicine_added";
    "system" ].

Definition severities : list string := [ "info"; "warning"; "danger"; "success" ].

Definition entityTypes : list string := [ "User"; "Medicine"; "Issuance"; "System" ].

Record t := mk {
  _id : ObjectId;
  type : string;
  title : string;
  message : string;
  severity : string;
  entityType : string;
  entityId : ObjectId;
  triggeredBy : ObjectId;
  isRead : bool;
  isActive : bool;
  expiresAt : Date
}.

Definition validate (a : t) : bool :=
  isIn (type a) types
  && required_str (title a) && maxlength 200 (title a)
  && required_str (message a) && maxlength 500 (message a)
  && isIn (severity a) severities
  && isIn (entityType a) entityTypes.

End Alert.

Module User.

(** models/User.js is not among the sources; these are the paths that the
    user routes read and assign. *)
Record t := mk {
  _id : ObjectId;
  name : string;
  email : string;
  role : string;
  isActive : bool
}.

End User.

(** The parts of [req] that the handlers read besides the body; [reqUser] is
    [req.user._id], set by the authentication middleware. *)
Record Req := mkReq {
  reqUser : ObjectId;
  ip : option string;
  remoteAddress : option string;
  userAgent : option string
}.

(** The body of POST /api/medicines.  The handler hands [{ ...req.body }] to
    the constructor, so that the body sets every path of the schema that it
    names and that the handler does not override ([initialStock] and
    [createdBy] are overridden; [stockOut] is no path of the schema): beside
    the paths that the validators check, these are [isActive] and
    [updatedBy], on which there is no validator.  [None] is a field that the
    body does not have; [Some false] also stands for an [isActive] of
    [null], which every test of the code takes for false.  The body is not
    taken to name [_id] or the timestamps. *)
Record MedicineBody := mkMedicineBody {
  mb_name : string;
  mb_category : string;
  mb_quantity : Z;
  mb_minQuantity : Z;
  mb_price : Q;
  mb_expiryDate : Date;
  mb_barcode : option string;
  mb_supplier : option string;
  mb_batchNumber : option string;
  mb_description : option string;
  mb_isActive : option bool;
  mb_updatedBy : option ObjectId
}.

(** The [oldData] and [newData] payloads of an activity log entry. *)
Inductive Snapshot :=
| SnapMedicine (m : Medicine.t)
| SnapMedicineData (b : MedicineBody) (initialStock : Z) (createdBy : ObjectId)
| SnapQuantity (q : Z)
| SnapIsActive (b : bool)
| SnapUser (u : User.t).

Module ActivityLog.

Definition actionTypes : list string :=
  [ "Add"; "Update"; "Delete"; "Issue"; "Login"; "Logout"; "Stock In"; "Stock Out" ].

Definition entityTypes : list string := [ "Medicine"; "User"; "Issuance"; "System" ].

Record t := mk {
  _id : ObjectId;
  actionType : string;
  entityType : string;
  entityId : ObjectId;
  performedBy : ObjectId;
  description : string;
  oldData : option Snapshot;
  newData : option Snapshot;
  ipAddress : option string;
  userAgent : option string
}.

Definition validate (l : t) : bool :=
  isIn (actionType l) actionTypes
  && isIn (entityType l) entityTypes
  && required_str (description l) && maxlength 500 (description l).

End ActivityLog.

(** ** The world: five collections, a journal of writes, and the environment *)

Inductive Collection := CMedicine | CIssuance | CActivityLog | CAlert | CUser.

Definition Collection_eqb (a b : Collection) : bool :=
  match a, b with
  | CMedicine, CMedicine | CIssuance, CIssuance | CActivityLog, CActivityLog
  | CAlert, CAlert | CUser, CUser => true
  | _, _ => false
  end.

(** A write handed to the database. *)
Inductive StoreWrite :=
| WMedicine (m : Medicine.t)
| WIssuance (i : Issuance.t)
| WActivityLog (l : ActivityLog.t)
| WAlert (a : Alert.t)
| WUser (u : User.t)
| WUserDelete (id : ObjectId).

(** A journal entry: the write, and whether the store took it. *)
Definition Entry : Type := StoreWrite * bool.

Record World := mkWorld {
  medicines : list Medicine.t;
  issuances : list Issuance.t;
  activitylogs : list ActivityLog.t;
  alerts : list Alert.t;
  users : list User.t;
  journal : list Entry;
  nextId : ObjectId;
  clock : Date;
  ticks : list N;
  faults : Collection -> list bool
}.

Definition set_medicines (x : list Medicine.t) (w : World) : World :=
  mkWorld x (issuances w) (activitylogs w) (alerts w) (users w) (journal w)
          (nextId w) (clock w) (ticks w) (faults w).

Definition set_issuances (x : list Issuance.t) (w : World) : World :=
  mkWorld (medicines w) x (activitylogs w) (alerts w) (users w) (journal w)
          (nextId w) (clock w) (ticks w) (faults w).

Definition set_activitylogs (x : list ActivityLog.t) (w : World) : World :=
  mkWorld (medicines w) (issuances w) x (alerts w) (users w) (journal w)
          (nextId w) (clock w) (ticks w) (faults w).

Definition set_alerts (x : list Alert.t) (w : World) : World :=
  mkWorld (medicines w) (issuances w) (activitylogs w) x (users w) (journal w)
          (nextId w) (clock w) (ticks w) (faults w).

Definition set_users (x : list User.t) (w : World) : World :=
  mkWorld (medicines w) (issuances w) (activitylogs w) (alerts w) x (journal w)
          (nextId w) (clock w) (ticks w) (faults w).

Definition set_journal (x : list Entry) (w : World) : World :=
  mkWorld (medicines w) (issuances w) (activitylogs w) (alerts w) (users w) x
          (nextId w) (clock w) (ticks w) (faults w).

Definition set_nextId (x : ObjectId) (w : World) : World :=
  mkWorld (medicines w) (issuances w) (activitylogs w) (alerts w) (users w)
          (journal w) x (clock w) (ticks w) (faults w).

Definition set_time (c : Date) (t : list N) (w : World) : World :=
  mkWorld (medicines w) (issuances w) (activitylogs w) (alerts w) (users w)
          (journal w) (nextId w) c t (faults w).

Definition set_faults (c : Collection) (l : list bool) (w : World) : World :=
  mkWorld (medicines w) (issuances w) (activitylogs w) (alerts w) (users w)
          (journal w) (nextId w) (clock w) (ticks w)
          (fun c' => if Collection_eqb c c' then l else faults w c').

(** ** The handler monad: state that survives a throw *)

Inductive Exn :=
| ValidationError
| MongoServerError (code : Z)
| NetworkError.

Inductive Result (A : Type) :=
| Ok (a : A)
| Throw (e : Exn).

Arguments Ok {A} a.
Arguments Throw {A} e.

Definition M (A : Type) : Type := World -> Result A * World.

Definition ret {A : Type} (a : A) : M A := fun w => (Ok a, w).

Definition throw {A : Type} (e : Exn) : M A := fun w => (Throw e, w).

Definition bind {A B : Type} (m : M A) (f : A -> M B) : M B :=
  fun w =>
    match m w with
    | (Ok a, w') => f a w'
    | (Throw e, w') => (Throw e, w')
    end.

(** [try { m } catch (error) { h error }] *)
Definition try_catch {A : Type} (m : M A) (h : Exn -> M A) : M A :=
  fun w =>
    match m w with
    | (Ok a, w') => (Ok a, w')
    | (Throw e, w') => h e w'
    end.

Declare Scope handler_scope.
Delimit Scope handler_scope with handler.

Notation "x <- c ;; k" := (bind c (fun x => k))
  (at level 100, c at next level, right associativity) : handler_scope.
Notation "c ;; k" := (bind c (fun _ => k))
  (at level 100, right associativity) : handler_scope.

Open Scope handler_scope.

(** ** Primitives of the environment *)

(** [new Date()], [Date.now()] *)
Definition new_Date : M Date := fun w =>
  match ticks w with
  | [] => (Ok (clock w), w)
  | d :: rest => (Ok (clock w), set_time (clock w + Z.of_N d) rest w)
  end.

(** The [_id] a document receives when it is constructed. *)
Definition new_ObjectId : M ObjectId := fun w =>
  (Ok (nextId w), set_nextId (N.succ (nextId w)) w).

(** One round trip to collection [c]. *)
Definition dbcall (c : Collection) : M unit := fun w =>
  match faults w c with
  | [] => (Ok tt, w)
  | b :: rest =>
      (if b : bool then Throw NetworkError else Ok tt, set_faults c rest w)
  end.

Definition log_write (x : StoreWrite) (ok : bool) : M unit := fun w =>
  (Ok tt, set_journal (journal w ++ [(x, ok)]) w).

Definition gets {A : Type} (f : World -> A) : M A := fun w => (Ok (f w), w).

Definition modify (f : World -> World) : M unit := fun w => (Ok tt, f w).

(** [await doc.save()]: the schema validators, then one round trip, then the
    effect [commit] on the collection.  The call is entered in the journal
    with its outcome. *)
Definition save_with (c : Collection) (x : StoreWrite) (valid : bool)
    (commit : M unit) : M unit :=
  if valid then
    try_catch (dbcall c) (fun e => log_write x false ;; throw e) ;;
    commit
  else
    log_write x false ;; throw ValidationError.

(** ** models/Medicine.js as a collection *)

Definition has_id (id : ObjectId) (m : Medicine.t) : bool :=
  (Medicine._id m =? id)%N.

Definition Medicine_findById (id : ObjectId) : M (option Medicine.t) :=
  dbcall CMedicine ;;
  ms <- gets medicines ;;
  ret (find (has_id id) ms).

(** [Medicine.findOne({ barcode, isActive: true })] *)
Definition Medicine_findOne_barcode (b : string) : M (option Medicine.t) :=
  dbcall CMedicine ;;
  ms <- gets medicines ;;
  ret (find (fun m => opt_str_eqb (Medicine.barcode m) (Some b)
                      && Medicine.isActive m) ms).

(** [Medicine.findOne({ barcode, isActive: true, _id: { $ne: id } })] *)
Definition Medicine_findOne_barcode_ne (b : string) (id : ObjectId)
  : M (option Medicine.t) :=
  dbcall CMedicine ;;
  ms <- gets medicines ;;
  ret (find (fun m => opt_str_eqb (Medicine.barcode m) (Some b)
                      && Medicine.isActive m
                      && negb (has_id id m)) ms).

(** The index [barcode: { unique: true, sparse: true }]: a document that has
    a barcode collides with any other document, active or not, that has the
    same one. *)
Definition barcode_taken (m : Medicine.t) (ms : list Medicine.t) : bool :=
  match Medicine.barcode m with
  | None => false
  | Some b =>
      existsb (fun m' => negb (has_id (Medicine._id m) m')
                         && opt_str_eqb (Medicine.barcode m') (Some b)) ms
  end.

Definition replace_medicine (m : Medicine.t) (ms : list Medicine.t)
  : list Medicine.t :=
  map (fun m' => if has_id (Medicine._id m) m' then m else m') ms.

Definition commit_medicine (isNew : bool) (m : Medicine.t) : M unit :=
  ms <- gets medicines ;;
  if barcode_taken m ms then
    log_write (WMedicine m) false ;; throw (MongoServerError 11000)
  else
    modify (set_medicines (if isNew then ms ++ [m] else replace_medicine m ms)) ;;
    log_write (WMedicine m) true.

(** [save()] of a document built by [new Medicine(...)] ([isNew = true]) or
    loaded by a find ([isNew = false]). *)
Definition Medicine_save (isNew : bool) (m : Medicine.t) : M unit :=
  save_with CMedicine (WMedicine m) (Medicine.validate m) (commit_medicine isNew m).

(** ** models/Issuance.js, models/Alert.js, models/ActivityLog.js *)

Definition Issuance_save (i : Issuance.t) : M unit :=
  save_with CIssuance (WIssuance i) (Issuance.validate i)
    (xs <- gets issuances ;;
     modify (set_issuances (xs ++ [i])) ;;
     log_write (WIssuance i) true).

Definition Alert_save (a : Alert.t) : M unit :=
  save_with CAlert (WAlert a) (Alert.validate a)
    (al <- gets alerts ;;
     modify (set_alerts (al ++ [a])) ;;
     log_write (WAlert a) true).

Definition ActivityLog_save (l : ActivityLog.t) : M unit :=
  save_with CActivityLog (WActivityLog l) (ActivityLog.validate l)
    (ls <- gets activitylogs ;;
     modify (set_activitylogs (ls ++ [l])) ;;
     log_write (WActivityLog l) true).

(** ** The user collection (schema not among the sources: no validator) *)

Definition user_has_id (id : ObjectId) (u : User.t) : bool :=
  (User._id u =? id)%N.

Definition User_findById (id : ObjectId) : M (option User.t) :=
  dbcall CUser ;;
  us <- gets users ;;
  ret (find (user_has_id id) us).

(** [User.findOne({ email, _id: { $ne: id } })] *)
Definition User_findOne_email_ne (email : string) (id : ObjectId)
  : M (option User.t) :=
  dbcall CUser ;;
  us <- gets users ;;
  ret (find (fun u => (User.email u =? email)%string
                      && negb (user_has_id id u)) us).

(** [User.countDocuments({ role: 'Admin', _id: { $ne: id } })] *)
Definition User_count_admins_ne (id : ObjectId) : M nat :=
  dbcall CUser ;;
  us <- gets users ;;
  ret (List.length (filter (fun u => (User.role u =? "Admin")%string
                                     && negb (user_has_id id u)) us)).

Definition User_save (u : User.t) : M unit :=
  save_with CUser (WUser u) true
    (us <- gets users ;;
     modify (set_users
               (map (fun u' => if user_has_id (User._id u) u' then u else u') us)) ;;
     log_write (WUser u) true).

Definition User_findByIdAndDelete (id : ObjectId) : M unit :=
  save_with CUser (WUserDelete id) true
    (us <- gets users ;;
     modify (set_users (filter (fun u => negb (user_has_id id u)) us)) ;;
     log_write (WUserDelete id) true).

(** ** The alert, ledger and log collections as the read routes query them

    [createdAt] is not kept in the documents.  A collection holds its
    documents in the order in which they were stored, which is the order of
    their [createdAt] stamps, so that [.sort({ createdAt: -1 })] is the
    store order reversed. *)

Definition alert_has_id (id : ObjectId) (a : Alert.t) : bool :=
  (Alert._id a =? id)%N.

Definition Alert_set_isRead (b : bool) (a : Alert.t) : Alert.t :=
  Alert.mk (Alert._id a) (Alert.type a) (Alert.title a) (Alert.message a)
           (Alert.severity a) (Alert.entityType a) (Alert.entityId a)
           (Alert.triggeredBy a) b (Alert.isActive a) (Alert.expiresAt a).

Definition Alert_set_isActive (b : bool) (a : Alert.t) : Alert.t :=
  Alert.mk (Alert._id a) (Alert.type a) (Alert.title a) (Alert.message a)
           (Alert.severity a) (Alert.entityType a) (Alert.entityId a)
           (Alert.triggeredBy a) (Alert.isRead a) b (Alert.expiresAt a).

(** The first element that satisfies [p], replaced by its image under [f]. *)
Fixpoint update_first {A : Type} (p : A -> bool) (f : A -> A) (l : list A)
  : list A :=
  match l with
  | [] => []
  | x :: rest => if p x then f x :: rest else x :: update_first p f rest
  end.

(** [.skip(skip).limit(limit)] *)
Definition skip_limit {A : Type} (skip limit : Z) (l : list A) : list A :=
  firstn (Z.to_nat limit) (skipn (Z.to_nat skip) l).

(** [Math.ceil(a / b)] for a divisor [b > 0] *)
Definition Math_ceil_div (a b : Z) : Z := - ((- a) / b).

Definition Alert_findById (id : ObjectId) : M (option Alert.t) :=
  dbcall CAlert ;;
  al <- gets alerts ;;
  ret (find (alert_has_id id) al).

(** [Alert.findByIdAndUpdate(id, update, { new: true })]: the document as it
    is after the update, or [null]. *)
Definition Alert_findByIdAndUpdate (id : ObjectId) (update : Alert.t -> Alert.t)
  : M (option Alert.t) :=
  dbcall CAlert ;;
  al <- gets alerts ;;
  match find (alert_has_id id) al with
  | None => ret None
  | Some a =>
      modify (set_alerts (update_first (alert_has_id id) update al)) ;;
      ret (Some (update a))
  end.

(** [Alert.updateMany(filter, update)] *)
Definition Alert_updateMany (filter : Alert.t -> bool)
    (update : Alert.t -> Alert.t) : M unit :=
  dbcall CAlert ;;
  al <- gets alerts ;;
  modify (set_alerts (map (fun a => if filter a then update a else a) al)).

(** [Alert.find(query).sort({ createdAt: -1 }).skip(skip).limit(limit)] *)
Definition Alert_find_page (query : Alert.t -> bool) (skip limit : Z)
  : M (list Alert.t) :=
  dbcall CAlert ;;
  al <- gets alerts ;;
  ret (skip_limit skip limit (rev (filter query al))).

(** [Alert.countDocuments(query)] *)
Definition Alert_countDocuments (query : Alert.t -> bool) : M Z :=
  dbcall CAlert ;;
  al <- gets alerts ;;
  ret (Z.of_nat (List.length (filter query al))).

Definition issuance_has_id (id : ObjectId) (i : Issuance.t) : bool :=
  (Issuance._id i =? id)%N.

Definition Issuance_findById (id : ObjectId) : M (option Issuance.t) :=
  dbcall CIssuance ;;
  xs <- gets issuances ;;
  ret (find (issuance_has_id id) xs).

(** [ActivityLog.find().sort({ createdAt: -1 }).limit(n)] *)
Definition ActivityLog_find_latest (n : nat) : M (list ActivityLog.t) :=
  dbcall CActivityLog ;;
  ls <- gets activitylogs ;;
  ret (firstn n (rev ls)).

(** [Issuance.find(query).sort({ issuedAt: -1 })] is sorted by the caller of
    this find. *)
Definition Issuance_find (query : Issuance.t -> bool) : M (list Issuance.t) :=
  dbcall CIssuance ;;
  xs <- gets issuances ;;
  ret (filter query xs).

(** ** middleware/alertService.js *)

Definition createAlert (type title message entityType : string)
    (entityId triggeredBy : ObjectId) (severity : string)
  : M (option Alert.t) :=
  try_catch
    (id <- new_ObjectId ;;
     now <- new_Date ;;
     let alert :=
       Alert.mk id type title message severity entityType entityId triggeredBy
                false true (now + 7 * msPerDay) in
     Alert_save alert ;;
     ret (Some alert))
    (fun error => ret None).

Record AlertData := mkAlertData {
  ad_type : string;
  ad_title : string;
  ad_message : string;
  ad_severity : string
}.

(** [alerts[action]] *)
Fixpoint lookup (action : string) (alerts : list (string * AlertData))
  : option AlertData :=
  match alerts with
  | [] => None
  | (k, v) :: rest => if (k =? action)%string then Some v else lookup action rest
  end.

(** The object literal [alerts] of [createUserAlert]. *)
Definition user_alerts (userName : string) : list (string * AlertData) :=
  [ ("added",
     mkAlertData "user_added" "New User Added"
       ("New user " ++ quoted userName ++ " has been added to the system")
       "success");
    ("updated",
     mkAlertData "user_updated" "User Updated"
       ("User " ++ quoted userName ++ " details have been updated")
       "info");
    ("deleted",
     mkAlertData "user_deleted" "User Deleted"
       ("User " ++ quoted userName ++ " has been removed from the system")
       "warning") ].

Definition createUserAlert (action userName : string)
    (userId triggeredBy : ObjectId) : M (option Alert.t) :=
  let alerts := user_alerts userName in
  match lookup action alerts with
  | Some alertData =>
      createAlert (ad_type alertData) (ad_title alertData) (ad_message alertData)
                  "User" userId triggeredBy (ad_severity alertData)
  | None => ret None
  end.

Record AdditionalInfo := mkInfo {
  ai_quantity : option Z;
  ai_expiryDate : option string;
  ai_recipient : option string
}.

Definition noInfo : AdditionalInfo := mkInfo None None None.

(** [${n || 'N/A'}], [${n || 0}], [${s || 'N/A'}] *)
Definition num_or_NA (o : option Z) : string :=
  if truthy_num o then show (nullish o 0) else "N/A".

Definition num_or_0 (o : option Z) : string :=
  if truthy_num o then show (nullish o 0) else "0".

Definition str_or_NA (o : option string) : string :=
  if truthy_str o then nullish o "" else "N/A".

(** The object literal [alerts] of [createMedicineAlert]. *)
Definition medicine_alerts (medicineName : string)
    (additionalInfo : AdditionalInfo) : list (string * AlertData) :=
  [ ("added",
     mkAlertData "medicine_added" "New Medicine Added"
       ("New medicine " ++ quoted medicineName ++ " has been added to inventory")
       "success");
    ("stock_entry",
     mkAlertData "stock_entry" "Stock Entry Recorded"
       ("Stock entry for " ++ quoted medicineName
        ++ " has been recorded. New quantity: "
        ++ num_or_NA (ai_quantity additionalInfo))
       "info");
    ("low_stock",
     mkAlertData "stock_low" "Low Stock Alert"
       (quoted medicineName ++ " is running low. Current stock: "
        ++ num_or_0 (ai_quantity additionalInfo))
       "warning");
    ("expiring",
     mkAlertData "medicine_expiring" "Medicine Expiring Soon"
       (quoted medicineName ++ " will expire on "
        ++ str_or_NA (ai_expiryDate additionalInfo))
       "warning");
    ("expired",
     mkAlertData "medicine_expired" "Medicine Expired"
       (quoted medicineName ++ " has expired and should be removed from inventory")
       "danger");
    ("issued",
     mkAlertData "medicine_issued" "Medicine Issued"
       (num_or_0 (ai_quantity additionalInfo) ++ " units of "
        ++ quoted medicineName ++ " issued to "
        ++ str_or_NA (ai_recipient additionalInfo))
       "info") ].

Definition createMedicineAlert (action medicineName : string)
    (medicineId triggeredBy : ObjectId) (additionalInfo : AdditionalInfo)
  : M (option Alert.t) :=
  let alerts := medicine_alerts medicineName additionalInfo in
  match lookup action alerts with
  | Some alertData =>
      createAlert (ad_type alertData) (ad_title alertData) (ad_message alertData)
                  "Medicine" medicineId triggeredBy (ad_severity alertData)
  | None => ret None
  end.

(** ** middleware/logging.js *)

Definition logActivity (actionType entityType : string)
    (entityId performedBy : ObjectId) (description : string)
    (oldData newData : option Snapshot) (req : option Req) : M unit :=
  try_catch
    (id <- new_ObjectId ;;
     let logEntry :=
       ActivityLog.mk id actionType entityType entityId performedBy description
         oldData newData
         (match req with
          | Some r => if truthy_str (ip r) then ip r else remoteAddress r
          | None => None
          end)
         (match req with
          | Some r => userAgent r
          | None => None
          end) in
     ActivityLog_save logEntry)
    (fun error => ret tt).

(** ** Requests and responses *)

Record IssuanceBody := mkIssuanceBody {
  ib_medicineId : ObjectId;
  ib_issuedTo : string;
  ib_recipientName : string;
  ib_recipientID : string;
  ib_quantityIssued : Z;
  ib_prescribedBy : string;
  ib_notes : option string
}.

(** The body of PUT /api/medicines/:id; [mp_stockToAdd] is
    [parseInt(req.body.stockToAdd)], with [None] for [NaN]. *)
Record MedicinePatch := mkMedicinePatch {
  mp_name : option string;
  mp_category : option string;
  mp_quantity : option Z;
  mp_minQuantity : option Z;
  mp_price : option Q;
  mp_expiryDate : option Date;
  mp_barcode : option string;
  mp_supplier : option string;
  mp_batchNumber : option string;
  mp_description : option string;
  mp_stockToAdd : option Z
}.

Record UserPatch := mkUserPatch {
  up_name : option string;
  up_email : option string;
  up_role : option string;
  up_isActive : option bool
}.

Inductive Json :=
| JErrors (errors : list (string * string))
| JMessage (message : string)
| JMedicine (m : Medicine.t)
| JMedicines (ms : list Medicine.t)
| JIssuance (i : Issuance.t)
| JUserUpdated (message : string) (u : User.t)
| JExpiryReport (expired expiringSoon expiringLater : list Medicine.t)
                (reportGeneratedAt : Date).

Record Response := mkResponse {
  status : Z;
  json : Json
}.

(** One validation chain: the path, whether the value passes, the message. *)
Definition chain (path : string) (ok : bool) (msg : string)
  : list (string * string) :=
  if ok then [] else [(path, msg)].

Definition optional {A : Type} (f : A -> bool) (o : option A) : bool :=
  match o with
  | Some a => f a
  | None => true
  end.

Definition isEmpty {A : Type} (l : list A) : bool :=
  match l with
  | [] => true
  | _ :: _ => false
  end.

(** [if (c) { m }] *)
Definition when (c : bool) (m : M unit) : M unit :=
  if c then m else ret tt.

Definition issuance_validators (b : IssuanceBody) : list (string * string) :=
  chain "issuedTo" (isIn (ib_issuedTo b) Issuance.recipients)
        "Invalid recipient type"
  ++ chain "recipientName" (isLength 1 200 (ib_recipientName b))
        "Recipient name required (max 200 chars)"
  ++ chain "recipientID" (isLength 1 100 (ib_recipientID b))
        "Recipient ID required (max 100 chars)"
  ++ chain "quantityIssued" (1 <=? ib_quantityIssued b)
        "Quantity must be at least 1"
  ++ chain "prescribedBy" (isLength 1 200 (ib_prescribedBy b))
        "Prescribed by required (max 200 chars)"
  ++ chain "notes" (optional (maxlength 500) (ib_notes b))
        "Notes max 500 chars".

Definition medicine_validators (b : MedicineBody) : list (string * string) :=
  chain "name" (isLength 1 200 (mb_name b)) "Invalid value"
  ++ chain "category" (isIn (mb_category b) Medicine.categories) "Invalid value"
  ++ chain "quantity" (0 <=? mb_quantity b) "Invalid value"
  ++ chain "minQuantity" (1 <=? mb_minQuantity b) "Invalid value"
  ++ chain "price" (Qle_bool 0 (mb_price b)) "Invalid value"
  ++ chain "barcode" (optional (maxlength 100) (mb_barcode b)) "Invalid value"
  ++ chain "supplier" (optional (maxlength 200) (mb_supplier b)) "Invalid value"
  ++ chain "batchNumber" (optional (maxlength 100) (mb_batchNumber b))
        "Invalid value"
  ++ chain "description" (optional (maxlength 500) (mb_description b))
        "Invalid value".

Definition patch_validators (b : MedicinePatch) : list (string * string) :=
  chain "name" (optional (isLength 1 200) (mp_name b)) "Invalid value"
  ++ chain "category"
        (optional (fun c => isIn c Medicine.categories) (mp_category b))
        "Invalid value"
  ++ chain "quantity" (optional (Z.leb 0) (mp_quantity b)) "Invalid value"
  ++ chain "minQuantity" (optional (Z.leb 1) (mp_minQuantity b)) "Invalid value"
  ++ chain "price" (optional (Qle_bool 0) (mp_price b)) "Invalid value"
  ++ chain "barcode" (optional (maxlength 100) (mp_barcode b)) "Invalid value"
  ++ chain "supplier" (optional (maxlength 200) (mp_supplier b)) "Invalid value"
  ++ chain "batchNumber" (optional (maxlength 100) (mp_batchNumber b))
        "Invalid value"
  ++ chain "description" (optional (maxlength 500) (mp_description b))
        "Invalid value".

Definition user_validators (b : UserPatch) : list (string * string) :=
  chain "name" (optional (isLength 2 100) (up_name b))
        "Name must be between 2-100 characters"
  ++ chain "role" (optional (fun r => isIn r [ "Admin"; "Pharmacist" ]) (up_role b))
        "Invalid role".

(** [.sort({ expiryDate: 1 })] *)
Fixpoint insert_by_expiry (m : Medicine.t) (l : list Medicine.t)
  : list Medicine.t :=
  match l with
  | [] => [m]
  | x :: rest =>
      if Medicine.expiryDate m <=? Medicine.expiryDate x then m :: l
      else x :: insert_by_expiry m rest
  end.

Definition sort_by_expiry (l : list Medicine.t) : list Medicine.t :=
  fold_right insert_by_expiry [] l.

(** [Medicine.find(query)] *)
Definition Medicine_find (query : Medicine.t -> bool) : M (list Medicine.t) :=
  dbcall CMedicine ;;
  ms <- gets medicines ;;
  ret (filter query ms).

(** The filter [{ isActive: true, expiryDate: { $lte: hi, $gt: lo } }] that
    GET /api/medicines?expiring=true, GET /api/medicines/alerts/expiring,
    GET /api/reports/inventory?expiring=true and GET /api/dashboard/stats
    all build. *)
Definition expiring_query (hi lo : Date) (m : Medicine.t) : bool :=
  Medicine.isActive m
  && (Medicine.expiryDate m <=? hi) && (lo <? Medicine.expiryDate m).

(** ** The query and the answers of routes/alerts.js and of the dashboard *)

(** [req.query] of GET /api/alerts.  [aq_isRead] is the string the client
    sent: the handler compares it with ['true']. *)
Record AlertQuery := mkAlertQuery {
  aq_page : option Z;
  aq_limit : option Z;
  aq_type : option string;
  aq_severity : option string;
  aq_isRead : option string
}.

(** [isBoolean()] *)
Definition isBoolean (s : string) : bool := isIn s [ "true"; "false"; "1"; "0" ].

Definition alert_query_validators (q : AlertQuery) : list (string * string) :=
  chain "page" (optional (Z.leb 1) (aq_page q)) "Page must be a positive integer"
  ++ chain "limit" (optional (fun l => (1 <=? l) && (l <=? 100)) (aq_limit q))
        "Limit must be between 1-100"
  ++ chain "severity"
        (optional (fun s => isIn s Alert.severities) (aq_severity q))
        "Invalid severity"
  ++ chain "isRead" (optional isBoolean (aq_isRead q)) "IsRead must be a boolean".

Record Pagination := mkPagination {
  pg_current : Z;
  pg_pages : Z;
  pg_total : Z;
  pg_limit : Z
}.

(** What the inventory report sums up. *)
Record InventorySummary := mkInventorySummary {
  totalMedicines : Z;
  inv_totalValue : Q;
  lowStockCount : Z;
  inv_reportGeneratedAt : Date
}.

(** One entry of [groupedByType]: the recipient type with its count and its
    quantity. *)
Definition Group : Type := string * (Z * Z).

Record IssuanceSummary := mkIssuanceSummary {
  totalIssuances : Z;
  totalQuantity : Z;
  iss_totalValue : Q;
  groupedByType : list Group;
  iss_reportGeneratedAt : Date;
  period : option Date * option Date
}.

Inductive Payload :=
| PErrors (errors : list (string * string))
| PMessage (message : string)
| PAlert (a : Alert.t)
| PAlertPage (alerts : list Alert.t) (unreadCount : Z) (pagination : Pagination)
| PActivities (activities : list ActivityLog.t)
| PInventoryReport (medicines : list Medicine.t) (summary : InventorySummary)
| PIssuanceReport (issuances : list Issuance.t) (summary : IssuanceSummary).

Record Reply := mkReply {
  code : Z;
  payload : Payload
}.

(** The filter that GET /api/alerts builds from its query. *)
Definition alert_filter (q : AlertQuery) (a : Alert.t) : bool :=
  Alert.isActive a
  && (if truthy_str (aq_type q)
      then (Alert.type a =? nullish (aq_type q) "")%string else true)
  && (if truthy_str (aq_severity q)
      then (Alert.severity a =? nullish (aq_severity q) "")%string else true)
  && match aq_isRead q with
     | Some isRead => Bool.eqb (Alert.isRead a) (isRead =? "true")%string
     | None => true
     end.

(** [{ isActive: true, isRead: false }] *)
Definition unread (a : Alert.t) : bool :=
  Alert.isActive a && negb (Alert.isRead a).

(** ** The queries of routes/reports.js *)

(** [req.query] of GET /api/reports/inventory; [iq_lowStock] and
    [iq_expiring] are the strings the client sent: the handler compares them
    with ['true']. *)
Record InventoryQuery := mkInventoryQuery {
  iq_category : option string;
  iq_lowStock : option string;
  iq_expiring : option string
}.

Definition inventory_query_validators (q : InventoryQuery)
  : list (string * string) :=
  chain "lowStock" (optional isBoolean (iq_lowStock q))
        "LowStock must be a boolean"
  ++ chain "expiring" (optional isBoolean (iq_expiring q))
        "Expiring must be a boolean".

(** [req.query] of GET /api/reports/issuances. *)
Record IssuanceReportQuery := mkIssuanceReportQuery {
  rq_startDate : option Date;
  rq_endDate : option Date;
  rq_issuedTo : option string
}.

Definition issuance_report_validators (q : IssuanceReportQuery)
  : list (string * string) :=
  chain "issuedTo"
        (optional (fun s => isIn s Issuance.recipients) (rq_issuedTo q))
        "Invalid issuedTo value".

(** [Math.round(x)]; a fractional number is a rational, taken exact. *)
Definition Math_round (x : Q) : Z := Qfloor (x + (1 # 2)).

(** [Math.round(x * 100) / 100] *)
Definition round2 (x : Q) : Q := inject_Z (Math_round (x * 100)) / 100.

(** [.sort({ name: 1 })]: strings in the order of their code units. *)
Fixpoint insert_by_name (m : Medicine.t) (l : list Medicine.t)
  : list Medicine.t :=
  match l with
  | [] => [m]
  | x :: rest =>
      if String.leb (Medicine.name m) (Medicine.name x) then m :: l
      else x :: insert_by_name m rest
  end.

Definition sort_by_name (l : list Medicine.t) : list Medicine.t :=
  fold_right insert_by_name [] l.

(** [.sort({ issuedAt: -1 })] *)
Fixpoint insert_by_issuedAt (i : Issuance.t) (l : list Issuance.t)
  : list Issuance.t :=
  match l with
  | [] => [i]
  | x :: rest =>
      if Issuance.issuedAt x <=? Issuance.issuedAt i then i :: l
      else x :: insert_by_issuedAt i rest
  end.

Definition sort_by_issuedAt_desc (l : list Issuance.t) : list Issuance.t :=
  fold_right insert_by_issuedAt [] l.

(** One step of the [reduce] that builds [groupedByType]:
    [acc[k].count += 1; acc[k].quantity += q], with a new key entered last. *)
Fixpoint group_add (k : string) (q : Z) (acc : list Group) : list Group :=
  match acc with
  | [] => [(k, (1, q))]
  | (k', (count, quantity)) :: rest =>
      if (k' =? k)%string then (k', (count + 1, quantity + q)) :: rest
      else (k', (count, quantity)) :: group_add k q rest
  end.

(** ** Sample data *)

Definition demo_user : User.t := User.mk 7%N "Alice" "alice@apms.test" "Admin" true.

Definition demo_pharmacist : User.t :=
  User.mk 8%N "Bob" "bob@apms.test" "Pharmacist" true.

(** Five units on hand, threshold ten, expiring in a hundred days. *)
Definition demo_medicine : Medicine.t :=
  Medicine.mk 1%N "Aspirin" (Some "B-100") "Painkillers" 5 5 10 (3 # 2)
              (1000 + 100 * msPerDay) None None None true 7%N None.

(** A soft-deleted record that still carries its barcode. *)
Definition demo_deleted : Medicine.t :=
  Medicine.mk 2%N "Ibuprofen" (Some "B-200") "Painkillers" 0 40 10 (5 # 2)
              (1000 + 300 * msPerDay) None None None false 7%N (Some 7%N).

Definition demo_world : World :=
  mkWorld [demo_medicine; demo_deleted] [] [] [] [demo_user; demo_pharmacist] []
          3%N 1000 [] (fun _ => []).

(** The same world while the alert and activity-log collections are down. *)
Definition demo_world_side_down : World :=
  mkWorld [demo_medicine; demo_deleted] [] [] [] [demo_user; demo_pharmacist] []
          3%N 1000 []
          (fun c => match c with
                    | CAlert | CActivityLog => [true; true; true; true; true]
                    | _ => []
                    end).

(** The same world when the write of the medicine record fails after its
    read went through. *)
Definition demo_world_save_fails : World :=
  mkWorld [demo_medicine; demo_deleted] [] [] [] [demo_user; demo_pharmacist] []
          3%N 1000 []
          (fun c => match c with
                    | CMedicine => [false; true]
                    | _ => []
                    end).

(** The same world two hundred days later: the record of id 1 is expired. *)
Definition demo_world_late : World :=
  mkWorld [demo_medicine; demo_deleted] [] [] [] [demo_user; demo_pharmacist] []
          3%N (1000 + 200 * msPerDay) [] (fun _ => []).

(** The same world at the very instant at which the record of id 1 expires. *)
Definition demo_world_boundary : World :=
  mkWorld [demo_medicine; demo_deleted] [] [] [] [demo_user; demo_pharmacist] []
          3%N (1000 + 100 * msPerDay) [] (fun _ => []).



Definition demo_req : Req := mkReq 7%N None None None.

Definition demo_issue (q : Z) : IssuanceBody :=
  mkIssuanceBody 1%N "Employee" "Carol" "E-17" q "Dr. Weiss" None.

Definition demo_restock (d : Z) : MedicinePatch :=
  mkMedicinePatch None None None None None None None None None None (Some d).

(** An update that names a quantity, as the form of the client does, and
    adds no stock. *)
Definition demo_edit_quantity (q : Z) : MedicinePatch :=
  mkMedicinePatch None None (Some q) None None None None None None None None.

Definition demo_rename : UserPatch := mkUserPatch (Some "Robert") None None None.

(** A new medicine under the barcode of the soft-deleted record. *)
Definition demo_reuse : MedicineBody :=
  mkMedicineBody "Ibuprofen 400" "Painkillers" 30 10 (5 # 2)
                 (1000 + 300 * msPerDay) (Some "B-200") None None None
                 None None.

Definition demo_toDateString (d : Date) : string := "Thu Jan 01 1970".

(** Three alerts: one unread, one read, one deleted. *)
Definition demo_alert (id : ObjectId) (isRead isActive : bool) : Alert.t :=
  Alert.mk id "stock_low" "Low Stock Alert"
           (quoted "Aspirin" ++ " is running low. Current stock: 5") "warning"
           "Medicine" 1%N 7%N isRead isActive (1000 + 7 * msPerDay).

Definition demo_world_alerts : World :=
  mkWorld [demo_medicine; demo_deleted] [] []
          [demo_alert 3%N false true; demo_alert 4%N true true;
           demo_alert 5%N false false]
          [demo_user; demo_pharmacist] [] 6%N 1000 [] (fun _ => []).

(** Page 2 of the alerts, one alert to the page. *)
Definition demo_alert_query : AlertQuery :=
  mkAlertQuery (Some 2) (Some 1) None None None.

(** A world whose only medicine has nothing gone out, and an empty ledger. *)
Definition demo_world_fresh : World :=
  mkWorld [demo_medicine] [] [] [] [demo_user; demo_pharmacist] []
          3%N 1000 [] (fun _ => []).

(** A second active medicine, under the barcode B-300. *)
Definition demo_second : Medicine.t :=
  Medicine.mk 2%N "Amoxicillin" (Some "B-300") "Antibiotics" 40 40 10 (7 # 2)
              (1000 + 20 * msPerDay) None None None true 7%N None.

Definition demo_world_two : World :=
  mkWorld [demo_medicine; demo_second] [] [] [] [demo_user; demo_pharmacist] []
          3%N 1000 [] (fun _ => []).

(** An update that asks for the barcode of the first medicine. *)
Definition demo_rebarcode : MedicinePatch :=
  mkMedicinePatch None None None None None None (Some "B-100") None None None
                  None.

(** A new medicine under a barcode that nobody holds. *)
Definition demo_new : MedicineBody :=
  mkMedicineBody "Paracetamol" "Painkillers" 8 10 (1 # 2)
                 (1000 + 200 * msPerDay) (Some "B-400") None None None
                 None None.

(** Three ledger entries, two to employees and one to a guest. *)
Definition demo_entry (id : ObjectId) (issuedTo : string) (q : Z) (at_ : Date)
  : Issuance.t :=
  Issuance.mk id 1%N issuedTo "Carol" "E-17" q "Dr. Weiss" None 7%N at_.

Definition demo_world_ledger : World :=
  mkWorld [Medicine.set_quantity 0 demo_medicine]
          [demo_entry 3%N "Employee" 2 100; demo_entry 4%N "GIZ Guest" 1 300;
           demo_entry 5%N "Employee" 2 200]
          [] [] [demo_user; demo_pharmacist] [] 6%N 1000 [] (fun _ => []).

Definition demo_report_query : IssuanceReportQuery :=
  mkIssuanceReportQuery (Some 50) None None.

Definition demo_inventory_query : InventoryQuery :=
  mkInventoryQuery None (Some "true") None.

(** A request of the pharmacist. *)
Definition demo_req_pharmacist : Req := mkReq 8%N None None None.

(** An update that asks for the email of another user. *)
Definition demo_steal_email : UserPatch :=
  mkUserPatch None (Some "alice@apms.test") None None.


(** The record that the creation of [demo_new] stores in [demo_world]. *)
Definition demo_created : Medicine.t :=
  Medicine.mk 3%N "Paracetamol" (Some "B-400") "Painkillers" 8 8 10 (1 # 2)
              (1000 + 200 * msPerDay) None None None true 7%N None.

(** The same body with [isActive: false], and the record that it stores. *)
Definition demo_new_inactive : MedicineBody :=
  mkMedicineBody "Paracetamol" "Painkillers" 8 10 (1 # 2)
                 (1000 + 200 * msPerDay) (Some "B-400") None None None
                 (Some false) None.

Definition demo_created_inactive : Medicine.t :=
  Medicine.mk 3%N "Paracetamol" (Some "B-400") "Painkillers" 8 8 10 (1 # 2)
              (1000 + 200 * msPerDay) None None None false 7%N None.

Section Handlers.

(** [Date.prototype.toDateString], which depends on the locale of the host. *)
Variable toDateString : Date -> string.

(** *** middleware/alertService.js, continued *)

Definition checkAndCreateStockAlerts (medicine : Medicine.t)
    (triggeredBy : ObjectId) : M unit :=
  when (Medicine.quantity medicine <=? Medicine.minQuantity medicine)
    (createMedicineAlert "low_stock" (Medicine.name medicine)
       (Medicine._id medicine) triggeredBy
       (mkInfo (Some (Medicine.quantity medicine)) None None) ;;
     ret tt) ;;
  d <- new_Date ;;
  let thirtyDaysFromNow := addDays 30 d in
  expiring <-
    (if Medicine.expiryDate medicine <=? thirtyDaysFromNow then
       now <- new_Date ;;
       ret (now <? Medicine.expiryDate medicine)
     else ret false) ;;
  when expiring
    (createMedicineAlert "expiring" (Medicine.name medicine)
       (Medicine._id medicine) triggeredBy
       (mkInfo None (Some (toDateString (Medicine.expiryDate medicine))) None) ;;
     ret tt) ;;
  now <- new_Date ;;
  when (Medicine.expiryDate medicine <=? now)
    (createMedicineAlert "expired" (Medicine.name medicine)
       (Medicine._id medicine) triggeredBy
       (mkInfo None (Some (toDateString (Medicine.expiryDate medicine))) None) ;;
     ret tt).

(** *** routes/issuances.js: POST / *)

Definition issuances_post (req : Req) (body : IssuanceBody) : M Response :=
  try_catch
    (let errors := issuance_validators body in
     if negb (isEmpty errors) then ret (mkResponse 400 (JErrors errors)) else
     let medicineId := ib_medicineId body in
     let quantityIssued := ib_quantityIssued body in
     found <- Medicine_findById medicineId ;;
     match found with
     | None => ret (mkResponse 404 (JMessage "Medicine not found"))
     | Some medicine =>
       if negb (Medicine.isActive medicine) then
         ret (mkResponse 404 (JMessage "Medicine not found"))
       else if Medicine.quantity medicine <? quantityIssued then
         ret (mkResponse 400 (JMessage
                ("Insufficient stock. Available: "
                 ++ show (Medicine.quantity medicine)
                 ++ ", Requested: " ++ show quantityIssued)))
       else
         now <- new_Date ;;
         if Medicine.expiryDate medicine <=? now then
           ret (mkResponse 400 (JMessage "Cannot issue expired medicine"))
         else
           id <- new_ObjectId ;;
           issuedAt <- new_Date ;;
           let issuance :=
             Issuance.mk id medicineId (ib_issuedTo body)
               (ib_recipientName body) (ib_recipientID body) quantityIssued
               (ib_prescribedBy body) (ib_notes body) (reqUser req) issuedAt in
           Issuance_save issuance ;;
           let oldQuantity := Medicine.quantity medicine in
           let medicine :=
             Medicine.set_updatedBy (reqUser req)
               (Medicine.set_quantity
                  (Medicine.quantity medicine - quantityIssued) medicine) in
           Medicine_save false medicine ;;
           (* issuance.populate([medicineId, issuedBy]) *)
           dbcall CMedicine ;;
           dbcall CUser ;;
           logActivity "Issue" "Medicine" (Medicine._id medicine) (reqUser req)
             ("Issued " ++ show quantityIssued ++ " units of "
              ++ Medicine.name medicine ++ " to " ++ ib_recipientName body
              ++ " (" ++ ib_issuedTo body ++ ")")
             (Some (SnapQuantity oldQuantity))
             (Some (SnapQuantity (Medicine.quantity medicine)))
             (Some req) ;;
           createMedicineAlert "issued" (Medicine.name medicine)
             (Medicine._id medicine) (reqUser req)
             (mkInfo (Some quantityIssued) None (Some (ib_recipientName body))) ;;
           checkAndCreateStockAlerts medicine (reqUser req) ;;
           ret (mkResponse 201 (JIssuance issuance))
     end)
    (fun error => ret (mkResponse 500 (JMessage "Failed to issue medicine"))).

(** *** routes/medicines.js *)

(** The catch clause of POST / and PUT /:id. *)
Definition barcode_or_500 (failed : string) (error : Exn) : M Response :=
  match error with
  | MongoServerError 11000 =>
      ret (mkResponse 400 (JMessage "Medicine with this barcode already exists"))
  | _ => ret (mkResponse 500 (JMessage failed))
  end.

(** POST / *)
Definition medicines_post (req : Req) (body : MedicineBody) : M Response :=
  try_catch
    (let errors := medicine_validators body in
     if negb (isEmpty errors) then ret (mkResponse 400 (JErrors errors)) else
     let initialStock := mb_quantity body in
     let createdBy := reqUser req in
     existingMedicine <-
       (if truthy_str (mb_barcode body) then
          Medicine_findOne_barcode (nullish (mb_barcode body) "")
        else ret None) ;;
     match existingMedicine with
     | Some _ =>
         ret (mkResponse 400
                (JMessage "Medicine with this barcode already exists"))
     | None =>
         id <- new_ObjectId ;;
         let medicine :=
           Medicine.mk id (mb_name body) (mb_barcode body) (mb_category body)
             (mb_quantity body) initialStock (mb_minQuantity body)
             (mb_price body) (mb_expiryDate body) (mb_supplier body)
             (mb_batchNumber body) (mb_description body)
             (* isActive: { type: Boolean, default: true } *)
             (nullish (mb_isActive body) true) createdBy (mb_updatedBy body) in
         Medicine_save true medicine ;;
         (* medicine.populate('createdBy', 'name') *)
         dbcall CUser ;;
         logActivity "Add" "Medicine" (Medicine._id medicine) (reqUser req)
           ("Added new medicine: " ++ Medicine.name medicine)
           None (Some (SnapMedicineData body initialStock createdBy))
           (Some req) ;;
         createMedicineAlert "added" (Medicine.name medicine)
           (Medicine._id medicine) (reqUser req) noInfo ;;
         checkAndCreateStockAlerts medicine (reqUser req) ;;
         ret (mkResponse 201 (JMedicine medicine))
     end)
    (barcode_or_500 "Failed to add medicine").

(** [Object.assign(medicine, { name: req.body.name ?? medicine.name, ... })] *)
Definition assign_patch (body : MedicinePatch) (m : Medicine.t) : Medicine.t :=
  Medicine.mk (Medicine._id m)
    (nullish (mp_name body) (Medicine.name m))
    (match mp_barcode body with
     | Some b => Some b
     | None => Medicine.barcode m
     end)
    (nullish (mp_category body) (Medicine.category m))
    (Medicine.quantity m) (Medicine.initialStock m) (Medicine.minQuantity m)
    (nullish (mp_price body) (Medicine.price m))
    (nullish (mp_expiryDate body) (Medicine.expiryDate m))
    (match mp_supplier body with
     | Some s => Some s
     | None => Medicine.supplier m
     end)
    (match mp_batchNumber body with
     | Some s => Some s
     | None => Medicine.batchNumber m
     end)
    (match mp_description body with
     | Some s => Some s
     | None => Medicine.description m
     end)
    (Medicine.isActive m) (Medicine.createdBy m) (Medicine.updatedBy m).

(** PUT /:id.  The assignment to [medicine.stockOut] targets a virtual
    that has no setter and stores nothing. *)
Definition medicines_put (req : Req) (id : ObjectId) (body : MedicinePatch)
  : M Response :=
  try_catch
    (let errors := patch_validators body in
     if negb (isEmpty errors) then ret (mkResponse 400 (JErrors errors)) else
     found <- Medicine_findById id ;;
     match found with
     | None => ret (mkResponse 404 (JMessage "Medicine not found"))
     | Some medicine =>
       if negb (Medicine.isActive medicine) then
         ret (mkResponse 404 (JMessage "Medicine not found"))
       else
         let oldData := medicine in
         let oldQuantity := Medicine.quantity medicine in
         existing <-
           (if truthy_str (mp_barcode body)
               && negb (opt_str_eqb (mp_barcode body) (Medicine.barcode medicine))
            then Medicine_findOne_barcode_ne (nullish (mp_barcode body) "")
                   (Medicine._id medicine)
            else ret None) ;;
         match existing with
         | Some _ =>
             ret (mkResponse 400
                    (JMessage "Medicine with this barcode already exists"))
         | None =>
             let stockToAdd := nullish (mp_stockToAdd body) 0 in
             let medicine :=
               if 0 <? stockToAdd then
                 Medicine.set_initialStock
                   (Medicine.initialStock medicine + stockToAdd)
                   (Medicine.set_quantity
                      (Medicine.quantity medicine + stockToAdd) medicine)
               else medicine in
             let medicine := assign_patch body medicine in
             let medicine := Medicine.set_updatedBy (reqUser req) medicine in
             Medicine_save false medicine ;;
             (* medicine.populate(['createdBy updatedBy', 'name']) *)
             dbcall CUser ;;
             logActivity "Update" "Medicine" (Medicine._id medicine) (reqUser req)
               ("Updated medicine: " ++ Medicine.name medicine)
               (Some (SnapMedicine oldData)) (Some (SnapMedicine medicine))
               (Some req) ;;
             when (truthy_num (mp_quantity body)
                   && (oldQuantity <? nullish (mp_quantity body) 0))
               (createMedicineAlert "stock_entry" (Medicine.name medicine)
                  (Medicine._id medicine) (reqUser req)
                  (mkInfo (Some (Medicine.quantity medicine)) None None) ;;
                ret tt) ;;
             checkAndCreateStockAlerts medicine (reqUser req) ;;
             ret (mkResponse 200 (JMedicine medicine))
         end
     end)
    (barcode_or_500 "Failed to update medicine").

(** DELETE /:id *)
Definition medicines_delete (req : Req) (id : ObjectId) : M Response :=
  try_catch
    (found <- Medicine_findById id ;;
     match found with
     | None => ret (mkResponse 404 (JMessage "Medicine not found"))
     | Some medicine =>
       if negb (Medicine.isActive medicine) then
         ret (mkResponse 404 (JMessage "Medicine not found"))
       else
         let oldData := medicine in
         let medicine :=
           Medicine.set_updatedBy (reqUser req)
             (Medicine.set_isActive false medicine) in
         Medicine_save false medicine ;;
         logActivity "Delete" "Medicine" (Medicine._id medicine) (reqUser req)
           ("Deleted medicine: " ++ Medicine.name medicine)
           (Some (SnapMedicine oldData)) (Some (SnapIsActive false))
           (Some req) ;;
         ret (mkResponse 200 (JMessage "Medicine deleted successfully"))
     end)
    (fun error => ret (mkResponse 500 (JMessage "Failed to delete medicine"))).

(** GET /alerts/expiring *)
Definition medicines_alerts_expiring : M Response :=
  try_catch
    (d <- new_Date ;;
     let thirtyDaysFromNow := addDays 30 d in
     now <- new_Date ;;
     expiringMedicines <- Medicine_find (expiring_query thirtyDaysFromNow now) ;;
     (* .populate('createdBy', 'name') *)
     dbcall CUser ;;
     ret (mkResponse 200 (JMedicines expiringMedicines)))
    (fun error =>
       ret (mkResponse 500 (JMessage "Failed to fetch expiring medicines"))).

(** *** routes/dashboard.js: the [expiringMedicines] count of GET /stats *)
Definition dashboard_expiringMedicines : M nat :=
  d <- new_Date ;;
  let thirtyDaysFromNow := addDays 30 d in
  now <- new_Date ;;
  found <- Medicine_find (expiring_query thirtyDaysFromNow now) ;;
  ret (List.length found).

(** *** routes/reports.js: GET /expiry *)
Definition reports_expiry : M Response :=
  try_catch
    (now <- new_Date ;;
     d30 <- new_Date ;;
     let thirtyDaysFromNow := addDays 30 d30 in
     d60 <- new_Date ;;
     let sixtyDaysFromNow := addDays 60 d60 in
     expired <-
       Medicine_find (fun m => Medicine.isActive m
                               && (Medicine.expiryDate m <? now)) ;;
     expiringSoon <-
       Medicine_find (fun m => Medicine.isActive m
                               && (now <=? Medicine.expiryDate m)
                               && (Medicine.expiryDate m <=? thirtyDaysFromNow)) ;;
     expiringLater <-
       Medicine_find (fun m => Medicine.isActive m
                               && (thirtyDaysFromNow <? Medicine.expiryDate m)
                               && (Medicine.expiryDate m <=? sixtyDaysFromNow)) ;;
     reportGeneratedAt <- new_Date ;;
     ret (mkResponse 200
            (JExpiryReport (sort_by_expiry expired) (sort_by_expiry expiringSoon)
               (sort_by_expiry expiringLater) reportGeneratedAt)))
    (fun error =>
       ret (mkResponse 500 (JMessage "Failed to generate expiry report"))).

(** *** routes/users.js *)

(** [Object.assign(user, req.body)] *)
Definition assign_user (body : UserPatch) (u : User.t) : User.t :=
  User.mk (User._id u)
    (nullish (up_name body) (User.name u))
    (nullish (up_email body) (User.email u))
    (nullish (up_role body) (User.role u))
    (nullish (up_isActive body) (User.isActive u)).

(** PUT /:id *)
Definition users_put (req : Req) (id : ObjectId) (body : UserPatch)
  : M Response :=
  try_catch
    (let errors := user_validators body in
     if negb (isEmpty errors) then ret (mkResponse 400 (JErrors errors)) else
     found <- User_findById id ;;
     match found with
     | None => ret (mkResponse 404 (JMessage "User not found"))
     | Some user =>
         let oldData := user in
         existingUser <-
           (if truthy_str (up_email body)
               && negb (nullish (up_email body) "" =? User.email user)%string
            then User_findOne_email_ne (nullish (up_email body) "") (User._id user)
            else ret None) ;;
         match existingUser with
         | Some _ =>
             ret (mkResponse 400 (JMessage "User with this email already exists"))
         | None =>
             let user := assign_user body user in
             User_save user ;;
             logActivity "Update" "User" (User._id user) (reqUser req)
               ("Updated user: " ++ User.name user)
               (Some (SnapUser oldData)) (Some (SnapUser user)) (Some req) ;;
             createUserAlert "updated" (User.name user) (User._id user)
               (reqUser req) ;;
             ret (mkResponse 200 (JUserUpdated "User updated successfully" user))
         end
     end)
    (fun error => ret (mkResponse 500 (JMessage "Failed to update user"))).

(** DELETE /:id *)
Definition users_delete (req : Req) (id : ObjectId) : M Response :=
  try_catch
    (found <- User_findById id ;;
     match found with
     | None => ret (mkResponse 404 (JMessage "User not found"))
     | Some user =>
         lastAdmin <-
           (if (User.role user =? "Admin")%string then
              adminCount <- User_count_admins_ne (User._id user) ;;
              ret (adminCount =? 0)%nat
            else ret false) ;;
         if lastAdmin then
           ret (mkResponse 400 (JMessage "Cannot delete the last admin user"))
         else if (User._id user =? reqUser req)%N then
           ret (mkResponse 400 (JMessage "Cannot delete your own account"))
         else
           let userData := user in
           User_findByIdAndDelete id ;;
           logActivity "Delete" "User" (User._id user) (reqUser req)
             ("Deleted user: " ++ User.name user)
             (Some (SnapUser userData)) None (Some req) ;;
           createUserAlert "deleted" (User.name user) (User._id user)
             (reqUser req) ;;
           ret (mkResponse 200 (JMessage "User deleted successfully"))
     end)
    (fun error => ret (mkResponse 500 (JMessage "Failed to delete user"))).

(** *** routes/medicines.js: GET /:id and GET /alerts/low-stock.
    A [populate] is one round trip to the collection it reads. *)

Definition medicines_get_id (id : ObjectId) : M Response :=
  try_catch
    (found <- Medicine_findById id ;;
     (* .populate('createdBy', 'name').populate('updatedBy', 'name') *)
     dbcall CUser ;;
     dbcall CUser ;;
     match found with
     | None => ret (mkResponse 404 (JMessage "Medicine not found"))
     | Some medicine =>
       if negb (Medicine.isActive medicine) then
         ret (mkResponse 404 (JMessage "Medicine not found"))
       else ret (mkResponse 200 (JMedicine medicine))
     end)
    (fun error => ret (mkResponse 500 (JMessage "Failed to fetch medicine"))).

Definition medicines_alerts_low_stock : M Response :=
  try_catch
    (lowStockMedicines <-
       Medicine_find (fun m => Medicine.isActive m
                               && (Medicine.quantity m <=? Medicine.minQuantity m)) ;;
     (* .populate('createdBy', 'name') *)
     dbcall CUser ;;
     ret (mkResponse 200 (JMedicines lowStockMedicines)))
    (fun error =>
       ret (mkResponse 500 (JMessage "Failed to fetch low stock medicines"))).

(** *** routes/issuances.js: GET /:id *)

Definition issuances_get_id (id : ObjectId) : M Response :=
  try_catch
    (found <- Issuance_findById id ;;
     (* .populate('medicineId', 'name category').populate('issuedBy', 'name') *)
     dbcall CMedicine ;;
     dbcall CUser ;;
     match found with
     | None => ret (mkResponse 404 (JMessage "Issuance not found"))
     | Some issuance => ret (mkResponse 200 (JIssuance issuance))
     end)
    (fun error => ret (mkResponse 500 (JMessage "Failed to fetch issuance"))).

(** *** routes/alerts.js *)

(** GET / *)
Definition alerts_get (q : AlertQuery) : M Reply :=
  try_catch
    (let errors := alert_query_validators q in
     if negb (isEmpty errors) then ret (mkReply 400 (PErrors errors)) else
     let page := nullish (aq_page q) 1 in
     let limit := nullish (aq_limit q) 20 in
     let query := alert_filter q in
     let skip := (page - 1) * limit in
     alerts <- Alert_find_page query skip limit ;;
     (* .populate('triggeredBy', 'name role') *)
     dbcall CUser ;;
     total <- Alert_countDocuments query ;;
     unreadCount <- Alert_countDocuments unread ;;
     ret (mkReply 200
            (PAlertPage alerts unreadCount
               (mkPagination page (Math_ceil_div total limit) total limit))))
    (fun error => ret (mkReply 500 (PMessage "Failed to fetch alerts"))).

(** PATCH /:id/read *)
Definition alerts_patch_read (id : ObjectId) : M Reply :=
  try_catch
    (alert <- Alert_findByIdAndUpdate id (Alert_set_isRead true) ;;
     match alert with
     | None => ret (mkReply 404 (PMessage "Alert not found"))
     | Some a => ret (mkReply 200 (PAlert a))
     end)
    (fun error => ret (mkReply 500 (PMessage "Failed to mark alert as read"))).

(** PATCH /mark-all-read *)
Definition alerts_mark_all_read : M Reply :=
  try_catch
    (Alert_updateMany unread (Alert_set_isRead true) ;;
     ret (mkReply 200 (PMessage "All alerts marked as read")))
    (fun error =>
       ret (mkReply 500 (PMessage "Failed to mark all alerts as read"))).

(** DELETE /:id *)
Definition alerts_delete (id : ObjectId) : M Reply :=
  try_catch
    (alert <- Alert_findByIdAndUpdate id (Alert_set_isActive false) ;;
     match alert with
     | None => ret (mkReply 404 (PMessage "Alert not found"))
     | Some _ => ret (mkReply 200 (PMessage "Alert deleted successfully"))
     end)
    (fun error => ret (mkReply 500 (PMessage "Failed to delete alert"))).

(** GET /:id *)
Definition alerts_get_id (id : ObjectId) : M Reply :=
  try_catch
    (found <- Alert_findById id ;;
     (* .populate('triggeredBy', 'name role email') *)
     dbcall CUser ;;
     match found with
     | None => ret (mkReply 404 (PMessage "Alert not found"))
     | Some alert =>
       if negb (Alert.isActive alert) then
         ret (mkReply 404 (PMessage "Alert not found"))
       else ret (mkReply 200 (PAlert alert))
     end)
    (fun error => ret (mkReply 500 (PMessage "Failed to fetch alert details"))).

(** *** routes/dashboard.js: GET /recent-activities *)

Definition dashboard_recent_activities : M Reply :=
  try_catch
    (activities <- ActivityLog_find_latest 10 ;;
     (* .populate('performedBy', 'name role') *)
     dbcall CUser ;;
     ret (mkReply 200 (PActivities activities)))
    (fun error =>
       ret (mkReply 500 (PMessage "Failed to fetch recent activities"))).

(** *** routes/reports.js: GET /inventory and GET /issuances *)

Definition reports_inventory (q : InventoryQuery) : M Reply :=
  try_catch
    (let errors := inventory_query_validators q in
     if negb (isEmpty errors) then ret (mkReply 400 (PErrors errors)) else
     window <-
       (if opt_str_eqb (iq_expiring q) (Some "true") then
          d <- new_Date ;;
          let thirtyDaysFromNow := addDays 30 d in
          now <- new_Date ;;
          ret (Some (thirtyDaysFromNow, now))
        else ret None) ;;
     let query m :=
       Medicine.isActive m
       && (if truthy_str (iq_category q)
           then (Medicine.category m =? nullish (iq_category q) "")%string
           else true)
       && (if opt_str_eqb (iq_lowStock q) (Some "true")
           then Medicine.quantity m <=? Medicine.minQuantity m else true)
       && match window with
          | Some (hi, lo) =>
              (Medicine.expiryDate m <=? hi) && (lo <? Medicine.expiryDate m)
          | None => true
          end in
     found <- Medicine_find query ;;
     (* .populate('createdBy', 'name') *)
     dbcall CUser ;;
     let medicines := sort_by_name found in
     let totalMedicines := Z.of_nat (List.length medicines) in
     let totalValue :=
       fold_left (fun sum med =>
                    (sum + inject_Z (Medicine.quantity med) * Medicine.price med)%Q)
                 medicines 0%Q in
     let lowStockCount :=
       Z.of_nat (List.length
                   (filter (fun med => Medicine.quantity med
                                       <=? Medicine.minQuantity med)
                           medicines)) in
     reportGeneratedAt <- new_Date ;;
     ret (mkReply 200
            (PInventoryReport medicines
               (mkInventorySummary totalMedicines (round2 totalValue)
                  lowStockCount reportGeneratedAt))))
    (fun error =>
       ret (mkReply 500 (PMessage "Failed to generate inventory report"))).

Definition reports_issuances (q : IssuanceReportQuery) : M Reply :=
  try_catch
    (let errors := issuance_report_validators q in
     if negb (isEmpty errors) then ret (mkReply 400 (PErrors errors)) else
     let query i :=
       optional (fun d => d <=? Issuance.issuedAt i) (rq_startDate q)
       && optional (fun d => Issuance.issuedAt i <=? d) (rq_endDate q)
       && (if truthy_str (rq_issuedTo q)
           then (Issuance.issuedTo i =? nullish (rq_issuedTo q) "")%string
           else true) in
     found <- Issuance_find query ;;
     (* .populate('medicineId', 'name category price') *)
     dbcall CMedicine ;;
     ms <- gets medicines ;;
     (* .populate('issuedBy', 'name') *)
     dbcall CUser ;;
     let issuances := sort_by_issuedAt_desc found in
     let totalIssuances := Z.of_nat (List.length issuances) in
     let totalQuantity :=
       fold_left (fun sum iss => sum + Issuance.quantityIssued iss) issuances 0 in
     (* iss.medicineId?.price || 0 *)
     let price iss :=
       match find (has_id (Issuance.medicineId iss)) ms with
       | Some medicine => Medicine.price medicine
       | None => 0%Q
       end in
     let totalValue :=
       fold_left (fun sum iss =>
                    (sum + inject_Z (Issuance.quantityIssued iss) * price iss)%Q)
                 issuances 0%Q in
     let groupedByType :=
       fold_left (fun acc iss =>
                    group_add (Issuance.issuedTo iss)
                              (Issuance.quantityIssued iss) acc)
                 issuances [] in
     reportGeneratedAt <- new_Date ;;
     ret (mkReply 200
            (PIssuanceReport issuances
               (mkIssuanceSummary totalIssuances totalQuantity
                  (round2 totalValue) groupedByType reportGeneratedAt
                  (rq_startDate q, rq_endDate q)))))
    (fun error =>
       ret (mkReply 500 (PMessage "Failed to generate issuance report"))).

(** The router of /api/alerts. *)
Inductive AlertRequest :=
| GetAlerts (q : AlertQuery)
| PatchAlertRead (id : ObjectId)
| PatchAlertsMarkAllRead
| DeleteAlert (id : ObjectId)
| GetAlert (id : ObjectId).

Definition alert_handle (r : AlertRequest) : M Reply :=
  match r with
  | GetAlerts q => alerts_get q
  | PatchAlertRead id => alerts_patch_read id
  | PatchAlertsMarkAllRead => alerts_mark_all_read
  | DeleteAlert id => alerts_delete id
  | GetAlert id => alerts_get_id id
  end.

Definition alert_serve (rs : list AlertRequest) (w : World) : World :=
  fold_left (fun w r => snd (alert_handle r w)) rs w.

(** *** The server: one request after another *)

Inductive Request :=
| PostMedicine (req : Req) (body : MedicineBody)
| PutMedicine (req : Req) (id : ObjectId) (body : MedicinePatch)
| DeleteMedicine (req : Req) (id : ObjectId)
| GetExpiringMedicines
| PostIssuance (req : Req) (body : IssuanceBody)
| GetExpiryReport
| PutUser (req : Req) (id : ObjectId) (body : UserPatch)
| DeleteUser (req : Req) (id : ObjectId).

Definition handle (r : Request) : M Response :=
  match r with
  | PostMedicine req body => medicines_post req body
  | PutMedicine req id body => medicines_put req id body
  | DeleteMedicine req id => medicines_delete req id
  | GetExpiringMedicines => medicines_alerts_expiring
  | PostIssuance req body => issuances_post req body
  | GetExpiryReport => reports_expiry
  | PutUser req id body => users_put req id body
  | DeleteUser req id => users_delete req id
  end.

(** The world after a request was served. *)
Definition after (r : Request) (w : World) : World := snd (handle r w).

Definition serve (rs : list Request) (w : World) : World :=
  fold_left (fun w r => after r w) rs w.

(** ** Vocabulary of the statements *)

(** The alerts that [save()] was called on, in journal order. *)
Fixpoint alert_calls (l : list Entry) : list Alert.t :=
  match l with
  | [] => []
  | (WAlert a, _) :: rest => a :: alert_calls rest
  | _ :: rest => alert_calls rest
  end.

(** What an alert says: its type, its severity and its message. *)
Definition brief (a : Alert.t) : string * string * string :=
  (Alert.type a, Alert.severity a, Alert.message a).

Definition kind (b : string * string * string) : string * string := fst b.

(** The alerts that entered the store. *)
Fixpoint stored (l : list Entry) : list Alert.t :=
  match l with
  | [] => []
  | (WAlert a, true) :: rest => a :: stored rest
  | _ :: rest => stored rest
  end.

Definition alert_entry (e : Entry) : Prop :=
  match fst e with
  | WAlert _ => True
  | _ => False
  end.

(** A journal entry of one of the two side channels. *)
Definition side_entry (e : Entry) : Prop :=
  match fst e with
  | WAlert _ | WActivityLog _ => True
  | _ => False
  end.

(** The six stores and the journal are the same in [w] and [w']. *)
Definition data_eq (w w' : World) : Prop :=
  medicines w' = medicines w /\ issuances w' = issuances w
  /\ activitylogs w' = activitylogs w /\ alerts w' = alerts w
  /\ users w' = users w /\ journal w' = journal w.

(** No call on the primary collections is going to fail. *)
Definition primary_up (w : World) : Prop :=
  faults w CMedicine = [] /\ faults w CIssuance = [] /\ faults w CUser = [].

(** A step of the environment only: a clock read or a round trip that
    wrote nothing. *)
Definition env_step (w w' : World) : Prop :=
  data_eq w w' /\ nextId w' = nextId w
  /\ (ticks w = [] -> ticks w' = [] /\ clock w' = clock w)
  /\ (forall c, faults w c = [] -> faults w' c = []).

(** What a side channel may change between [w] and [w']: not the primary
    collections, not their health, and not a stopped clock; the journal
    grows by side-channel entries only. *)
Definition side_frame (w w' : World) : Prop :=
  medicines w' = medicines w /\ issuances w' = issuances w
  /\ users w' = users w
  /\ (forall c, c <> CAlert -> c <> CActivityLog ->
       faults w c = [] -> faults w' c = [])
  /\ (ticks w = [] -> ticks w' = [] /\ clock w' = clock w)
  /\ exists l, journal w' = (journal w ++ l)%list /\ Forall side_entry l.

(** A run of the alert service from [w] to [w'] that called [save()] on
    alerts saying [said], in this order, and on nothing else. *)
Definition alert_step (w w' : World) (said : list (string * string * string))
  : Prop :=
  side_frame w w' /\ activitylogs w' = activitylogs w
  /\ exists l, journal w' = (journal w ++ l)%list
               /\ Forall alert_entry l
               /\ alerts w' = (alerts w ++ stored l)%list
               /\ map brief (alert_calls l) = said.

(** The stock-check policy in the words of the specification: three
    conditions on the record, one alert for each that holds. *)
Definition stock_check_policy (now : Date) (m : Medicine.t)
  : list (string * string * string) :=
  (if Medicine.quantity m <=? Medicine.minQuantity m then
     [ ("stock_low", "warning",
        quoted (Medicine.name m) ++ " is running low. Current stock: "
        ++ num_or_0 (Some (Medicine.quantity m))) ]
   else [])
  ++ (if (now <? Medicine.expiryDate m)
         && (Medicine.expiryDate m <=? now + 30 * msPerDay) then
        [ ("medicine_expiring", "warning",
           quoted (Medicine.name m) ++ " will expire on "
           ++ str_or_NA (Some (toDateString (Medicine.expiryDate m)))) ]
      else [])
  ++ (if Medicine.expiryDate m <=? now then
        [ ("medicine_expired", "danger",
           quoted (Medicine.name m)
           ++ " has expired and should be removed from inventory") ]
      else []).

(** What [checkAndCreateStockAlerts] says when its three clock reads return
    [t1], [t2] and [t3]. *)
Definition stock_alerts_at (t1 t2 t3 : Date) (m : Medicine.t)
  : list (string * string * string) :=
  (if Medicine.quantity m <=? Medicine.minQuantity m then
     [ ("stock_low", "warning",
        quoted (Medicine.name m) ++ " is running low. Current stock: "
        ++ num_or_0 (Some (Medicine.quantity m))) ]
   else [])
  ++ (if (Medicine.expiryDate m <=? addDays 30 t1)
         && (t2 <? Medicine.expiryDate m) then
        [ ("medicine_expiring", "warning",
           quoted (Medicine.name m) ++ " will expire on "
           ++ str_or_NA (Some (toDateString (Medicine.expiryDate m)))) ]
      else [])
  ++ (if Medicine.expiryDate m <=? t3 then
        [ ("medicine_expired", "danger",
           quoted (Medicine.name m)
           ++ " has expired and should be removed from inventory") ]
      else []).

(** The record of [m] after [q] units were issued by the caller of [req]. *)
Definition issued_from (req : Req) (q : Z) (m : Medicine.t) : Medicine.t :=
  Medicine.set_updatedBy (reqUser req)
    (Medicine.set_quantity (Medicine.quantity m - q) m).

(** What a successful issue of [body] against the record [m] of world [w]
    answers ([r]) and leaves ([w']): the ledger entry and the decrement, then
    the activity log, the issue alert and the stock check on the record as it
    is after the decrement. *)
Definition issue_run (req : Req) (body : IssuanceBody) (w : World)
    (m : Medicine.t) (r : Result Response) (w' : World) : Prop :=
  let m' := issued_from req (ib_quantityIssued body) m in
  exists issuedAt entry ok la t1 t2 t3,
    let issuance :=
      Issuance.mk (nextId w) (ib_medicineId body) (ib_issuedTo body)
        (ib_recipientName body) (ib_recipientID body) (ib_quantityIssued body)
        (ib_prescribedBy body) (ib_notes body) (reqUser req) issuedAt in
    r = Ok (mkResponse 201 (JIssuance issuance))
    /\ medicines w' = replace_medicine m' (medicines w)
    /\ issuances w' = (issuances w ++ [issuance])%list
    /\ users w' = users w
    /\ journal w'
       = (journal w
          ++ [(WIssuance issuance, true); (WMedicine m', true);
              (WActivityLog entry, ok)] ++ la)%list
    /\ Forall alert_entry la
    /\ map brief (alert_calls la)
       = ("medicine_issued", "info",
          num_or_0 (Some (ib_quantityIssued body)) ++ " units of "
          ++ quoted (Medicine.name m) ++ " issued to "
          ++ str_or_NA (Some (ib_recipientName body)))
         :: stock_alerts_at t1 t2 t3 m'
    /\ (ticks w = [] ->
        issuedAt = clock w /\ t1 = clock w /\ t2 = clock w /\ t3 = clock w).

(** A computation of the side channels: it returns normally from every
    world and stays within [side_frame]. *)
Definition side_only {A : Type} (m : M A) : Prop :=
  forall w, exists a w', m w = (Ok a, w') /\ side_frame w w'.

(** The first position of an entry that satisfies [p]. *)
Fixpoint position (p : Entry -> bool) (l : list Entry) : option nat :=
  match l with
  | [] => None
  | e :: rest =>
      if p e then Some O
      else match position p rest with
           | Some n => Some (S n)
           | None => None
           end
  end.

Definition ledger_append (e : Entry) : bool :=
  match e with
  | (WIssuance _, true) => true
  | _ => false
  end.

Definition stock_write (e : Entry) : bool :=
  match e with
  | (WMedicine _, true) => true
  | _ => false
  end.

(** In the write sequence [l], the first [p] comes before the first [q]. *)
Definition precedes (p q : Entry -> bool) (l : list Entry) : bool :=
  match position p l, position q l with
  | Some i, Some k => (i <? k)%nat
  | _, _ => false
  end.

(** The invariant behind the virtual [stockOut]. *)
Definition stock_inv (m : Medicine.t) : Prop :=
  Medicine.quantity m <= Medicine.initialStock m.

(** The ways in which serving a request changes the medicine collection:
    not at all; a record created with [initialStock = quantity]; a record
    updated with the same [d >= 0] added to [quantity] and [initialStock];
    a record soft-deleted; a record issued from. *)
Inductive stock_change (ms : list Medicine.t)
  : Request -> list Medicine.t -> Prop :=
| change_none rq : stock_change ms rq ms
| change_create req body m :
    Medicine.initialStock m = Medicine.quantity m ->
    stock_change ms (PostMedicine req body) (ms ++ [m])
| change_update req id body m m' d :
    find (has_id id) ms = Some m -> Medicine._id m' = id -> 0 <= d ->
    Medicine.quantity m' = Medicine.quantity m + d ->
    Medicine.initialStock m' = Medicine.initialStock m + d ->
    stock_change ms (PutMedicine req id body) (replace_medicine m' ms)
| change_delete req id m m' :
    find (has_id id) ms = Some m -> Medicine._id m' = id ->
    Medicine.quantity m' = Medicine.quantity m ->
    Medicine.initialStock m' = Medicine.initialStock m ->
    stock_change ms (DeleteMedicine req id) (replace_medicine m' ms)
| change_issue req body m m' :
    find (has_id (ib_medicineId body)) ms = Some m ->
    Medicine._id m' = ib_medicineId body ->
    1 <= ib_quantityIssued body <= Medicine.quantity m ->
    Medicine.quantity m' = Medicine.quantity m - ib_quantityIssued body ->
    Medicine.initialStock m' = Medicine.initialStock m ->
    stock_change ms (PostIssuance req body) (replace_medicine m' ms).

(** What POST /api/issuances does to the stock, whatever the store answers:
    either the medicine collection is as before, the answer is not 201 and no
    medicine was written; or the ledger entry was appended, then the record
    was decremented, and only side-channel writes followed. *)
Definition issue_effect (req : Req) (body : IssuanceBody) (w : World)
    (r : Result Response) (w' : World) : Prop :=
  (medicines w' = medicines w
   /\ (forall resp, r = Ok resp -> status resp <> 201)
   /\ exists l, journal w' = (journal w ++ l)%list
                /\ position stock_write l = None)
  \/ (exists m i ls,
        find (has_id (ib_medicineId body)) (medicines w) = Some m
        /\ Medicine.isActive m = true
        /\ 1 <= ib_quantityIssued body <= Medicine.quantity m
        /\ medicines w'
           = replace_medicine (issued_from req (ib_quantityIssued body) m)
                              (medicines w)
        /\ journal w'
           = (journal w
              ++ (WIssuance i, true)
                 :: (WMedicine (issued_from req (ib_quantityIssued body) m), true)
                 :: ls)%list
        /\ Forall side_entry ls).

(** The status of an answer; 0 stands for a handler that threw. *)
Definition status_of (r : Result Response) : Z :=
  match r with
  | Ok resp => status resp
  | Throw _ => 0
  end.

(** The answer of a handler that returned. *)
Definition answer (r : Result Response) : Response :=
  match r with
  | Ok resp => resp
  | Throw _ => mkResponse 0 (JMessage "")
  end.

(** How many of the alerts said have the given type and severity. *)
Definition count_kind (k : string * string)
    (said : list (string * string * string)) : nat :=
  List.length
    (filter (fun b => (fst (kind b) =? fst k)%string
                      && (snd (kind b) =? snd k)%string) said).

(** The end of a mutation route, from [w] to [w']: the activity log, then
    alerts saying [first], then the stock check on the record [m]. *)
Definition tail_run (w w' : World)
    (first : list (string * string * string)) (m : Medicine.t) : Prop :=
  exists entry ok la t1 t2 t3,
    journal w' = (journal w ++ (WActivityLog entry, ok) :: la)%list
    /\ Forall alert_entry la
    /\ map brief (alert_calls la) = (first ++ stock_alerts_at t1 t2 t3 m)%list
    /\ medicines w' = medicines w
    /\ (ticks w = [] -> t1 = clock w /\ t2 = clock w /\ t3 = clock w).




(** One alert for each condition of the policy that holds at [now], and no
    other; expiring and expired exclude each other, with the boundaries of
    the thirty-day window on the side the specification names. *)
Definition one_per_condition (now : Date) (m : Medicine.t)
    (said : list (string * string * string)) : Prop :=
  let e := Medicine.expiryDate m in
  let low := count_kind ("stock_low", "warning") said in
  let expiring := count_kind ("medicine_expiring", "warning") said in
  let expired := count_kind ("medicine_expired", "danger") said in
  low = (if Medicine.quantity m <=? Medicine.minQuantity m
         then 1%nat else 0%nat)
  /\ expiring = (if (now <? e) && (e <=? now + 30 * msPerDay)
                 then 1%nat else 0%nat)
  /\ expired = (if e <=? now then 1%nat else 0%nat)
  /\ List.length said = (low + expiring + expired)%nat
  /\ (expiring + expired <= 1)%nat
  /\ (Medicine.quantity m = Medicine.minQuantity m -> low = 1%nat)
  /\ (e = now + 30 * msPerDay -> expiring = 1%nat /\ expired = 0%nat)
  /\ (e = now + 31 * msPerDay -> expiring = 0%nat /\ expired = 0%nat)
  /\ (e <= now -> expiring = 0%nat /\ expired = 1%nat).





(** Weakest precondition of a handler computation. *)
Definition wp {A : Type} (m : M A) (Q : Result A -> World -> Prop)
    (w : World) : Prop :=
  Q (fst (m w)) (snd (m w)).

Definition succeeded {A : Type} (r : Result A) : bool :=
  match r with
  | Ok _ => true
  | Throw _ => false
  end.

(** Every stored medicine passed its schema and the unique barcode index. *)
Definition consistent (ms : list Medicine.t) : bool :=
  forallb (fun m => Medicine.validate m && negb (barcode_taken m ms)) ms.

(** [x] and [y] collide under the unique index. *)
Definition collide (x y : Medicine.t) : bool :=
  negb (has_id (Medicine._id x) y)
  && match Medicine.barcode x with
     | Some b => opt_str_eqb (Medicine.barcode y) (Some b)
     | None => false
     end.

(** What a request may do to the medicine collection as far as the schema
    and the index are concerned: nothing, or store one record that passed
    both. *)
Definition store_step (ms ms' : list Medicine.t) : Prop :=
  ms' = ms
  \/ exists m,
       Medicine.validate m = true /\ barcode_taken m ms = false
       /\ (ms' = (ms ++ [m])%list \/ ms' = replace_medicine m ms).

(** ** Vocabulary of the further properties *)

(** What an alert is apart from its two flags. *)
Definition alert_content (a : Alert.t)
  : ObjectId * string * string * string * string * string * ObjectId
    * ObjectId * Date :=
  (Alert._id a, Alert.type a, Alert.title a, Alert.message a, Alert.severity a,
   Alert.entityType a, Alert.entityId a, Alert.triggeredBy a, Alert.expiresAt a).

(** From [a] to [a'] nothing changed but the flags, and these only moved
    towards read and towards deleted. *)
Definition flag_step (a a' : Alert.t) : Prop :=
  alert_content a' = alert_content a
  /\ (Alert.isRead a = true -> Alert.isRead a' = true)
  /\ (Alert.isActive a' = true -> Alert.isActive a = true).

(** The query [q] asked for page [p]. *)
Definition with_page (p : Z) (q : AlertQuery) : AlertQuery :=
  mkAlertQuery (Some p) (aq_limit q) (aq_type q) (aq_severity q) (aq_isRead q).

(** The alerts of an answer of GET /api/alerts. *)
Definition listed (r : Result Reply) : list Alert.t :=
  match r with
  | Ok (mkReply _ (PAlertPage alerts _ _)) => alerts
  | _ => []
  end.

(** The pages [1 .. pages]. *)
Definition page_numbers (pages : Z) : list Z :=
  map Z.of_nat (seq 1 (Z.to_nat pages)).

(** The order of [.sort({ expiryDate: 1 })]. *)
Definition by_expiry (a b : Medicine.t) : Prop :=
  Medicine.expiryDate a <= Medicine.expiryDate b.

(** The ledger entry [i] is the one that an issue of [body] by the caller of
    [req] builds. *)
Definition ledger_entry_of (req : Req) (body : IssuanceBody) (i : Issuance.t)
  : Prop :=
  Issuance.medicineId i = ib_medicineId body
  /\ Issuance.quantityIssued i = ib_quantityIssued body
  /\ Issuance.issuedTo i = ib_issuedTo body
  /\ Issuance.recipientName i = ib_recipientName body
  /\ Issuance.recipientID i = ib_recipientID body
  /\ Issuance.prescribedBy i = ib_prescribedBy body
  /\ Issuance.notes i = ib_notes body
  /\ Issuance.issuedBy i = reqUser req.

(** The ways in which POST /api/issuances ends, whatever the store answers:
    nothing written and an answer that is not 201; or the ledger entry
    written and then either the record not written and 500, or the record
    decremented and 201 with the entry, or the record decremented and 500. *)
Definition issue_outcome (req : Req) (body : IssuanceBody) (w : World)
    (r : Result Response) (w' : World) : Prop :=
  let failed := Ok (mkResponse 500 (JMessage "Failed to issue medicine")) in
  (issuances w' = issuances w /\ medicines w' = medicines w
   /\ exists resp, r = Ok resp
                   /\ (status resp = 400 \/ status resp = 404
                       \/ status resp = 500))
  \/ exists m i,
       find (has_id (ib_medicineId body)) (medicines w) = Some m
       /\ Medicine.isActive m = true
       /\ 1 <= ib_quantityIssued body <= Medicine.quantity m
       /\ ledger_entry_of req body i
       /\ issuances w' = (issuances w ++ [i])%list
       /\ ((medicines w' = medicines w /\ r = failed)
           \/ (medicines w'
               = replace_medicine (issued_from req (ib_quantityIssued body) m)
                                  (medicines w)
               /\ (r = Ok (mkResponse 201 (JIssuance i)) \/ r = failed))).

(** What the ledger holds as issued from the medicine [id]. *)
Definition issued_total (id : ObjectId) (xs : list Issuance.t) : Z :=
  fold_right
    (fun i acc =>
       if (Issuance.medicineId i =? id)%N
       then Issuance.quantityIssued i + acc else acc)
    0 xs.

(** The ledger accounts for the stock that went out of every medicine. *)
Definition ledger_covers (w : World) : Prop :=
  Forall (fun i => 0 <= Issuance.quantityIssued i) (issuances w)
  /\ forall m, In m (medicines w) ->
       Medicine.initialStock m - Medicine.quantity m
       <= issued_total (Medicine._id m) (issuances w).

Definition is_admin (u : User.t) : bool := (User.role u =? "Admin")%string.

(** What DELETE /api/users/:id may do to the user collection: nothing, or
    remove the user of that id, who is not the caller and not the only
    administrator. *)
Definition user_delete_effect (req : Req) (id : ObjectId) (w w' : World)
  : Prop :=
  users w' = users w
  \/ exists u,
       find (user_has_id id) (users w) = Some u
       /\ users w' = filter (fun x => negb (user_has_id id x)) (users w)
       /\ id <> reqUser req
       /\ (is_admin u = true ->
           exists a, In a (users w) /\ is_admin a = true
                     /\ user_has_id id a = false).

(** What PUT /api/users/:id may do to the user collection: nothing, or
    assign the body to the user of that id, after no other user was found
    with the email when the body brings a new one. *)
Definition user_update_effect (id : ObjectId) (body : UserPatch) (w w' : World)
  : Prop :=
  users w' = users w
  \/ exists u,
       find (user_has_id id) (users w) = Some u
       /\ users w'
          = map (fun x => if user_has_id id x then assign_user body u else x)
                (users w)
       /\ (truthy_str (up_email body)
           && negb (nullish (up_email body) "" =? User.email u)%string = true ->
           forall x, In x (users w) -> user_has_id id x = false ->
                     User.email x <> nullish (up_email body) "").

(** A request other than an update of a user. *)
Definition not_user_update (r : Request) : Prop :=
  match r with
  | PutUser _ _ _ => False
  | _ => True
  end.

(** The handler returned an answer whose status is one of [codes]. *)
Definition answered_with (codes : list Z) (r : Result Response) : Prop :=
  match r with
  | Ok resp => In (status resp) codes
  | Throw _ => False
  end.

Definition replied_with (codes : list Z) (r : Result Reply) : Prop :=
  match r with
  | Ok resp => In (code resp) codes
  | Throw _ => False
  end.

(** The query of GET /api/alerts without parameters. *)
Definition no_query : AlertQuery := mkAlertQuery None None None None None.

(** The order of [.sort({ name: 1 })] and of [.sort({ issuedAt: -1 })]. *)
Definition by_name (a b : Medicine.t) : Prop :=
  String.leb (Medicine.name a) (Medicine.name b) = true.

Definition newest_first (a b : Issuance.t) : Prop :=
  Issuance.issuedAt b <= Issuance.issuedAt a.

(** The entry of the recipient type [k] in [groupedByType]. *)
Fixpoint group_of (k : string) (groups : list Group) : option (Z * Z) :=
  match groups with
  | [] => None
  | (k', v) :: rest => if (k' =? k)%string then Some v else group_of k rest
  end.

(** The ledger entries of [l] issued to the recipient type [k]. *)
Definition issued_to (k : string) (l : list Issuance.t) : list Issuance.t :=
  filter (fun i => (Issuance.issuedTo i =? k)%string) l.

Definition quantity_sum (l : list Issuance.t) : Z :=
  fold_right (fun i acc => Issuance.quantityIssued i + acc) 0 l.

Definition count_sum (groups : list Group) : Z :=
  fold_right (fun g acc => fst (snd g) + acc) 0 groups.

Definition group_quantity_sum (groups : list Group) : Z :=
  fold_right (fun g acc => snd (snd g) + acc) 0 groups.

(** The filter that GET /api/reports/issuances builds from its query. *)
Definition in_report (q : IssuanceReportQuery) (i : Issuance.t) : Prop :=
  (forall d, rq_startDate q = Some d -> d <= Issuance.issuedAt i)
  /\ (forall d, rq_endDate q = Some d -> Issuance.issuedAt i <= d)
  /\ (forall k, rq_issuedTo q = Some k -> k <> "" -> Issuance.issuedTo i = k).

(** ** Basic facts about the monad and the primitives *)

Lemma wp_ret {A : Type} (a : A) (Q : Result A -> World -> Prop) w :
  Q (Ok a) w -> wp (ret a) Q w.
Proof. exact (fun H => H). Qed.

Lemma wp_throw {A : Type} (e : Exn) (Q : Result A -> World -> Prop) w :
  Q (Throw e) w -> wp (throw e) Q w.
Proof. exact (fun H => H). Qed.

Lemma wp_bind {A B : Type} (m : M A) (f : A -> M B)
    (Q : Result B -> World -> Prop) w :
  wp m (fun r w' => match r with
                    | Ok a => wp (f a) Q w'
                    | Throw e => Q (Throw e) w'
                    end) w ->
  wp (bind m f) Q w.
Proof.
  unfold wp, bind. destruct (m w) as [[a | e] w']; cbn; trivial.
Qed.

Lemma wp_try_catch {A : Type} (m : M A) (h : Exn -> M A)
    (Q : Result A -> World -> Prop) w :
  wp m (fun r w' => match r with
                    | Ok a => Q (Ok a) w'
                    | Throw e => wp (h e) Q w'
                    end) w ->
  wp (try_catch m h) Q w.
Proof.
  unfold wp, try_catch. destruct (m w) as [[a | e] w']; cbn; trivial.
Qed.

Lemma wp_mono {A : Type} (m : M A) (Q Q' : Result A -> World -> Prop) w :
  wp m Q w -> (forall r w', Q r w' -> Q' r w') -> wp m Q' w.
Proof. unfold wp. auto. Qed.

Lemma wp_run {A : Type} (m : M A) (Q : Result A -> World -> Prop) w r w' :
  m w = (r, w') -> Q r w' -> wp m Q w.
Proof. unfold wp. intros ->. trivial. Qed.

Lemma bind_ok {A B : Type} (m : M A) (f : A -> M B) w a w' :
  m w = (Ok a, w') -> bind m f w = f a w'.
Proof. unfold bind. intros ->. reflexivity. Qed.

Lemma bind_throw {A B : Type} (m : M A) (f : A -> M B) w e w' :
  m w = (Throw e, w') -> bind m f w = (Throw e, w').
Proof. unfold bind. intros ->. reflexivity. Qed.

Lemma try_catch_ok {A : Type} (m : M A) (h : Exn -> M A) w a w' :
  m w = (Ok a, w') -> try_catch m h w = (Ok a, w').
Proof. unfold try_catch. intros ->. reflexivity. Qed.

Lemma dbcall_up c w : faults w c = [] -> dbcall c w = (Ok tt, w).
Proof. unfold dbcall. intros ->. reflexivity. Qed.

Lemma new_Date_stopped w : ticks w = [] -> new_Date w = (Ok (clock w), w).
Proof. unfold new_Date. intros ->. reflexivity. Qed.

Lemma Collection_eqb_eq a b : Collection_eqb a b = true <-> a = b.
Proof. destruct a, b; cbn; split; congruence. Qed.

Ltac splits := repeat match goal with |- _ /\ _ => split end.

Ltac wsimpl :=
  cbn [medicines issuances activitylogs alerts users journal nextId clock
       ticks faults set_medicines set_issuances set_activitylogs set_alerts
       set_users set_journal set_nextId set_time set_faults fst snd] in *.

(** What one round trip may change. *)
Lemma dbcall_frame c w :
  exists r w', dbcall c w = (r, w') /\ env_step w w'
    /\ (faults w c = [] -> r = Ok tt /\ w' = w).
Proof.
  unfold dbcall, env_step, data_eq. destruct (faults w c) as [| b rest] eqn:E.
  - exists (Ok tt), w. repeat split; auto.
  - eexists _, _. split; [reflexivity |]. wsimpl.
    repeat split; trivial; try discriminate.
    intros c' H. destruct (Collection_eqb c c') eqn:E'; trivial.
    apply Collection_eqb_eq in E'. congruence.
Qed.

Lemma new_Date_frame w :
  exists w', new_Date w = (Ok (clock w), w') /\ env_step w w'
    /\ (ticks w = [] -> w' = w).
Proof.
  unfold new_Date, env_step, data_eq. destruct (ticks w) as [| d rest] eqn:E.
  - exists w. repeat split; auto.
  - eexists. split; [reflexivity |]. wsimpl.
    repeat split; trivial; discriminate.
Qed.

Lemma env_step_refl w : env_step w w.
Proof. unfold env_step, data_eq. repeat split; trivial. Qed.

Lemma side_frame_refl w : side_frame w w.
Proof.
  unfold side_frame. repeat split; trivial.
  exists []. split; [symmetry; apply app_nil_r | constructor].
Qed.

Lemma side_frame_trans w1 w2 w3 :
  side_frame w1 w2 -> side_frame w2 w3 -> side_frame w1 w3.
Proof.
  unfold side_frame.
  intros (A1 & A2 & A3 & A4 & A5 & l1 & A6 & A7)
         (B1 & B2 & B3 & B4 & B5 & l2 & B6 & B7).
  repeat split; try congruence.
  - intros c H1 H2 H3. apply B4; trivial. apply A4; trivial.
  - destruct (A5 H) as [T _]. apply (B5 T).
  - destruct (A5 H) as [T C]. destruct (B5 T) as [_ C']. congruence.
  - exists (l1 ++ l2)%list. split.
    + rewrite B6, A6. symmetry. apply app_assoc.
    + apply Forall_app. split; assumption.
Qed.

Lemma env_step_side w w' : env_step w w' -> side_frame w w'.
Proof.
  unfold env_step, data_eq, side_frame.
  intros ((A1 & A2 & A3 & A4 & A5 & A6) & A7 & A8 & A9).
  repeat split; trivial; try (apply A8; assumption).
  - intros c _ _. apply A9.
  - exists []. split; [rewrite A6; symmetry; apply app_nil_r | constructor].
Qed.

(** ** The side channels: what a call does, whatever the store answers *)

Lemma Alert_save_spec a w :
  exists r w', Alert_save a w = (r, w')
    /\ alerts w' = (if succeeded r then alerts w ++ [a] else alerts w)%list
    /\ journal w' = (journal w ++ [(WAlert a, succeeded r)])%list
    /\ medicines w' = medicines w /\ issuances w' = issuances w
    /\ users w' = users w /\ activitylogs w' = activitylogs w
    /\ nextId w' = nextId w /\ clock w' = clock w /\ ticks w' = ticks w
    /\ (forall c, c <> CAlert -> faults w c = [] -> faults w' c = [])
    /\ (succeeded r = true -> Alert.validate a = true)
    /\ (Alert.validate a = true -> faults w CAlert = [] -> succeeded r = true).
Proof.
  unfold Alert_save, save_with.
  destruct (Alert.validate a) eqn:Ev.
  - unfold try_catch, bind, dbcall, log_write, throw, gets, modify.
    destruct (faults w CAlert) as [| [|] rest] eqn:Ef;
      (eexists _, _; split; [reflexivity |]); wsimpl;
      repeat split; trivial; try discriminate.
    all: intros c Hc H; destruct c; trivial; congruence.
  - unfold bind, log_write, throw.
    eexists _, _; split; [reflexivity |]; wsimpl.
    repeat split; trivial; discriminate.
Qed.

Lemma ActivityLog_save_spec l w :
  exists r w', ActivityLog_save l w = (r, w')
    /\ activitylogs w'
       = (if succeeded r then activitylogs w ++ [l] else activitylogs w)%list
    /\ journal w' = (journal w ++ [(WActivityLog l, succeeded r)])%list
    /\ medicines w' = medicines w /\ issuances w' = issuances w
    /\ users w' = users w /\ alerts w' = alerts w
    /\ nextId w' = nextId w /\ clock w' = clock w /\ ticks w' = ticks w
    /\ (forall c, c <> CActivityLog -> faults w c = [] -> faults w' c = [])
    /\ (succeeded r = true -> ActivityLog.validate l = true)
    /\ (ActivityLog.validate l = true -> faults w CActivityLog = [] ->
        succeeded r = true).
Proof.
  unfold ActivityLog_save, save_with.
  destruct (ActivityLog.validate l) eqn:Ev.
  - unfold try_catch, bind, dbcall, log_write, throw, gets, modify.
    destruct (faults w CActivityLog) as [| [|] rest] eqn:Ef;
      (eexists _, _; split; [reflexivity |]); wsimpl;
      repeat split; trivial; try discriminate.
    all: intros c Hc H; destruct c; trivial; congruence.
  - unfold bind, log_write, throw.
    eexists _, _; split; [reflexivity |]; wsimpl.
    repeat split; trivial; discriminate.
Qed.

(** [createAlert] returns normally.  It calls [save()] on exactly one alert,
    built from its arguments, and the alert is stored iff the schema and the
    store take it. *)
Lemma createAlert_spec type title message entityType entityId triggeredBy
    severity w :
  let a := Alert.mk (nextId w) type title message severity entityType entityId
                    triggeredBy false true (clock w + 7 * msPerDay) in
  exists ok w',
    createAlert type title message entityType entityId triggeredBy severity w
      = (Ok (if ok : bool then Some a else None), w')
    /\ alerts w' = (if ok then alerts w ++ [a] else alerts w)%list
    /\ journal w' = (journal w ++ [(WAlert a, ok)])%list
    /\ activitylogs w' = activitylogs w
    /\ nextId w' = N.succ (nextId w)
    /\ (ok = true -> Alert.validate a = true)
    /\ (Alert.validate a = true -> faults w CAlert = [] -> ok = true)
    /\ side_frame w w'.
Proof.
  intros a. unfold createAlert, try_catch.
  rewrite (bind_ok _ _ w (nextId w) (set_nextId (N.succ (nextId w)) w) eq_refl).
  destruct (new_Date_frame (set_nextId (N.succ (nextId w)) w))
    as (w1 & E1 & ((D1 & D2 & D3 & D4 & D5 & D6) & D7 & D8 & D9) & _).
  wsimpl. rewrite (bind_ok _ _ _ _ _ E1). fold a.
  destruct (Alert_save_spec a w1)
    as (r & w2 & E2 & S1 & S2 & S3 & S4 & S5 & S6 & S7 & S8 & S9 & S10 & S11 & S12).
  assert (F : side_frame w w2).
  { unfold side_frame. repeat split; try congruence.
    - intros c Hc _ H. apply S10; trivial. apply D9, H.
    - destruct (D8 H). congruence.
    - destruct (D8 H). congruence.
    - exists [(WAlert a, succeeded r)]. split; [congruence |].
      repeat constructor. }
  exists (succeeded r), w2. destruct r as [[] | e].
  - rewrite (bind_ok _ _ _ _ _ E2). unfold ret. cbn [succeeded] in *.
    splits; trivial; congruence.
  - rewrite (bind_throw _ _ _ _ _ E2). unfold ret. cbn [succeeded] in *.
    splits; trivial; try congruence.
    intros V U. apply S12; trivial. apply D9, U.
Qed.

(** [logActivity] returns normally, and calls [save()] on one log entry. *)
Lemma logActivity_spec actionType entityType entityId performedBy description
    oldData newData req w :
  exists w' entry ok,
    logActivity actionType entityType entityId performedBy description
                oldData newData req w = (Ok tt, w')
    /\ alerts w' = alerts w
    /\ journal w' = (journal w ++ [(WActivityLog entry, ok)])%list
    /\ nextId w' = N.succ (nextId w)
    /\ side_frame w w'.
Proof.
  unfold logActivity, try_catch.
  rewrite (bind_ok _ _ w (nextId w) (set_nextId (N.succ (nextId w)) w) eq_refl).
  cbv beta zeta.
  match goal with
  | |- context [ActivityLog_save ?l ?w1] =>
      destruct (ActivityLog_save_spec l w1)
        as (r & w2 & E2 & S1 & S2 & S3 & S4 & S5 & S6 & S7 & S8 & S9 & S10 & _)
  end.
  wsimpl. rewrite E2. exists w2. eexists _, (succeeded r).
  assert (F : side_frame w w2).
  { unfold side_frame. repeat split; try congruence.
    - intros c _ Hc H. apply S10; trivial.
    - eexists. split; [exact S2 | repeat constructor]. }
  split; [destruct r as [[] | e]; reflexivity |].
  splits; trivial. exact S2.
Qed.

(** ** Runs of the alert service *)

Lemma alert_calls_app l1 l2 :
  alert_calls (l1 ++ l2) = (alert_calls l1 ++ alert_calls l2)%list.
Proof.
  induction l1 as [| [[] ok] l1 IH]; cbn; try rewrite IH; reflexivity.
Qed.

Lemma stored_app l1 l2 : stored (l1 ++ l2) = (stored l1 ++ stored l2)%list.
Proof.
  induction l1 as [| [[] []] l1 IH]; cbn; try rewrite IH; reflexivity.
Qed.

Lemma alert_step_env w w' : env_step w w' -> alert_step w w' [].
Proof.
  intros H. split; [apply env_step_side, H |].
  destruct H as ((A1 & A2 & A3 & A4 & A5 & A6) & _).
  split; [exact A3 |]. exists []. rewrite !app_nil_r. cbn. auto.
Qed.

Lemma alert_step_refl w : alert_step w w [].
Proof. apply alert_step_env, env_step_refl. Qed.

Lemma alert_step_trans w1 w2 w3 s1 s2 :
  alert_step w1 w2 s1 -> alert_step w2 w3 s2 -> alert_step w1 w3 (s1 ++ s2).
Proof.
  intros (F1 & L1 & l1 & J1 & E1 & A1 & C1) (F2 & L2 & l2 & J2 & E2 & A2 & C2).
  split; [eapply side_frame_trans; eassumption |].
  split; [congruence |].
  exists (l1 ++ l2)%list. splits.
  - rewrite J2, J1. symmetry. apply app_assoc.
  - apply Forall_app. split; assumption.
  - rewrite A2, A1, stored_app. symmetry. apply app_assoc.
  - rewrite alert_calls_app, map_app. congruence.
Qed.

Lemma createAlert_step type title message entityType entityId triggeredBy
    severity w :
  exists r w',
    createAlert type title message entityType entityId triggeredBy severity w
      = (Ok r, w')
    /\ alert_step w w' [(type, severity, message)].
Proof.
  destruct (createAlert_spec type title message entityType entityId triggeredBy
              severity w)
    as (ok & w' & E & A & J & L & N & _ & _ & F).
  eexists _, w'. split; [exact E |].
  split; [exact F |]. split; [exact L |].
  eexists. splits; [exact J | repeat constructor | | reflexivity].
  destruct ok; cbn; [exact A | rewrite app_nil_r; exact A].
Qed.

Lemma createMedicineAlert_step action medicineName medicineId triggeredBy
    additionalInfo w :
  exists r w',
    createMedicineAlert action medicineName medicineId triggeredBy
                        additionalInfo w = (Ok r, w')
    /\ alert_step w w'
         match lookup action (medicine_alerts medicineName additionalInfo) with
         | Some d => [(ad_type d, ad_severity d, ad_message d)]
         | None => []
         end.
Proof.
  unfold createMedicineAlert. cbv zeta.
  destruct (lookup action (medicine_alerts medicineName additionalInfo)) as [d |].
  - apply createAlert_step.
  - exists None, w. split; [reflexivity | apply alert_step_refl].
Qed.

Lemma createUserAlert_step action userName userId triggeredBy w :
  exists r w',
    createUserAlert action userName userId triggeredBy w = (Ok r, w')
    /\ alert_step w w'
         match lookup action (user_alerts userName) with
         | Some d => [(ad_type d, ad_severity d, ad_message d)]
         | None => []
         end.
Proof.
  unfold createUserAlert. cbv zeta.
  destruct (lookup action (user_alerts userName)) as [d |].
  - apply createAlert_step.
  - exists None, w. split; [reflexivity | apply alert_step_refl].
Qed.

(** [if (c) { await createMedicineAlert(...) }] *)
Lemma when_alert (c : bool) action medicineName medicineId triggeredBy
    additionalInfo w :
  exists w',
    when c (createMedicineAlert action medicineName medicineId triggeredBy
              additionalInfo ;; ret tt) w = (Ok tt, w')
    /\ alert_step w w'
         (if c then
            match lookup action (medicine_alerts medicineName additionalInfo) with
            | Some d => [(ad_type d, ad_severity d, ad_message d)]
            | None => []
            end
          else []).
Proof.
  destruct c; cbn [when].
  - destruct (createMedicineAlert_step action medicineName medicineId
                triggeredBy additionalInfo w) as (r & w' & E & S).
    exists w'. rewrite (bind_ok _ _ _ _ _ E). split; [reflexivity | exact S].
  - exists w. split; [reflexivity | apply alert_step_refl].
Qed.

Lemma alert_step_stopped w w' s :
  alert_step w w' s -> ticks w = [] -> ticks w' = [] /\ clock w' = clock w.
Proof. intros ((_ & _ & _ & _ & T & _) & _). exact T. Qed.

(** The stock check returns normally; what it says is fixed by the record
    and by its three clock reads, which coincide when the clock stands. *)
Lemma checkAndCreateStockAlerts_run medicine triggeredBy w :
  exists w' t1 t2 t3,
    checkAndCreateStockAlerts medicine triggeredBy w = (Ok tt, w')
    /\ alert_step w w' (stock_alerts_at t1 t2 t3 medicine)
    /\ (ticks w = [] -> t1 = clock w /\ t2 = clock w /\ t3 = clock w).
Proof.
  unfold checkAndCreateStockAlerts.
  destruct (when_alert (Medicine.quantity medicine <=? Medicine.minQuantity medicine)
              "low_stock" (Medicine.name medicine) (Medicine._id medicine)
              triggeredBy (mkInfo (Some (Medicine.quantity medicine)) None None) w)
    as (w1 & E1 & S1).
  rewrite (bind_ok _ _ _ _ _ E1).
  destruct (new_Date_frame w1) as (w2 & E2 & V2 & K2).
  rewrite (bind_ok _ _ _ _ _ E2). cbv zeta.
  assert (X : exists w3 t2,
             (if Medicine.expiryDate medicine <=? addDays 30 (clock w1)
              then now <- new_Date ;; ret (now <? Medicine.expiryDate medicine)
              else ret false) w2
             = (Ok ((Medicine.expiryDate medicine <=? addDays 30 (clock w1))
                    && (t2 <? Medicine.expiryDate medicine)), w3)
             /\ env_step w2 w3 /\ (ticks w2 = [] -> t2 = clock w2)).
  { destruct (Medicine.expiryDate medicine <=? addDays 30 (clock w1)).
    - destruct (new_Date_frame w2) as (w3 & E3 & V3 & K3).
      exists w3, (clock w2). rewrite (bind_ok _ _ _ _ _ E3). auto.
    - exists w2, (clock w2). split; [reflexivity |].
      split; [apply env_step_refl | trivial]. }
  destruct X as (w3 & t2 & E3 & V3 & K3).
  rewrite (bind_ok _ _ _ _ _ E3).
  destruct (when_alert ((Medicine.expiryDate medicine <=? addDays 30 (clock w1))
                        && (t2 <? Medicine.expiryDate medicine))
              "expiring" (Medicine.name medicine) (Medicine._id medicine)
              triggeredBy
              (mkInfo None (Some (toDateString (Medicine.expiryDate medicine))) None)
              w3)
    as (w4 & E4 & S4).
  rewrite (bind_ok _ _ _ _ _ E4).
  destruct (new_Date_frame w4) as (w5 & E5 & V5 & K5).
  rewrite (bind_ok _ _ _ _ _ E5).
  destruct (when_alert (Medicine.expiryDate medicine <=? clock w4)
              "expired" (Medicine.name medicine) (Medicine._id medicine)
              triggeredBy
              (mkInfo None (Some (toDateString (Medicine.expiryDate medicine))) None)
              w5)
    as (w6 & E6 & S6).
  exists w6, (clock w1), t2, (clock w4). split; [exact E6 |]. split.
  - unfold stock_alerts_at.
    eapply alert_step_trans; [exact S1 |].
    eapply (alert_step_trans _ _ _ [] _); [apply alert_step_env, V2 |].
    eapply (alert_step_trans _ _ _ [] _); [apply alert_step_env, V3 |].
    eapply alert_step_trans; [exact S4 |].
    eapply (alert_step_trans _ _ _ [] _); [apply alert_step_env, V5 |].
    exact S6.
  - intros T.
    destruct (alert_step_stopped _ _ _ S1 T) as [T1 C1].
    pose proof (K2 T1) as ->.
    destruct V3 as (_ & _ & V3 & _). destruct (V3 T1) as [T3 C3].
    destruct (alert_step_stopped _ _ _ S4 T3) as [T4 C4].
    rewrite (K3 T1). splits; congruence.
Qed.

(** ** The primary collections while the store is up *)

Lemma Medicine_findById_up id w :
  faults w CMedicine = [] ->
  Medicine_findById id w = (Ok (find (has_id id) (medicines w)), w).
Proof.
  intros H. unfold Medicine_findById.
  rewrite (bind_ok _ _ _ _ _ (dbcall_up _ _ H)). reflexivity.
Qed.

Lemma Medicine_findOne_barcode_up b w :
  faults w CMedicine = [] ->
  Medicine_findOne_barcode b w
  = (Ok (find (fun m => opt_str_eqb (Medicine.barcode m) (Some b)
                        && Medicine.isActive m) (medicines w)), w).
Proof.
  intros H. unfold Medicine_findOne_barcode.
  rewrite (bind_ok _ _ _ _ _ (dbcall_up _ _ H)). reflexivity.
Qed.

Lemma Medicine_find_up q w :
  faults w CMedicine = [] ->
  Medicine_find q w = (Ok (filter q (medicines w)), w).
Proof.
  intros H. unfold Medicine_find.
  rewrite (bind_ok _ _ _ _ _ (dbcall_up _ _ H)). reflexivity.
Qed.

Lemma save_with_up c x commit w :
  faults w c = [] -> save_with c x true commit w = commit w.
Proof.
  intros H. unfold save_with.
  rewrite (bind_ok _ _ w tt w); [reflexivity |].
  apply try_catch_ok, dbcall_up, H.
Qed.

Lemma Medicine_save_up isNew m w :
  Medicine.validate m = true ->
  faults w CMedicine = [] ->
  barcode_taken m (medicines w) = false ->
  Medicine_save isNew m w
  = (Ok tt,
     set_journal (journal w ++ [(WMedicine m, true)])
       (set_medicines (if isNew then medicines w ++ [m]
                       else replace_medicine m (medicines w)) w)).
Proof.
  intros V U B. unfold Medicine_save. rewrite V, (save_with_up _ _ _ _ U).
  unfold commit_medicine, bind, gets. rewrite B. reflexivity.
Qed.

(** The unique index refuses the document, and nothing is stored. *)
Lemma Medicine_save_taken isNew m w :
  Medicine.validate m = true ->
  faults w CMedicine = [] ->
  barcode_taken m (medicines w) = true ->
  Medicine_save isNew m w
  = (Throw (MongoServerError 11000),
     set_journal (journal w ++ [(WMedicine m, false)]) w).
Proof.
  intros V U B. unfold Medicine_save. rewrite V, (save_with_up _ _ _ _ U).
  unfold commit_medicine, bind, gets. rewrite B. reflexivity.
Qed.

Lemma Issuance_save_up i w :
  Issuance.validate i = true ->
  faults w CIssuance = [] ->
  Issuance_save i w
  = (Ok tt,
     set_journal (journal w ++ [(WIssuance i, true)])
       (set_issuances (issuances w ++ [i]) w)).
Proof.
  intros V U. unfold Issuance_save. rewrite V, (save_with_up _ _ _ _ U).
  reflexivity.
Qed.

(** ** Validators *)

Lemma chain_nil path ok msg : chain path ok msg = [] -> ok = true.
Proof. unfold chain. destruct ok; [trivial | discriminate]. Qed.

Lemma isLength_required lo hi s :
  (1 <= lo)%nat -> isLength lo hi s = true ->
  required_str s = true /\ maxlength hi s = true.
Proof.
  unfold isLength, required_str, maxlength. intros L H.
  apply andb_prop in H as [H1 H2]. split; [| exact H2].
  destruct s; [| reflexivity].
  apply Nat.leb_le in H1. cbn in H1. lia.
Qed.

Lemma issuance_validators_ok b :
  issuance_validators b = [] ->
  isIn (ib_issuedTo b) Issuance.recipients = true
  /\ isLength 1 200 (ib_recipientName b) = true
  /\ isLength 1 100 (ib_recipientID b) = true
  /\ 1 <= ib_quantityIssued b
  /\ isLength 1 200 (ib_prescribedBy b) = true
  /\ optional (maxlength 500) (ib_notes b) = true.
Proof.
  unfold issuance_validators. intros H.
  repeat (apply app_eq_nil in H as [?%chain_nil H]).
  apply chain_nil in H. splits; trivial. apply Z.leb_le. assumption.
Qed.

(** A request that passed the validators builds a document that passes the
    schema of the ledger. *)
Lemma issuance_valid b id by_ at_ :
  issuance_validators b = [] ->
  Issuance.validate
    (Issuance.mk id (ib_medicineId b) (ib_issuedTo b) (ib_recipientName b)
       (ib_recipientID b) (ib_quantityIssued b) (ib_prescribedBy b)
       (ib_notes b) by_ at_) = true.
Proof.
  intros H. destruct (issuance_validators_ok b H) as (A & B & C & D & E & F).
  unfold Issuance.validate. cbn [Issuance.issuedTo Issuance.recipientName
    Issuance.recipientID Issuance.quantityIssued Issuance.prescribedBy
    Issuance.notes].
  destruct (isLength_required 1 200 _ (le_n _) B) as [B1 B2].
  destruct (isLength_required 1 100 _ (le_n _) C) as [C1 C2].
  destruct (isLength_required 1 200 _ (le_n _) E) as [E1 E2].
  rewrite A, B1, B2, C1, C2, E1, E2. apply Z.leb_le in D. rewrite D.
  destruct (ib_notes b); exact F.
Qed.

Lemma validate_set_quantity m q u :
  Medicine.validate m = true -> 0 <= q ->
  Medicine.validate (Medicine.set_updatedBy u (Medicine.set_quantity q m)) = true.
Proof.
  unfold Medicine.validate. destruct m; cbn. intros H Hq.
  repeat (apply andb_prop in H as [H ?]).
  repeat (apply andb_true_intro; split); trivial. apply Z.leb_le, Hq.
Qed.

Lemma barcode_taken_same m m' ms :
  Medicine._id m' = Medicine._id m -> Medicine.barcode m' = Medicine.barcode m ->
  barcode_taken m' ms = barcode_taken m ms.
Proof. unfold barcode_taken. intros -> ->. reflexivity. Qed.

(** ** POST /api/issuances *)

Lemma wp_elim {A : Type} (m : M A) (Q : Result A -> World -> Prop) w :
  wp m Q w -> exists r w', m w = (r, w') /\ Q r w'.
Proof.
  unfold wp. intros H. exists (fst (m w)), (snd (m w)).
  split; [apply surjective_pairing | exact H].
Qed.

Lemma issuances_post_run req body w m :
  issuance_validators body = [] ->
  primary_up w ->
  find (has_id (ib_medicineId body)) (medicines w) = Some m ->
  Medicine.isActive m = true ->
  Medicine.validate m = true ->
  barcode_taken m (medicines w) = false ->
  ib_quantityIssued body <= Medicine.quantity m ->
  clock w < Medicine.expiryDate m ->
  wp (issuances_post req body) (issue_run req body w m) w.
Proof.
  intros Hval Hup Hfind Hact Hvalid Hbar Hq Hexp.
  pose proof (issuance_validators_ok _ Hval) as (_ & _ & _ & Hq1 & _ & _).
  destruct Hup as (U1 & U2 & U3).
  unfold issuances_post. apply wp_try_catch. cbv zeta. rewrite Hval.
  cbn [isEmpty negb]. apply wp_bind.
  eapply wp_run; [apply Medicine_findById_up, U1 |]. cbv beta iota.
  rewrite Hfind, Hact. cbn [negb].
  replace (Medicine.quantity m <? ib_quantityIssued body) with false
    by (symmetry; apply Z.ltb_ge; lia).
  apply wp_bind. destruct (new_Date_frame w) as (w1 & E1 & V1 & K1).
  eapply wp_run; [exact E1 |]. cbv beta iota.
  replace (Medicine.expiryDate m <=? clock w) with false
    by (symmetry; apply Z.leb_gt; lia).
  apply wp_bind. eapply wp_run; [reflexivity |]. cbv beta iota.
  apply wp_bind.
  destruct (new_Date_frame (set_nextId (N.succ (nextId w1)) w1))
    as (w2 & E2 & V2 & K2).
  eapply wp_run; [exact E2 |]. cbv beta iota. wsimpl.
  destruct V1 as ((A1 & A2 & A3 & A4 & A5 & A6) & N1 & T1 & F1).
  destruct V2 as ((B1 & B2 & B3 & B4 & B5 & B6) & N2 & T2 & F2). wsimpl.
  change (Medicine.set_updatedBy (reqUser req)
            (Medicine.set_quantity
               (Medicine.quantity m - ib_quantityIssued body) m))
    with (issued_from req (ib_quantityIssued body) m).
  set (m' := issued_from req (ib_quantityIssued body) m).
  match goal with |- context [Issuance_save ?i] => set (iss := i) end.
  apply wp_bind.
  eapply wp_run;
    [apply Issuance_save_up; [apply issuance_valid, Hval | apply F2, F1, U2] |].
  cbv beta iota. apply wp_bind.
  eapply wp_run.
  { apply Medicine_save_up.
    - apply validate_set_quantity; [exact Hvalid | lia].
    - wsimpl. apply F2, F1, U1.
    - wsimpl. rewrite B1, A1.
      rewrite (barcode_taken_same m m') by reflexivity. exact Hbar. }
  cbv beta iota. wsimpl. apply wp_bind.
  eapply wp_run; [apply dbcall_up; wsimpl; apply F2, F1, U1 |].
  cbv beta iota. apply wp_bind.
  eapply wp_run; [apply dbcall_up; wsimpl; apply F2, F1, U3 |].
  cbv beta iota. apply wp_bind.
  match goal with
  | |- wp (logActivity ?a ?b ?c ?d ?e ?f ?g ?h) _ ?w4 =>
      destruct (logActivity_spec a b c d e f g h w4)
        as (w5 & entry & ok & E5 & L1 & L2 & L3 & L4)
  end.
  eapply wp_run; [exact E5 |]. cbv beta iota. apply wp_bind.
  match goal with
  | |- wp (createMedicineAlert ?a ?b ?c ?d ?e) _ ?w5 =>
      destruct (createMedicineAlert_step a b c d e w5) as (r6 & w6 & E6 & S6)
  end.
  eapply wp_run; [exact E6 |]. cbv beta iota. apply wp_bind.
  destruct (checkAndCreateStockAlerts_run m' (reqUser req) w6)
    as (w7 & t1 & t2 & t3 & E7 & S7 & K7).
  eapply wp_run; [exact E7 |]. cbv beta iota. apply wp_ret.
  pose proof (alert_step_trans _ _ _ _ _ S6 S7) as S.
  destruct S as (F & _ & la & J & Ea & _ & C).
  destruct L4 as (M1 & M2 & M3 & _ & M5 & _). wsimpl.
  destruct F as (G1 & G2 & G3 & _ & G5 & _).
  unfold issue_run. fold m'. exists (clock w1), entry, ok, la, t1, t2, t3.
  cbv zeta. rewrite <- N1. fold iss. splits.
  - reflexivity.
  - rewrite G1, M1, B1, A1. reflexivity.
  - rewrite G2, M2, B2, A2. reflexivity.
  - rewrite G3, M3, B5, A5. reflexivity.
  - rewrite J, L2, B6, A6. rewrite <- !app_assoc. reflexivity.
  - exact Ea.
  - exact C.
  - intros T. destruct (T1 T) as [T1' C1]. rewrite (K1 T) in *.
    destruct (T2 T) as [T2' C2]. wsimpl.
    destruct (M5 T2') as [T5 C5]. destruct (alert_step_stopped _ _ _ S6 T5) as [T6 C6].
    destruct (K7 T6) as (-> & -> & ->). splits; congruence.
Qed.

(** ** Stepping through a handler, whatever the store answers *)

Lemma wp_gets {A : Type} (f : World -> A) (Q : Result A -> World -> Prop) w :
  Q (Ok (f w)) w -> wp (gets f) Q w.
Proof. exact (fun H => H). Qed.

Lemma wp_modify (f : World -> World) (Q : Result unit -> World -> Prop) w :
  Q (Ok tt) (f w) -> wp (modify f) Q w.
Proof. exact (fun H => H). Qed.

Lemma wp_log_write x ok (Q : Result unit -> World -> Prop) w :
  Q (Ok tt) (set_journal (journal w ++ [(x, ok)]) w) -> wp (log_write x ok) Q w.
Proof. exact (fun H => H). Qed.

Lemma wp_new_ObjectId (Q : Result ObjectId -> World -> Prop) w :
  Q (Ok (nextId w)) (set_nextId (N.succ (nextId w)) w) -> wp new_ObjectId Q w.
Proof. exact (fun H => H). Qed.

Lemma wp_dbcall c (Q : Result unit -> World -> Prop) w :
  (forall r w', env_step w w' -> Q r w') -> wp (dbcall c) Q w.
Proof.
  intros H. destruct (dbcall_frame c w) as (r & w' & E & V & _).
  eapply wp_run; [exact E | apply H, V].
Qed.

Lemma wp_new_Date (Q : Result Date -> World -> Prop) w :
  (forall w', env_step w w' -> Q (Ok (clock w)) w') -> wp new_Date Q w.
Proof.
  intros H. destruct (new_Date_frame w) as (w' & E & V & _).
  eapply wp_run; [exact E | apply H, V].
Qed.

Lemma wp_barcode_or_500 failed e (Q : Result Response -> World -> Prop) w :
  (forall resp, status resp = 400 \/ status resp = 500 -> Q (Ok resp) w) ->
  wp (barcode_or_500 failed e) Q w.
Proof.
  intros H. unfold wp.
  assert (X : exists resp, barcode_or_500 failed e w = (Ok resp, w)
                           /\ (status resp = 400 \/ status resp = 500)).
  { unfold barcode_or_500.
    destruct e as [| code |]; try (eexists; split; [reflexivity | auto]).
    destruct (Z.eq_dec code 11000) as [-> | N];
      [eexists; split; [reflexivity | auto] |].
    exists (mkResponse 500 (JMessage failed)). split; [| auto].
    destruct code as [| p | p]; try reflexivity.
    do 14 (destruct p as [p | p |]; try reflexivity). congruence. }
  destruct X as (resp & -> & S). apply H, S.
Qed.

Lemma wp_side {A : Type} (m : M A) (Q : Result A -> World -> Prop) w :
  side_only m -> (forall a w', side_frame w w' -> Q (Ok a) w') -> wp m Q w.
Proof.
  intros S H. destruct (S w) as (a & w' & E & F).
  eapply wp_run; [exact E | apply H, F].
Qed.

Lemma side_only_ret {A : Type} (a : A) : side_only (ret a).
Proof. intros w. exists a, w. split; [reflexivity | apply side_frame_refl]. Qed.

Lemma side_only_bind {A B : Type} (m : M A) (f : A -> M B) :
  side_only m -> (forall a, side_only (f a)) -> side_only (bind m f).
Proof.
  intros S1 S2 w. destruct (S1 w) as (a & w1 & E1 & F1).
  destruct (S2 a w1) as (b & w2 & E2 & F2).
  exists b, w2. rewrite (bind_ok _ _ _ _ _ E1).
  split; [exact E2 | eapply side_frame_trans; eassumption].
Qed.

Lemma side_only_when c m : side_only m -> side_only (when c m).
Proof. destruct c; [trivial | intros _; apply side_only_ret]. Qed.

Lemma side_only_logActivity actionType entityType entityId performedBy
    description oldData newData req :
  side_only (logActivity actionType entityType entityId performedBy description
               oldData newData req).
Proof.
  intros w.
  destruct (logActivity_spec actionType entityType entityId performedBy
              description oldData newData req w)
    as (w' & _ & _ & E & _ & _ & _ & F).
  exists tt, w'. split; assumption.
Qed.

Lemma side_only_createMedicineAlert action medicineName medicineId triggeredBy
    additionalInfo :
  side_only (createMedicineAlert action medicineName medicineId triggeredBy
               additionalInfo).
Proof.
  intros w.
  destruct (createMedicineAlert_step action medicineName medicineId triggeredBy
              additionalInfo w) as (r & w' & E & F & _).
  exists r, w'. split; assumption.
Qed.

Lemma side_only_createUserAlert action userName userId triggeredBy :
  side_only (createUserAlert action userName userId triggeredBy).
Proof.
  intros w.
  destruct (createUserAlert_step action userName userId triggeredBy w)
    as (r & w' & E & F & _).
  exists r, w'. split; assumption.
Qed.

Lemma side_only_checkAndCreateStockAlerts medicine triggeredBy :
  side_only (checkAndCreateStockAlerts medicine triggeredBy).
Proof.
  intros w.
  destruct (checkAndCreateStockAlerts_run medicine triggeredBy w)
    as (w' & t1 & t2 & t3 & E & (F & _) & _).
  exists tt, w'. split; assumption.
Qed.

Create HintDb side.

#[local] Hint Resolve side_only_ret side_only_when side_only_logActivity
  side_only_createMedicineAlert side_only_createUserAlert
  side_only_checkAndCreateStockAlerts : side.

Ltac side_tail :=
  repeat first
    [ solve [auto with side]
    | apply side_only_when
    | apply side_only_bind; [| intros ?] ].

(** The part of a world that the medicine routes decide on. *)
Ltac env_facts V :=
  let A1 := fresh "Em" in let A2 := fresh "Ei" in let A3 := fresh "El" in
  let A4 := fresh "Ea" in let A5 := fresh "Eu" in let A6 := fresh "Ej" in
  let A7 := fresh "Et" in
  destruct V as ((A1 & A2 & A3 & A4 & A5 & A6) & _ & A7 & _).

Ltac wp_step :=
  lazymatch goal with
  | |- wp (bind (logActivity _ _ _ _ _ _ _ _) _) _ _ =>
      let a := fresh "a" in let w := fresh "w" in let F := fresh "F" in
      apply wp_side; [side_tail | intros a w F]
  | |- wp (bind _ _) _ _ => apply wp_bind
  | |- wp (try_catch _ _) _ _ => apply wp_try_catch
  | |- wp (ret _) _ _ => apply wp_ret
  | |- wp (throw _) _ _ => apply wp_throw
  | |- wp (gets _) _ _ => apply wp_gets
  | |- wp (modify _) _ _ => apply wp_modify
  | |- wp (log_write _ _) _ _ => apply wp_log_write
  | |- wp new_ObjectId _ _ => apply wp_new_ObjectId
  | |- wp (dbcall _) _ _ =>
      let r := fresh "r" in let w := fresh "w" in let V := fresh "V" in
      apply wp_dbcall; intros r w V; env_facts V; destruct r as [[] | ?]
  | |- wp new_Date _ _ =>
      let w := fresh "w" in let V := fresh "V" in
      apply wp_new_Date; intros w V; env_facts V
  | |- wp (if ?b then _ else _) _ _ => destruct b eqn:?
  | |- wp (match ?o with _ => _ end) _ _ => destruct o eqn:?
  | |- wp (barcode_or_500 _ ?e) _ _ =>
      let resp := fresh "resp" in let S := fresh "Hs" in
      apply wp_barcode_or_500; intros resp S
  end; cbv beta iota; wsimpl.

Ltac to_start :=
  repeat match goal with
         | H : medicines ?a = _ |- context [medicines ?a] => rewrite H
         | H : journal ?a = _ |- context [journal ?a] => rewrite H
         end.

Ltac side_facts :=
  match goal with
  | F : side_frame _ _ |- _ =>
      let A1 := fresh "Fm" in let A2 := fresh "Fi" in let A3 := fresh "Fu" in
      let l := fresh "ls" in let A4 := fresh "Fj" in let A5 := fresh "Fs" in
      destruct F as (A1 & A2 & A3 & _ & _ & l & A4 & A5); wsimpl
  end.

Ltac unchanged := wsimpl; to_start; apply change_none.

(** ** How each request changes the medicine collection *)

Lemma find_has_id id ms m : find (has_id id) ms = Some m -> Medicine._id m = id.
Proof.
  intros H. apply find_some in H as [_ H]. apply N.eqb_eq, H.
Qed.

Lemma medicines_delete_change req id w :
  wp (medicines_delete req id)
     (fun _ w' => stock_change (medicines w) (DeleteMedicine req id) (medicines w'))
     w.
Proof.
  unfold medicines_delete, Medicine_findById, Medicine_save, save_with,
    commit_medicine.
  repeat wp_step; try solve [unchanged].
  try side_facts. to_start.
  match goal with
  | H : find (has_id id) _ = Some ?m |- _ =>
      apply (change_delete _ req id m); try reflexivity;
      [congruence | exact (find_has_id _ _ _ H)]
  end.
Qed.

Lemma medicines_post_change req body w :
  wp (medicines_post req body)
     (fun _ w' => stock_change (medicines w) (PostMedicine req body) (medicines w'))
     w.
Proof.
  unfold medicines_post, Medicine_findOne_barcode, Medicine_save, save_with,
    commit_medicine.
  repeat wp_step; try solve [unchanged].
  all: try side_facts; to_start; apply change_create; reflexivity.
Qed.

Lemma put_change req id body ms t u :
  find (has_id id) ms = Some t ->
  stock_change ms (PutMedicine req id body)
    (replace_medicine
       (Medicine.set_updatedBy u
          (assign_patch body
             (if 0 <? nullish (mp_stockToAdd body) 0
              then
                Medicine.set_initialStock
                  (Medicine.initialStock t + nullish (mp_stockToAdd body) 0)
                  (Medicine.set_quantity
                     (Medicine.quantity t + nullish (mp_stockToAdd body) 0) t)
              else t)))
       ms).
Proof.
  intros H.
  apply (change_update _ req id body t _
           (if 0 <? nullish (mp_stockToAdd body) 0
            then nullish (mp_stockToAdd body) 0 else 0)).
  - exact H.
  - apply find_has_id in H. destruct (0 <? _); exact H.
  - destruct (0 <? nullish (mp_stockToAdd body) 0) eqn:E0;
      [apply Z.ltb_lt in E0 |]; lia.
  - destruct (0 <? nullish (mp_stockToAdd body) 0) eqn:E0; cbn; lia.
  - destruct (0 <? nullish (mp_stockToAdd body) 0) eqn:E0; cbn; lia.
Qed.

Lemma medicines_put_change req id body w :
  wp (medicines_put req id body)
     (fun _ w' => stock_change (medicines w) (PutMedicine req id body) (medicines w'))
     w.
Proof.
  unfold medicines_put, Medicine_findById, Medicine_findOne_barcode_ne,
    Medicine_save, save_with, commit_medicine.
  repeat wp_step; try solve [unchanged].
  all: try side_facts; to_start.
  all: apply put_change; congruence.
Qed.

Lemma isEmpty_nil {A : Type} (l : list A) : negb (isEmpty l) = false -> l = [].
Proof. destruct l; [trivial | discriminate]. Qed.

Lemma issuances_post_effect req body w :
  wp (issuances_post req body) (issue_effect req body w) w.
Proof.
  unfold issuances_post, Medicine_findById, Issuance_save, Medicine_save,
    save_with, commit_medicine.
  repeat wp_step.
  all: try side_facts.
  all: unfold issue_effect; wsimpl.
  all: try solve
         [ left; splits;
           [ to_start; reflexivity
           | intros ? [= <-]; cbn; discriminate
           | eexists; split;
             [ to_start;
               first [ symmetry; apply app_nil_r
                     | rewrite <- ?app_assoc; reflexivity ]
             | reflexivity ] ] ].
  all: right.
  all: match goal with
       | H : find (has_id _) _ = Some ?m,
         V : negb (isEmpty (issuance_validators _)) = false |- _ =>
           exists m; eexists _, _; splits;
           [ congruence
           | destruct (Medicine.isActive m); [reflexivity | discriminate]
           | apply isEmpty_nil, issuance_validators_ok in V;
             destruct V as (_ & _ & _ & ? & _); trivial
           | apply Z.ltb_ge; assumption
           | to_start; reflexivity
           | to_start; rewrite <- ?app_assoc; cbn [app]; reflexivity
           | first [assumption | constructor] ]
       end.
Qed.

Lemma issuances_post_change req body w :
  wp (issuances_post req body)
     (fun _ w' => stock_change (medicines w) (PostIssuance req body) (medicines w'))
     w.
Proof.
  eapply wp_mono; [apply issuances_post_effect |].
  intros r w' [(E & _) | (m & i & ls & Hf & _ & Hq & E & _)]; cbv beta.
  - rewrite E. apply change_none.
  - rewrite E. apply (change_issue _ req body m); trivial.
    exact (find_has_id _ _ _ Hf).
Qed.

Ltac same_medicines := wsimpl; try side_facts; to_start; reflexivity.

Lemma users_put_medicines req id body w :
  wp (users_put req id body) (fun _ w' => medicines w' = medicines w) w.
Proof.
  unfold users_put, User_findById, User_findOne_email_ne, User_save, save_with.
  repeat wp_step; same_medicines.
Qed.

Lemma users_delete_medicines req id w :
  wp (users_delete req id) (fun _ w' => medicines w' = medicines w) w.
Proof.
  unfold users_delete, User_findById, User_count_admins_ne,
    User_findByIdAndDelete, save_with.
  repeat wp_step; same_medicines.
Qed.

Lemma medicines_alerts_expiring_medicines w :
  wp medicines_alerts_expiring (fun _ w' => medicines w' = medicines w) w.
Proof.
  unfold medicines_alerts_expiring, Medicine_find.
  repeat wp_step; same_medicines.
Qed.

Lemma reports_expiry_medicines w :
  wp reports_expiry (fun _ w' => medicines w' = medicines w) w.
Proof.
  unfold reports_expiry, Medicine_find.
  repeat wp_step; same_medicines.
Qed.

(** Every request changes the medicine collection in one of the ways of
    [stock_change]. *)
Lemma after_stock_change rq w :
  stock_change (medicines w) rq (medicines (after rq w)).
Proof.
  unfold after. destruct rq; cbn [handle].
  - apply medicines_post_change.
  - apply medicines_put_change.
  - apply medicines_delete_change.
  - rewrite (medicines_alerts_expiring_medicines w). apply change_none.
  - apply issuances_post_change.
  - rewrite (reports_expiry_medicines w). apply change_none.
  - rewrite (users_put_medicines req id body w). apply change_none.
  - rewrite (users_delete_medicines req id w). apply change_none.
Qed.

(** ** Lists of records *)

Lemma replace_medicine_Forall (P : Medicine.t -> Prop) m' ms :
  P m' -> Forall P ms -> Forall P (replace_medicine m' ms).
Proof.
  intros Hm H. unfold replace_medicine. apply Forall_map.
  eapply Forall_impl; [| exact H]. intros a Ha. cbv beta.
  destruct (has_id (Medicine._id m') a); assumption.
Qed.

Lemma find_replace_same id m m' ms :
  find (has_id id) ms = Some m -> Medicine._id m' = id ->
  find (has_id id) (replace_medicine m' ms) = Some m'.
Proof.
  intros H E. subst id. induction ms as [| a ms IH]; [discriminate |].
  cbn in *. destruct (has_id (Medicine._id m') a) eqn:Ha.
  - unfold has_id. rewrite N.eqb_refl. reflexivity.
  - rewrite Ha. apply IH, H.
Qed.

Lemma find_replace_other id m' ms :
  Medicine._id m' <> id ->
  find (has_id id) (replace_medicine m' ms) = find (has_id id) ms.
Proof.
  intros E. induction ms as [| a ms IH]; [reflexivity |].
  cbn. destruct (has_id (Medicine._id m') a) eqn:Ha.
  - assert (X : has_id id m' = false)
      by (unfold has_id; apply N.eqb_neq; exact E).
    rewrite X.
    assert (Y : has_id id a = false).
    { unfold has_id in *. apply N.eqb_eq in Ha. apply N.eqb_neq. congruence. }
    rewrite Y. exact IH.
  - destruct (has_id id a); [reflexivity | exact IH].
Qed.

Lemma find_app_some {A : Type} (p : A -> bool) l1 l2 a :
  find p l1 = Some a -> find p (l1 ++ l2) = Some a.
Proof.
  induction l1 as [| x l1 IH]; [discriminate |].
  cbn. destruct (p x); auto.
Qed.

Lemma stock_change_inv ms rq ms' :
  stock_change ms rq ms' -> Forall stock_inv ms -> Forall stock_inv ms'.
Proof.
  assert (In_inv : forall id m, find (has_id id) ms = Some m ->
                                Forall stock_inv ms -> stock_inv m).
  { intros id m H F. apply find_some in H as [H _].
    rewrite Forall_forall in F. apply F, H. }
  unfold stock_inv in *.
  intros [ | req body m E | req id body m m' d Hf _ Hd Eq Ei
           | req id m m' Hf _ Eq Ei | req body m m' Hf _ Hq Eq Ei ] H.
  - exact H.
  - apply Forall_app. split; [exact H |]. constructor; [lia | constructor].
  - apply replace_medicine_Forall; [| exact H].
    pose proof (In_inv _ _ Hf H). lia.
  - apply replace_medicine_Forall; [| exact H].
    pose proof (In_inv _ _ Hf H). lia.
  - apply replace_medicine_Forall; [| exact H].
    pose proof (In_inv _ _ Hf H). lia.
Qed.

(** A request that lowers the quantity of a record is an issue from it. *)
Lemma stock_change_decrease ms rq ms' id m m' :
  stock_change ms rq ms' ->
  find (has_id id) ms = Some m -> find (has_id id) ms' = Some m' ->
  Medicine.quantity m' < Medicine.quantity m ->
  exists req body, rq = PostIssuance req body /\ ib_medicineId body = id.
Proof.
  intros C Hm Hm' Hlt.
  assert (R : forall x d, find (has_id (Medicine._id x)) ms <> None ->
                          (Medicine._id x = id -> Medicine.quantity x = Medicine.quantity m + d) ->
                          0 <= d ->
                          find (has_id id) (replace_medicine x ms) = Some m' ->
                          False).
  { intros x d Hx Hq Hd Hf. destruct (N.eq_dec (Medicine._id x) id) as [E | E].
    - rewrite (find_replace_same id m x ms Hm E) in Hf.
      injection Hf as <-. specialize (Hq E). lia.
    - rewrite (find_replace_other id x ms E) in Hf. rewrite Hm in Hf.
      injection Hf as <-. lia. }
  destruct C as [ | req body x E | req id' body x x' d Hf Hi Hd Eq Ei
                | req id' x x' Hf Hi Eq Ei | req body x x' Hf Hi Hq Eq Ei ].
  - rewrite Hm in Hm'. injection Hm' as <-. lia.
  - rewrite (find_app_some _ _ _ _ Hm) in Hm'. injection Hm' as <-. lia.
  - exfalso. apply (R x' d); trivial.
    + rewrite Hi, Hf. discriminate.
    + intros E. assert (X : Some x = Some m) by congruence.
      injection X as ->. exact Eq.
  - exfalso. apply (R x' 0); trivial; try lia.
    + rewrite Hi, Hf. discriminate.
    + intros E. assert (X : Some x = Some m) by congruence.
      injection X as ->. lia.
  - exists req, body. split; [reflexivity |].
    destruct (N.eq_dec (ib_medicineId body) id) as [E | E]; [exact E |].
    exfalso. rewrite <- Hi in E.
    rewrite (find_replace_other id x' ms E) in Hm'. rewrite Hm in Hm'.
    injection Hm' as <-. lia.
Qed.

(** ** Rejected issues *)

Lemma issuances_post_insufficient req body w m :
  issuance_validators body = [] ->
  faults w CMedicine = [] ->
  find (has_id (ib_medicineId body)) (medicines w) = Some m ->
  Medicine.isActive m = true ->
  Medicine.quantity m < ib_quantityIssued body ->
  issuances_post req body w
  = (Ok (mkResponse 400
           (JMessage ("Insufficient stock. Available: "
                      ++ show (Medicine.quantity m)
                      ++ ", Requested: " ++ show (ib_quantityIssued body)))),
     w).
Proof.
  intros Hval U Hfind Hact Hq.
  unfold issuances_post. apply try_catch_ok. cbv zeta. rewrite Hval.
  cbn [isEmpty negb].
  rewrite (bind_ok _ _ _ _ _ (Medicine_findById_up _ _ U)).
  rewrite Hfind, Hact. cbn [negb].
  replace (Medicine.quantity m <? ib_quantityIssued body) with true
    by (symmetry; apply Z.ltb_lt; exact Hq).
  reflexivity.
Qed.

Lemma issuances_post_expired req body w m :
  issuance_validators body = [] ->
  faults w CMedicine = [] ->
  find (has_id (ib_medicineId body)) (medicines w) = Some m ->
  Medicine.isActive m = true ->
  ib_quantityIssued body <= Medicine.quantity m ->
  Medicine.expiryDate m <= clock w ->
  exists w',
    issuances_post req body w
    = (Ok (mkResponse 400 (JMessage "Cannot issue expired medicine")), w')
    /\ data_eq w w'.
Proof.
  intros Hval U Hfind Hact Hq He.
  destruct (new_Date_frame w) as (w' & E & (D & _) & _).
  exists w'. split; [| exact D].
  unfold issuances_post. apply try_catch_ok. cbv zeta. rewrite Hval.
  cbn [isEmpty negb].
  rewrite (bind_ok _ _ _ _ _ (Medicine_findById_up _ _ U)).
  rewrite Hfind, Hact. cbn [negb].
  replace (Medicine.quantity m <? ib_quantityIssued body) with false
    by (symmetry; apply Z.ltb_ge; exact Hq).
  rewrite (bind_ok _ _ _ _ _ E).
  replace (Medicine.expiryDate m <=? clock w) with true
    by (symmetry; apply Z.leb_le; exact He).
  reflexivity.
Qed.

(** ** A user update and its alert *)

Lemma user_updated_invalid id title message severity entityType entityId
    triggeredBy isRead isActive expiresAt :
  Alert.validate
    (Alert.mk id "user_updated" title message severity entityType entityId
              triggeredBy isRead isActive expiresAt) = false.
Proof. reflexivity. Qed.

(** The alert of a user update is refused by the schema of the alert
    collection, whatever the store does. *)
Lemma createUserAlert_updated userName userId triggeredBy w :
  exists w' a,
    createUserAlert "updated" userName userId triggeredBy w = (Ok None, w')
    /\ alerts w' = alerts w
    /\ journal w' = (journal w ++ [(WAlert a, false)])%list
    /\ brief a = ("user_updated", "info",
                  "User " ++ quoted userName ++ " details have been updated")
    /\ side_frame w w'.
Proof.
  unfold createUserAlert. cbv zeta. cbn [lookup user_alerts String.eqb Ascii.eqb
    Bool.eqb ad_type ad_title ad_message ad_severity].
  match goal with
  | |- context [createAlert ?a ?b ?c ?d ?e ?f ?g w] =>
      destruct (createAlert_spec a b c d e f g w)
        as (ok & w' & E & A & J & _ & _ & V & _ & F)
  end.
  destruct ok.
  - specialize (V eq_refl). rewrite user_updated_invalid in V. discriminate.
  - exists w'. eexists. splits; [exact E | exact A | exact J | reflexivity | exact F].
Qed.

Lemma wp_logActivity actionType entityType entityId performedBy description
    oldData newData req (Q : Result unit -> World -> Prop) w :
  (forall w' entry ok,
      alerts w' = alerts w ->
      journal w' = (journal w ++ [(WActivityLog entry, ok)])%list ->
      side_frame w w' -> Q (Ok tt) w') ->
  wp (logActivity actionType entityType entityId performedBy description
        oldData newData req) Q w.
Proof.
  intros H.
  destruct (logActivity_spec actionType entityType entityId performedBy
              description oldData newData req w)
    as (w' & entry & ok & E & A & J & _ & F).
  eapply wp_run; [exact E | eapply H; eassumption].
Qed.

Lemma wp_createUserAlert_updated userName userId triggeredBy
    (Q : Result (option Alert.t) -> World -> Prop) w :
  (forall w' a,
      alerts w' = alerts w ->
      journal w' = (journal w ++ [(WAlert a, false)])%list ->
      brief a = ("user_updated", "info",
                 "User " ++ quoted userName ++ " details have been updated") ->
      side_frame w w' -> Q (Ok None) w') ->
  wp (createUserAlert "updated" userName userId triggeredBy) Q w.
Proof.
  intros H.
  destruct (createUserAlert_updated userName userId triggeredBy w)
    as (w' & a & E & A & J & B & F).
  eapply wp_run; [exact E | eapply H; eassumption].
Qed.

Ltac wp_user_step :=
  lazymatch goal with
  | |- wp (logActivity _ _ _ _ _ _ _ _) _ _ =>
      let w := fresh "w" in let A := fresh "La" in let J := fresh "Lj" in
      apply wp_logActivity; intros w ? ? A J _
  | |- wp (createUserAlert "updated" _ _ _) _ _ =>
      let w := fresh "w" in let A := fresh "Ua" in let J := fresh "Uj" in
      apply wp_createUserAlert_updated; intros w ? A J _ _
  | |- wp (bind (logActivity _ _ _ _ _ _ _ _) _) _ _ => apply wp_bind
  | _ => wp_step
  end; cbv beta iota; wsimpl.

Lemma users_put_alerts req id body w :
  wp (users_put req id body) (fun _ w' => alerts w' = alerts w) w.
Proof.
  unfold users_put, User_findById, User_findOne_email_ne, User_save, save_with.
  repeat wp_user_step.
  all: repeat match goal with
              | H : alerts ?a = _ |- context [alerts ?a] => rewrite H
              end; reflexivity.
Qed.

(** ** The alerts of a mutation *)

Lemma tail_spec {A : Type} (X : M A) first
    actionType entityType entityId performedBy description oldData newData req
    m u (resp : Response) :
  (forall w, exists r w', X w = (Ok r, w') /\ alert_step w w' first) ->
  forall w, exists w',
    (logActivity actionType entityType entityId performedBy description
       oldData newData req ;;
     X ;;
     checkAndCreateStockAlerts m u ;;
     ret resp) w = (Ok resp, w')
    /\ tail_run w w' first m.
Proof.
  intros HX w.
  destruct (logActivity_spec actionType entityType entityId performedBy
              description oldData newData req w)
    as (w1 & entry & ok & E1 & _ & J1 & _ & F1).
  destruct (HX w1) as (r & w2 & E2 & S2).
  destruct (checkAndCreateStockAlerts_run m u w2)
    as (w3 & t1 & t2 & t3 & E3 & S3 & K3).
  exists w3. rewrite (bind_ok _ _ _ _ _ E1), (bind_ok _ _ _ _ _ E2),
    (bind_ok _ _ _ _ _ E3).
  split; [reflexivity |].
  pose proof (alert_step_trans _ _ _ _ _ S2 S3) as (F & _ & la & J & Ea & _ & C).
  exists entry, ok, la, t1, t2, t3.
  destruct F1 as (M1 & _ & _ & _ & T1 & _).
  destruct F as (M2 & _). splits.
  - rewrite J, J1, <- app_assoc. reflexivity.
  - exact Ea.
  - exact C.
  - congruence.
  - intros T. destruct (T1 T) as [T1' C1].
    destruct (alert_step_stopped _ _ _ S2 T1') as [T2 C2].
    destruct (K3 T2) as (-> & -> & ->). splits; congruence.
Qed.

Lemma wp_tail {A : Type} (X : M A) first
    actionType entityType entityId performedBy description oldData newData req
    m u (resp : Response) (Q : Result Response -> World -> Prop) w :
  (forall w, exists r w', X w = (Ok r, w') /\ alert_step w w' first) ->
  (forall w', tail_run w w' first m -> Q (Ok resp) w') ->
  wp (logActivity actionType entityType entityId performedBy description
        oldData newData req ;;
      X ;;
      checkAndCreateStockAlerts m u ;;
      ret resp) Q w.
Proof.
  intros HX H.
  destruct (tail_spec X first actionType entityType entityId performedBy
              description oldData newData req m u resp HX w) as (w' & E & R).
  eapply wp_run; [exact E | apply H, R].
Qed.

Lemma when_alert_step (c : bool) action medicineName medicineId triggeredBy
    additionalInfo w :
  exists r w',
    when c (createMedicineAlert action medicineName medicineId triggeredBy
              additionalInfo ;; ret tt) w = (Ok r, w')
    /\ alert_step w w'
         (if c then
            match lookup action (medicine_alerts medicineName additionalInfo) with
            | Some d => [(ad_type d, ad_severity d, ad_message d)]
            | None => []
            end
          else []).
Proof.
  destruct (when_alert c action medicineName medicineId triggeredBy
              additionalInfo w) as (w' & E & S).
  exists tt, w'. split; assumption.
Qed.

Ltac wp_alert_step :=
  lazymatch goal with
  | |- wp (bind (logActivity _ _ _ _ _ _ _ _) _) _ _ =>
      let w := fresh "w" in let R := fresh "R" in
      eapply wp_tail;
      [ first [ apply createMedicineAlert_step | apply when_alert_step ]
      | intros w R ]
  | _ => wp_step
  end.







(** ** The schema and the index as an invariant of the collection *)

Lemma barcode_taken_collide m ms : barcode_taken m ms = existsb (collide m) ms.
Proof.
  unfold barcode_taken, collide. destruct (Medicine.barcode m) as [b |].
  - reflexivity.
  - induction ms as [| x ms IH]; [reflexivity |].
    cbn. rewrite andb_false_r. exact IH.
Qed.

Lemma collide_sym x y : collide x y = collide y x.
Proof.
  unfold collide, has_id. rewrite (N.eqb_sym (Medicine._id y)).
  destruct (Medicine._id x =? Medicine._id y)%N; [reflexivity |]. cbn.
  destruct (Medicine.barcode x) as [a |], (Medicine.barcode y) as [b |];
    cbn; trivial. apply String.eqb_sym.
Qed.

Lemma collide_self x y : Medicine._id x = Medicine._id y -> collide x y = false.
Proof.
  unfold collide, has_id. intros ->. rewrite N.eqb_refl. reflexivity.
Qed.

Lemma consistent_spec ms :
  consistent ms = true <->
  (forall x, In x ms ->
             Medicine.validate x = true
             /\ forall y, In y ms -> collide x y = false).
Proof.
  unfold consistent. rewrite forallb_forall. split.
  - intros H x Hx. specialize (H x Hx). apply andb_prop in H as [V B].
    split; [exact V |]. intros y Hy.
    apply negb_true_iff in B. rewrite barcode_taken_collide in B.
    destruct (collide x y) eqn:E; [| reflexivity].
    assert (X : existsb (collide x) ms = true)
      by (apply existsb_exists; exists y; auto).
    congruence.
  - intros H x Hx. destruct (H x Hx) as [V B]. rewrite V. cbn.
    apply negb_true_iff. rewrite barcode_taken_collide.
    destruct (existsb (collide x) ms) eqn:E; [| reflexivity].
    apply existsb_exists in E as (y & Hy & C). rewrite (B y Hy) in C.
    discriminate.
Qed.

Lemma not_taken m ms :
  barcode_taken m ms = false -> forall y, In y ms -> collide m y = false.
Proof.
  rewrite barcode_taken_collide. intros H y Hy.
  destruct (collide m y) eqn:E; [| reflexivity].
  assert (X : existsb (collide m) ms = true)
    by (apply existsb_exists; exists y; auto).
  congruence.
Qed.

Lemma consistent_find ms id m :
  consistent ms = true -> find (has_id id) ms = Some m ->
  Medicine.validate m = true /\ barcode_taken m ms = false.
Proof.
  intros H Hf. apply find_some in Hf as [Hm _].
  assert (H' := proj1 (consistent_spec _) H); clear H; rename H' into H. destruct (H m Hm) as [V B].
  split; [exact V |]. rewrite barcode_taken_collide.
  destruct (existsb (collide m) ms) eqn:E; [| reflexivity].
  apply existsb_exists in E as (y & Hy & C). rewrite (B y Hy) in C.
  discriminate.
Qed.

Lemma In_replace_medicine m' ms y :
  In y (replace_medicine m' ms) ->
  y = m' \/ (In y ms /\ has_id (Medicine._id m') y = false).
Proof.
  unfold replace_medicine. rewrite in_map_iff. intros (x & E & Hx).
  destruct (has_id (Medicine._id m') x) eqn:Hid.
  - left. symmetry. exact E.
  - right. subst y. auto.
Qed.

Lemma store_step_consistent ms ms' :
  store_step ms ms' -> consistent ms = true -> consistent ms' = true.
Proof.
  intros [-> | (m & V & B & [-> | ->])] H; [exact H | |].
  - apply (proj2 (consistent_spec _)). assert (H' := proj1 (consistent_spec _) H); clear H; rename H' into H.
    pose proof (not_taken m ms B) as N.
    intros x Hx. apply in_app_or in Hx as [Hx | [<- | []]].
    + destruct (H x Hx) as [Vx Bx]. split; [exact Vx |].
      intros y Hy. apply in_app_or in Hy as [Hy | [<- | []]].
      * apply Bx, Hy.
      * rewrite collide_sym. apply N, Hx.
    + split; [exact V |].
      intros y Hy. apply in_app_or in Hy as [Hy | [<- | []]].
      * apply N, Hy.
      * apply collide_self. reflexivity.
  - apply (proj2 (consistent_spec _)). assert (H' := proj1 (consistent_spec _) H); clear H; rename H' into H.
    pose proof (not_taken m ms B) as N.
    intros x Hx. apply In_replace_medicine in Hx as [-> | [Hx Ix]].
    + split; [exact V |].
      intros y Hy. apply In_replace_medicine in Hy as [-> | [Hy Iy]].
      * apply collide_self. reflexivity.
      * apply N, Hy.
    + destruct (H x Hx) as [Vx Bx]. split; [exact Vx |].
      intros y Hy. apply In_replace_medicine in Hy as [-> | [Hy Iy]].
      * rewrite collide_sym. apply N, Hx.
      * apply Bx, Hy.
Qed.

Ltac store_leaf :=
  wsimpl; try side_facts;
  first
    [ left; to_start; reflexivity
    | right; eexists; split; [eassumption |];
      split; [congruence |];
      first [ left; to_start; reflexivity | right; to_start; reflexivity ] ].

Lemma medicines_post_store req body w :
  wp (medicines_post req body)
     (fun _ w' => store_step (medicines w) (medicines w')) w.
Proof.
  unfold medicines_post, Medicine_findOne_barcode, Medicine_save, save_with,
    commit_medicine.
  repeat wp_step; store_leaf.
Qed.

Lemma medicines_put_store req id body w :
  wp (medicines_put req id body)
     (fun _ w' => store_step (medicines w) (medicines w')) w.
Proof.
  unfold medicines_put, Medicine_findById, Medicine_findOne_barcode_ne,
    Medicine_save, save_with, commit_medicine.
  repeat wp_step; store_leaf.
Qed.

Lemma medicines_delete_store req id w :
  wp (medicines_delete req id)
     (fun _ w' => store_step (medicines w) (medicines w')) w.
Proof.
  unfold medicines_delete, Medicine_findById, Medicine_save, save_with,
    commit_medicine.
  repeat wp_step; store_leaf.
Qed.

Lemma issuances_post_store req body w :
  wp (issuances_post req body)
     (fun _ w' => store_step (medicines w) (medicines w')) w.
Proof.
  unfold issuances_post, Medicine_findById, Issuance_save, Medicine_save,
    save_with, commit_medicine.
  repeat wp_step; store_leaf.
Qed.

Lemma after_store_step rq w : store_step (medicines w) (medicines (after rq w)).
Proof.
  unfold after. destruct rq; cbn [handle].
  - apply medicines_post_store.
  - apply medicines_put_store.
  - apply medicines_delete_store.
  - left. apply medicines_alerts_expiring_medicines.
  - apply issuances_post_store.
  - left. apply reports_expiry_medicines.
  - left. apply users_put_medicines.
  - left. apply users_delete_medicines.
Qed.

(** Every sequence of requests keeps the collection within its schema and
    its unique index. *)
Lemma serve_consistent rs w :
  consistent (medicines w) = true -> consistent (medicines (serve rs w)) = true.
Proof.
  revert w. induction rs as [| rq rs IH]; intros w H; [exact H |].
  cbn [serve fold_left]. apply IH.
  exact (store_step_consistent _ _ (after_store_step rq w) H).
Qed.

(** ** POST /api/medicines and the barcode *)

Lemma medicine_validators_ok b :
  medicine_validators b = [] ->
  isLength 1 200 (mb_name b) = true
  /\ isIn (mb_category b) Medicine.categories = true
  /\ (0 <=? mb_quantity b) = true
  /\ (1 <=? mb_minQuantity b) = true
  /\ Qle_bool 0 (mb_price b) = true
  /\ optional (maxlength 100) (mb_barcode b) = true
  /\ optional (maxlength 200) (mb_supplier b) = true
  /\ optional (maxlength 100) (mb_batchNumber b) = true
  /\ optional (maxlength 500) (mb_description b) = true.
Proof.
  unfold medicine_validators. intros H.
  repeat (apply app_eq_nil in H as [?%chain_nil H]).
  apply chain_nil in H. splits; assumption.
Qed.

(** A body that passed the validators builds a record that passes the
    schema. *)
Lemma medicine_valid b id u :
  medicine_validators b = [] ->
  Medicine.validate
    (Medicine.mk id (mb_name b) (mb_barcode b) (mb_category b) (mb_quantity b)
       (mb_quantity b) (mb_minQuantity b) (mb_price b) (mb_expiryDate b)
       (mb_supplier b) (mb_batchNumber b) (mb_description b)
       (nullish (mb_isActive b) true) u (mb_updatedBy b))
  = true.
Proof.
  intros H.
  destruct (medicine_validators_ok b H) as (A & B & C & D & E & _ & F & G & I).
  destruct (isLength_required 1 200 _ (le_n _) A) as [A1 A2].
  unfold Medicine.validate. cbn [Medicine.name Medicine.category
    Medicine.quantity Medicine.initialStock Medicine.minQuantity Medicine.price
    Medicine.supplier Medicine.batchNumber Medicine.description].
  rewrite A1, A2, B, C, D, E. cbn [andb].
  unfold optional in F, G, I. unfold opt_maxlength.
  rewrite F, G, I. reflexivity.
Qed.

(** An active record has the barcode: the check of the route answers, and
    nothing reaches [save()]. *)
Lemma medicines_post_duplicate_active req body w b x :
  medicine_validators body = [] ->
  faults w CMedicine = [] ->
  mb_barcode body = Some b -> b <> "" ->
  find (fun m => opt_str_eqb (Medicine.barcode m) (Some b)
                 && Medicine.isActive m) (medicines w) = Some x ->
  medicines_post req body w
  = (Ok (mkResponse 400 (JMessage "Medicine with this barcode already exists")),
     w).
Proof.
  intros Hval U Hb Ne Hf.
  unfold medicines_post. apply try_catch_ok. cbv zeta. rewrite Hval.
  cbn [isEmpty negb]. rewrite Hb. cbn [truthy_str nullish].
  replace (b =? "")%string with false
    by (symmetry; apply String.eqb_neq; exact Ne).
  cbn [negb].
  rewrite (bind_ok _ _ _ _ _ (Medicine_findOne_barcode_up _ _ U)).
  rewrite Hf. reflexivity.
Qed.

(** No active record has the barcode but some record has it: the check of
    the route passes, [save()] runs into the unique index, and the catch
    clause gives the same answer. *)
Lemma medicines_post_duplicate_index req body w :
  medicine_validators body = [] ->
  faults w CMedicine = [] ->
  find (fun m => opt_str_eqb (Medicine.barcode m)
                   (Some (nullish (mb_barcode body) ""))
                 && Medicine.isActive m) (medicines w) = None ->
  barcode_taken
    (Medicine.mk (nextId w) (mb_name body) (mb_barcode body) (mb_category body)
       (mb_quantity body) (mb_quantity body) (mb_minQuantity body)
       (mb_price body) (mb_expiryDate body) (mb_supplier body)
       (mb_batchNumber body) (mb_description body)
       (nullish (mb_isActive body) true) (reqUser req) (mb_updatedBy body))
    (medicines w) = true ->
  exists w',
    medicines_post req body w
    = (Ok (mkResponse 400
             (JMessage "Medicine with this barcode already exists")), w')
    /\ medicines w' = medicines w
    /\ alerts w' = alerts w
    /\ activitylogs w' = activitylogs w.
Proof.
  intros Hval U Hf Hb.
  eexists. split.
  - unfold medicines_post, try_catch. cbv zeta. rewrite Hval.
    cbn [isEmpty negb].
    assert (X : (if truthy_str (mb_barcode body)
                 then Medicine_findOne_barcode (nullish (mb_barcode body) "")
                 else ret None) w = (Ok None, w)).
    { destruct (truthy_str (mb_barcode body)); [| reflexivity].
      rewrite (Medicine_findOne_barcode_up _ _ U), Hf. reflexivity. }
    rewrite (bind_ok _ _ _ _ _ X).
    rewrite (bind_ok _ _ w (nextId w) (set_nextId (N.succ (nextId w)) w) eq_refl).
    erewrite bind_throw;
      [| apply Medicine_save_taken;
         [apply medicine_valid, Hval | exact U | exact Hb]].
    reflexivity.
  - splits; reflexivity.
Qed.

(** ** The stock check with the clock standing *)


Lemma policy_one_per_condition now m :
  one_per_condition now m (stock_check_policy now m).
Proof.
  unfold one_per_condition, stock_check_policy, msPerDay. cbv zeta.
  destruct (Z.leb_spec (Medicine.quantity m) (Medicine.minQuantity m));
    destruct (Z.ltb_spec now (Medicine.expiryDate m));
    destruct (Z.leb_spec (Medicine.expiryDate m)
                (now + 30 * (24 * 60 * 60 * 1000)));
    destruct (Z.leb_spec (Medicine.expiryDate m) now); cbn;
    splits; trivial; try lia; intros; split; lia.
Qed.

(** ** The expiry report at the boundary *)

Lemma In_insert_by_expiry x m l :
  In x (insert_by_expiry m l) <-> x = m \/ In x l.
Proof.
  induction l as [| a l IH]; cbn.
  - split; [intros [<- | []]; auto | intros [-> | []]; auto].
  - destruct (Medicine.expiryDate m <=? Medicine.expiryDate a); cbn.
    + split; [intros [<- | H]; auto | intros [-> | H]; auto].
    + rewrite IH. split.
      * intros [<- | [-> | H]]; auto.
      * intros [-> | [<- | H]]; auto.
Qed.

Lemma In_sort_by_expiry x l : In x (sort_by_expiry l) <-> In x l.
Proof.
  unfold sort_by_expiry. induction l as [| a l IH]; cbn; [tauto |].
  rewrite In_insert_by_expiry, IH. split; intros [H | H]; auto.
Qed.

Lemma reports_expiry_run w :
  ticks w = [] -> faults w CMedicine = [] ->
  let now := clock w in
  reports_expiry w
  = (Ok (mkResponse 200
           (JExpiryReport
              (sort_by_expiry
                 (filter (fun m => Medicine.isActive m
                                   && (Medicine.expiryDate m <? now))
                         (medicines w)))
              (sort_by_expiry
                 (filter (fun m => Medicine.isActive m
                                   && (now <=? Medicine.expiryDate m)
                                   && (Medicine.expiryDate m <=? addDays 30 now))
                         (medicines w)))
              (sort_by_expiry
                 (filter (fun m => Medicine.isActive m
                                   && (addDays 30 now <? Medicine.expiryDate m)
                                   && (Medicine.expiryDate m <=? addDays 60 now))
                         (medicines w)))
              now)), w).
Proof.
  intros T U now. unfold reports_expiry. apply try_catch_ok.
  rewrite (bind_ok _ _ _ _ _ (new_Date_stopped w T)).
  rewrite (bind_ok _ _ _ _ _ (new_Date_stopped w T)).
  rewrite (bind_ok _ _ _ _ _ (new_Date_stopped w T)). cbv zeta.
  rewrite (bind_ok _ _ _ _ _ (Medicine_find_up _ w U)).
  rewrite (bind_ok _ _ _ _ _ (Medicine_find_up _ w U)).
  rewrite (bind_ok _ _ _ _ _ (Medicine_find_up _ w U)).
  rewrite (bind_ok _ _ _ _ _ (new_Date_stopped w T)).
  reflexivity.
Qed.

(** A record that expires at this very instant: the report has it under
    expiring soon and not under expired; the stock check says expired and
    not expiring. *)
Lemma expiry_report_at_boundary w m :
  ticks w = [] -> faults w CMedicine = [] ->
  In m (medicines w) -> Medicine.isActive m = true ->
  Medicine.expiryDate m = clock w ->
  (exists expired soon later at_,
      reports_expiry w
      = (Ok (mkResponse 200 (JExpiryReport expired soon later at_)), w)
      /\ In m soon /\ ~ In m expired)
  /\ count_kind ("medicine_expired", "danger")
       (stock_check_policy (clock w) m) = 1%nat
  /\ count_kind ("medicine_expiring", "warning")
       (stock_check_policy (clock w) m) = 0%nat.
Proof.
  intros T U Hm Ha He. split.
  - eexists _, _, _, _. split; [apply (reports_expiry_run w T U) |]. split.
    + apply In_sort_by_expiry, filter_In. split; [exact Hm |].
      rewrite Ha, He. unfold addDays, msPerDay. cbn [andb].
      apply andb_true_intro. split; apply Z.leb_le; lia.
    + rewrite In_sort_by_expiry, filter_In. intros [_ H].
      rewrite Ha, He, Z.ltb_irrefl in H. discriminate.
  - destruct (policy_one_per_condition (clock w) m)
      as (_ & _ & _ & _ & _ & _ & _ & _ & B).
    destruct B as [B1 B2]; [lia |]. split; assumption.
Qed.

(** ** The stock check with the clock running *)








(** ** What the alert store holds after a mutation *)










(** * The claims *)

(** C1.  An issue of [q] units against an active record with [n] on hand:
    when [q <= n] and the record is not expired the request is answered 201
    and the record then holds [n - q]; when [n < q] the request is answered
    400 with the message [Insufficient stock. Available: n, Requested: q]
    and the world, so also the quantity, is what it was.  The store is up for
    the primary collections and holds what went through the schema and the
    index ([serve_consistent]); the side channels may fail at will. *)
Theorem issue_decrements_or_rejects req body w m :
  issuance_validators body = [] ->
  primary_up w ->
  consistent (medicines w) = true ->
  find (has_id (ib_medicineId body)) (medicines w) = Some m ->
  Medicine.isActive m = true ->
  let n := Medicine.quantity m in
  let q := ib_quantityIssued body in
  (q <= n -> clock w < Medicine.expiryDate m ->
   exists w' issuance m',
     issuances_post req body w
     = (Ok (mkResponse 201 (JIssuance issuance)), w')
     /\ find (has_id (ib_medicineId body)) (medicines w') = Some m'
     /\ Medicine.quantity m' = n - q)
  /\ (n < q ->
      issuances_post req body w
      = (Ok (mkResponse 400
               (JMessage ("Insufficient stock. Available: " ++ show n
                          ++ ", Requested: " ++ show q))),
         w)).
Proof.
  intros Hval Hup Hcons Hfind Hact n q.
  destruct (consistent_find _ _ _ Hcons Hfind) as [Hvalid Hbar]. split.
  - intros Hq Hexp.
    destruct (wp_elim _ _ _
                (issuances_post_run req body w m Hval Hup Hfind Hact Hvalid
                   Hbar Hq Hexp))
      as (r & w' & E & issuedAt & entry & ok & la & t1 & t2 & t3
          & -> & Em & _).
    exists w'. eexists. exists (issued_from req q m).
    split; [exact E |]. split; [| reflexivity].
    rewrite Em. apply (find_replace_same _ m); [exact Hfind |].
    exact (find_has_id _ _ _ Hfind).
  - intros Hq. destruct Hup as (U & _).
    apply issuances_post_insufficient; assumption.
Qed.

(** C2, as amended.  In every issue answered 201 the ledger entry is written
    first and the decrement of the record follows it; nothing but side-channel
    writes comes after.  And a request that lowers the quantity of a record
    is an issue from that record. *)
Theorem ledger_precedes_decrement req body w resp w' :
  issuances_post req body w = (Ok resp, w') ->
  status resp = 201 ->
  (exists m i ls,
      find (has_id (ib_medicineId body)) (medicines w) = Some m
      /\ journal w'
         = (journal w
            ++ (WIssuance i, true)
               :: (WMedicine (issued_from req (ib_quantityIssued body) m), true)
               :: ls)%list
      /\ Forall side_entry ls
      /\ precedes ledger_append stock_write
           ((WIssuance i, true)
            :: (WMedicine (issued_from req (ib_quantityIssued body) m), true)
            :: ls) = true
      /\ medicines w'
         = replace_medicine (issued_from req (ib_quantityIssued body) m)
                            (medicines w))
  /\ (forall rq w0 id m0 m1,
         find (has_id id) (medicines w0) = Some m0 ->
         find (has_id id) (medicines (after rq w0)) = Some m1 ->
         Medicine.quantity m1 < Medicine.quantity m0 ->
         exists req' body', rq = PostIssuance req' body'
                            /\ ib_medicineId body' = id).
Proof.
  intros E S. split.
  - pose proof (issuances_post_effect req body w) as W. unfold wp in W.
    rewrite E in W. cbn [fst snd] in W.
    destruct W as [(_ & N & _) | (m & i & ls & Hf & _ & _ & Em & Ej & Hs)].
    + exfalso. exact (N resp eq_refl S).
    + exists m, i, ls. splits; trivial.
  - intros rq w0 id m0 m1 H0 H1 Hlt.
    exact (stock_change_decrease _ _ _ _ _ _ (after_stock_change rq w0) H0 H1 Hlt).
Qed.


(** C8.  [createAlert] and [logActivity] return normally from every world
    and for every input, and so do the three emitters built on [createAlert];
    none of them touches the medicines, the ledger or the users, nor the
    health of those collections.  Hence an issue goes through, with its
    answer and its writes, whatever the side channels do. *)
Theorem side_channels_never_throw :
  (forall type title message entityType entityId triggeredBy severity w,
      exists r w',
        createAlert type title message entityType entityId triggeredBy
                    severity w = (Ok r, w')
        /\ side_frame w w')
  /\ (forall actionType entityType entityId performedBy description oldData
             newData req w,
         exists w',
           logActivity actionType entityType entityId performedBy description
                       oldData newData req w = (Ok tt, w')
           /\ side_frame w w')
  /\ (forall action userName userId triggeredBy,
         side_only (createUserAlert action userName userId triggeredBy))
  /\ (forall action medicineName medicineId triggeredBy additionalInfo,
         side_only (createMedicineAlert action medicineName medicineId
                      triggeredBy additionalInfo))
  /\ (forall medicine triggeredBy,
         side_only (checkAndCreateStockAlerts medicine triggeredBy))
  /\ (forall req body w m,
         issuance_validators body = [] ->
         primary_up w ->
         consistent (medicines w) = true ->
         find (has_id (ib_medicineId body)) (medicines w) = Some m ->
         Medicine.isActive m = true ->
         ib_quantityIssued body <= Medicine.quantity m ->
         clock w < Medicine.expiryDate m ->
         status_of (fst (issuances_post req body w)) = 201
         /\ medicines (snd (issuances_post req body w))
            = replace_medicine (issued_from req (ib_quantityIssued body) m)
                               (medicines w)).
Proof.
  splits.
  - intros. destruct (createAlert_step type title message entityType entityId
                        triggeredBy severity w) as (r & w' & E & F & _).
    exists r, w'. split; assumption.
  - intros. destruct (side_only_logActivity actionType entityType entityId
                        performedBy description oldData newData req w)
      as ([] & w' & E & F).
    exists w'. split; assumption.
  - exact side_only_createUserAlert.
  - exact side_only_createMedicineAlert.
  - exact side_only_checkAndCreateStockAlerts.
  - intros req body w m Hval Hup Hcons Hfind Hact Hq Hexp.
    destruct (consistent_find _ _ _ Hcons Hfind) as [Hvalid Hbar].
    pose proof (issuances_post_run req body w m Hval Hup Hfind Hact Hvalid
                  Hbar Hq Hexp) as W.
    unfold wp, issue_run in W.
    destruct W as (issuedAt & entry & ok & la & t1 & t2 & t3 & -> & Em & _).
    split; [reflexivity | exact Em].
Qed.

Lemma stockOut_eq m :
  Medicine.stockOut m = Medicine.initialStock m - Medicine.quantity m.
Proof.
  unfold Medicine.stockOut.
  destruct (Z.eqb_spec (Medicine.initialStock m) 0) as [-> | _];
    destruct (Z.eqb_spec (Medicine.quantity m) 0) as [-> | _]; reflexivity.
Qed.

Lemma serve_inv rs w :
  Forall stock_inv (medicines w) -> Forall stock_inv (medicines (serve rs w)).
Proof.
  revert w. induction rs as [| rq rs IH]; intros w H; [exact H |].
  cbn [serve fold_left]. apply IH.
  exact (stock_change_inv _ _ _ (after_stock_change rq w) H).
Qed.

(** C9.  Starting from records with [quantity <= initialStock], and so from
    the empty collection, every sequence of requests leaves every record
    with [stockOut = initialStock - quantity >= 0]: each request leaves the
    collection as it is, or creates a record with [initialStock = quantity],
    or adds the same [d >= 0] to [quantity] and [initialStock] of a record,
    or soft-deletes a record, or takes between 1 and [quantity] units off
    the [quantity] of a record and leaves its [initialStock]. *)
Theorem stock_out_invariant rs w :
  Forall stock_inv (medicines w) ->
  (forall m, In m (medicines (serve rs w)) ->
             Medicine.stockOut m = Medicine.initialStock m - Medicine.quantity m
             /\ 0 <= Medicine.stockOut m)
  /\ (forall rq w0, stock_change (medicines w0) rq (medicines (after rq w0))).
Proof.
  intros H. split.
  - intros m Hm. pose proof (serve_inv rs w H) as F.
    rewrite Forall_forall in F. specialize (F m Hm). unfold stock_inv in F.
    rewrite stockOut_eq. lia.
  - exact after_stock_change.
Qed.

(** C10.  Against an active record, an issue of more than is on hand is
    answered with the insufficient-stock error whether the record is expired
    or not, and the world is left as it was; an issue within the stock of an
    expired record is answered with the expired-medicine error, and no store
    and no journal entry is written. *)
Theorem insufficient_stock_reported_first req body w m :
  issuance_validators body = [] ->
  faults w CMedicine = [] ->
  find (has_id (ib_medicineId body)) (medicines w) = Some m ->
  Medicine.isActive m = true ->
  (Medicine.quantity m < ib_quantityIssued body ->
   issuances_post req body w
   = (Ok (mkResponse 400
            (JMessage ("Insufficient stock. Available: "
                       ++ show (Medicine.quantity m)
                       ++ ", Requested: " ++ show (ib_quantityIssued body)))),
      w))
  /\ (ib_quantityIssued body <= Medicine.quantity m ->
      Medicine.expiryDate m <= clock w ->
      exists w',
        issuances_post req body w
        = (Ok (mkResponse 400 (JMessage "Cannot issue expired medicine")), w')
        /\ data_eq w w').
Proof.
  intros Hval U Hfind Hact. split.
  - intros Hq. apply issuances_post_insufficient; assumption.
  - intros Hq He. apply (issuances_post_expired req body w m); assumption.
Qed.

(** * Further properties of the handlers *)

(** ** Pages *)

Lemma firstn_add {A : Type} (a b : nat) (l : list A) :
  firstn (a + b) l = (firstn a l ++ firstn b (skipn a l))%list.
Proof.
  revert l. induction a as [| a IH]; intros l; [reflexivity |].
  destruct l as [| x l]; cbn; [destruct b; reflexivity |].
  rewrite IH. reflexivity.
Qed.

Lemma concat_pages {A : Type} (k n : nat) (l : list A) :
  List.concat (map (fun i => firstn k (skipn (i * k) l)) (seq 0 n)) = firstn (n * k) l.
Proof.
  induction n as [| n IH]; [reflexivity |].
  rewrite seq_S, map_app, concat_app, IH. cbn [map List.concat plus].
  rewrite app_nil_r. replace (S n * k)%nat with (n * k + k)%nat by lia.
  symmetry. apply firstn_add.
Qed.

Lemma Math_ceil_div_bounds a b :
  0 <= a -> 0 < b ->
  let pages := Math_ceil_div a b in
  (pages - 1) * b < a <= pages * b /\ 0 <= pages.
Proof.
  intros Ha Hb. unfold Math_ceil_div. cbv zeta.
  pose proof (Z.mul_div_le (- a) b Hb).
  pose proof (Z.mul_succ_div_gt (- a) b Hb).
  assert ((- a) / b <= 0) by (apply Z.div_le_upper_bound; lia).
  nia.
Qed.

Lemma skip_limit_length {A : Type} (skip limit : Z) (l : list A) :
  0 <= limit -> Z.of_nat (List.length (skip_limit skip limit l)) <= limit.
Proof.
  intros H. unfold skip_limit. rewrite length_firstn. lia.
Qed.

Lemma In_skip_limit {A : Type} (skip limit : Z) (l : list A) a :
  In a (skip_limit skip limit l) -> In a l.
Proof.
  unfold skip_limit. intros H.
  rewrite <- (firstn_skipn (Z.to_nat skip) l). apply in_or_app. right.
  rewrite <- (firstn_skipn (Z.to_nat limit) (skipn (Z.to_nat skip) l)).
  apply in_or_app. left. exact H.
Qed.

(** ** GET /api/alerts *)

Lemma Alert_find_page_up query skip limit w :
  faults w CAlert = [] ->
  Alert_find_page query skip limit w
  = (Ok (skip_limit skip limit (rev (filter query (alerts w)))), w).
Proof.
  intros H. unfold Alert_find_page.
  rewrite (bind_ok _ _ _ _ _ (dbcall_up _ _ H)). reflexivity.
Qed.

Lemma Alert_countDocuments_up query w :
  faults w CAlert = [] ->
  Alert_countDocuments query w
  = (Ok (Z.of_nat (List.length (filter query (alerts w)))), w).
Proof.
  intros H. unfold Alert_countDocuments.
  rewrite (bind_ok _ _ _ _ _ (dbcall_up _ _ H)). reflexivity.
Qed.

Lemma alert_query_validators_ok q :
  alert_query_validators q = [] ->
  1 <= nullish (aq_page q) 1 /\ 1 <= nullish (aq_limit q) 20 <= 100.
Proof.
  unfold alert_query_validators. intros H.
  repeat (apply app_eq_nil in H as [?%chain_nil H]).
  destruct (aq_page q) as [p |], (aq_limit q) as [l |]; cbn in *;
    repeat match goal with
           | H : (_ && _) = true |- _ => apply andb_prop in H as [? ?]
           | H : (_ <=? _) = true |- _ => apply Z.leb_le in H
           end; lia.
Qed.

Lemma alerts_get_up q w :
  alert_query_validators q = [] ->
  faults w CAlert = [] -> faults w CUser = [] ->
  let page := nullish (aq_page q) 1 in
  let limit := nullish (aq_limit q) 20 in
  let total := Z.of_nat (List.length (filter (alert_filter q) (alerts w))) in
  alerts_get q w
  = (Ok (mkReply 200
           (PAlertPage
              (skip_limit ((page - 1) * limit) limit
                 (rev (filter (alert_filter q) (alerts w))))
              (Z.of_nat (List.length (filter unread (alerts w))))
              (mkPagination page (Math_ceil_div total limit) total limit))),
     w).
Proof.
  intros V A U. cbv zeta. unfold alerts_get. apply try_catch_ok.
  cbv zeta. rewrite V. cbn [isEmpty negb].
  rewrite (bind_ok _ _ _ _ _ (Alert_find_page_up _ _ _ w A)).
  rewrite (bind_ok _ _ _ _ _ (dbcall_up _ _ U)).
  rewrite (bind_ok _ _ _ _ _ (Alert_countDocuments_up _ w A)).
  rewrite (bind_ok _ _ _ _ _ (Alert_countDocuments_up _ w A)).
  reflexivity.
Qed.

(** X1.  While the store answers, GET /api/alerts with a valid query answers
    200 and leaves the world as it is.  The page holds at most [limit] alerts
    (and [limit] is at most 100), all of them stored, active and matching the
    query; [total] counts the matching alerts and [unreadCount] the active
    unread ones, whatever the query filters; [pages] is the least number of
    pages of [limit] alerts that holds [total]; the page is empty exactly
    when it lies beyond [pages], and full before the last one. *)
Theorem alerts_get_page q w :
  alert_query_validators q = [] ->
  faults w CAlert = [] -> faults w CUser = [] ->
  let page := nullish (aq_page q) 1 in
  let limit := nullish (aq_limit q) 20 in
  let total := Z.of_nat (List.length (filter (alert_filter q) (alerts w))) in
  let pages := Math_ceil_div total limit in
  exists items,
    alerts_get q w
    = (Ok (mkReply 200
             (PAlertPage items
                (Z.of_nat (List.length (filter unread (alerts w))))
                (mkPagination page pages total limit))), w)
    /\ Z.of_nat (List.length items) <= limit <= 100
    /\ (forall a, In a items ->
          In a (alerts w) /\ Alert.isActive a = true /\ alert_filter q a = true)
    /\ (pages - 1) * limit < total <= pages * limit
    /\ (page <= pages <-> items <> [])
    /\ (page < pages -> Z.of_nat (List.length items) = limit).
Proof.
  intros V A U page limit total pages.
  destruct (alert_query_validators_ok q V) as (Hp & Hl1 & Hl2).
  fold page limit in Hp, Hl1, Hl2.
  destruct (Math_ceil_div_bounds total limit) as [Hb Hpages];
    [unfold total; lia | lia |]. fold pages in Hb, Hpages.
  eexists. split; [apply (alerts_get_up q w V A U) |].
  fold page limit.
  assert (L : Z.of_nat
                (List.length
                   (skip_limit ((page - 1) * limit) limit
                      (rev (filter (alert_filter q) (alerts w)))))
              = Z.min limit (Z.max 0 (total - (page - 1) * limit))).
  { unfold skip_limit. rewrite length_firstn, length_skipn, length_rev.
    fold total. unfold total. nia. }
  splits.
  - rewrite L. lia.
  - exact Hl2.
  - intros a Ha.
    apply In_skip_limit, in_rev, filter_In in Ha as [Hin Hf].
    splits; trivial. unfold alert_filter in Hf.
    repeat (apply andb_prop in Hf as [Hf _]). exact Hf.
  - lia.
  - lia.
  - split.
    + intros H E. rewrite E in L. cbn in L. nia.
    + intros H. destruct (Z_le_gt_dec page pages) as [| G]; [trivial |].
      exfalso. apply H. apply length_zero_iff_nil. nia.
  - intros H. rewrite L. nia.
Qed.

(** X2.  Paging through GET /api/alerts, from page 1 to the last page that
    the answer announces, lists every matching alert exactly once, the
    newest first. *)
Theorem alerts_pages_cover q w :
  alert_query_validators q = [] ->
  faults w CAlert = [] -> faults w CUser = [] ->
  let limit := nullish (aq_limit q) 20 in
  let matching := filter (alert_filter q) (alerts w) in
  let pages := Math_ceil_div (Z.of_nat (List.length matching)) limit in
  List.concat
    (map (fun p => listed (fst (alerts_get (with_page p q) w)))
         (page_numbers pages))
  = rev matching
  /\ forall p, snd (alerts_get (with_page p q) w) = w.
Proof.
  intros V A U limit matching pages.
  destruct (alert_query_validators_ok q V) as (_ & Hl1 & Hl2).
  fold limit in Hl1, Hl2.
  destruct (Math_ceil_div_bounds (Z.of_nat (List.length matching)) limit)
    as [Hb Hpages]; [lia | lia |]. fold pages in Hb, Hpages.
  assert (Vp : forall p, 1 <= p -> alert_query_validators (with_page p q) = []).
  { intros p Hp. revert V. unfold alert_query_validators, with_page.
    cbn [aq_page aq_limit aq_type aq_severity aq_isRead optional].
    intros V. repeat (apply app_eq_nil in V as [? V]).
    apply Z.leb_le in Hp. rewrite Hp. cbn [chain app].
    repeat match goal with
           | H : chain _ _ _ = [] |- _ => rewrite H; clear H
           end.
    reflexivity. }
  split.
  - unfold page_numbers. rewrite map_map.
    rewrite (map_ext_in _
               (fun i => firstn (Z.to_nat limit)
                           (skipn ((i - 1) * Z.to_nat limit) (rev matching)))).
    + rewrite <- (map_map (fun i => (i - 1)%nat)
                    (fun i => firstn (Z.to_nat limit)
                                (skipn (i * Z.to_nat limit) (rev matching)))).
      replace (map (fun i => (i - 1)%nat) (seq 1 (Z.to_nat pages)))
        with (seq 0 (Z.to_nat pages)).
      * rewrite concat_pages. apply firstn_all2. rewrite length_rev. nia.
      * rewrite <- seq_shift, map_map. symmetry.
        erewrite map_ext; [apply map_id |]. intros i. cbn. lia.
    + intros i Hi. apply in_seq in Hi.
      rewrite (alerts_get_up (with_page (Z.of_nat i) q) w) by (auto; apply Vp; lia).
      cbn [fst listed with_page aq_page aq_limit nullish]. fold limit.
      unfold skip_limit. f_equal. f_equal. nia.
  - intros p. unfold alerts_get, try_catch, bind, ret.
    cbv zeta.
    destruct (negb (isEmpty (alert_query_validators (with_page p q))));
      [reflexivity |].
    unfold Alert_find_page, Alert_countDocuments, bind, gets, ret.
    rewrite !(dbcall_up _ _ A), (dbcall_up _ _ U), !(dbcall_up _ _ A).
    reflexivity.
Qed.

(** ** The flags of an alert *)

Lemma flag_step_refl a : flag_step a a.
Proof. unfold flag_step. auto. Qed.

Lemma flag_step_trans a b c : flag_step a b -> flag_step b c -> flag_step a c.
Proof.
  unfold flag_step. intros (A1 & A2 & A3) (B1 & B2 & B3).
  splits; [congruence | auto | auto].
Qed.

Lemma Forall2_refl {A : Type} (R : A -> A -> Prop) l :
  (forall x, R x x) -> Forall2 R l l.
Proof. intros H. induction l; constructor; auto. Qed.

Lemma Forall2_trans {A : Type} (R : A -> A -> Prop) l1 l2 l3 :
  (forall x y z, R x y -> R y z -> R x z) ->
  Forall2 R l1 l2 -> Forall2 R l2 l3 -> Forall2 R l1 l3.
Proof.
  intros T H. revert l3. induction H; intros l3 H3; inversion H3; subst;
    constructor; eauto.
Qed.

Lemma update_first_Forall2 {A : Type} (R : A -> A -> Prop) p f (l : list A) :
  (forall x, R x x) -> (forall x, R x (f x)) ->
  Forall2 R l (update_first p f l).
Proof.
  intros H1 H2. induction l as [| x l IH]; cbn; [constructor |].
  destruct (p x); constructor; auto. apply Forall2_refl, H1.
Qed.

Lemma map_if_Forall2 {A : Type} (R : A -> A -> Prop) (c : A -> bool) f
    (l : list A) :
  (forall x, R x x) -> (forall x, R x (f x)) ->
  Forall2 R l (map (fun a => if c a then f a else a) l).
Proof.
  intros H1 H2. induction l as [| x l IH]; cbn; constructor; auto.
  destruct (c x); auto.
Qed.

Lemma flag_step_read a : flag_step a (Alert_set_isRead true a).
Proof. unfold flag_step. cbn. auto. Qed.

Lemma flag_step_delete a : flag_step a (Alert_set_isActive false a).
Proof. unfold flag_step. cbn. splits; [reflexivity | auto | discriminate]. Qed.

Ltac to_origin :=
  repeat match goal with
         | H : medicines ?a = _ |- context [medicines ?a] => rewrite H
         | H : issuances ?a = _ |- context [issuances ?a] => rewrite H
         | H : activitylogs ?a = _ |- context [activitylogs ?a] => rewrite H
         | H : alerts ?a = _ |- context [alerts ?a] => rewrite H
         | H : users ?a = _ |- context [users ?a] => rewrite H
         | H : journal ?a = _ |- context [journal ?a] => rewrite H
         end.

(** What a route of /api/alerts may change. *)
Lemma alert_handle_frame r w :
  wp (alert_handle r)
     (fun _ w' =>
        Forall2 flag_step (alerts w) (alerts w')
        /\ medicines w' = medicines w /\ issuances w' = issuances w
        /\ users w' = users w /\ activitylogs w' = activitylogs w
        /\ journal w' = journal w)
     w.
Proof.
  destruct r; cbn [alert_handle];
    unfold alerts_get, alerts_patch_read, alerts_mark_all_read, alerts_delete,
      alerts_get_id, Alert_find_page, Alert_countDocuments,
      Alert_findByIdAndUpdate, Alert_updateMany, Alert_findById;
    repeat wp_step; wsimpl; to_origin; splits; trivial;
    first [ apply Forall2_refl, flag_step_refl
          | apply update_first_Forall2;
            auto using flag_step_refl, flag_step_read, flag_step_delete
          | apply map_if_Forall2;
            auto using flag_step_refl, flag_step_read, flag_step_delete ].
Qed.

(** X3.  Whatever requests /api/alerts serves and whatever the store answers,
    no alert is removed or added and none changes but in its two flags, which
    only move from unread to read and from active to deleted; the other
    collections and the journal of saves stay as they are. *)
Theorem alert_routes_only_move_flags rs w :
  let w' := alert_serve rs w in
  Forall2 flag_step (alerts w) (alerts w')
  /\ medicines w' = medicines w /\ issuances w' = issuances w
  /\ users w' = users w /\ activitylogs w' = activitylogs w
  /\ journal w' = journal w.
Proof.
  cbv zeta. revert w. induction rs as [| r rs IH]; intros w; cbn [alert_serve fold_left].
  - splits; trivial. apply Forall2_refl, flag_step_refl.
  - pose proof (alert_handle_frame r w) as (F & A1 & A2 & A3 & A4 & A5).
    destruct (IH (snd (alert_handle r w))) as (F' & B1 & B2 & B3 & B4 & B5).
    unfold alert_serve in *. splits; try congruence.
    eapply Forall2_trans; [apply flag_step_trans | exact F | exact F'].
Qed.

Lemma update_first_find {A : Type} (p : A -> bool) f (l : list A) a :
  find p l = Some a -> (forall x, p (f x) = p x) ->
  find p (update_first p f l) = Some (f a).
Proof.
  intros H Hp. induction l as [| x l IH]; cbn in *; [discriminate |].
  destruct (p x) eqn:E; cbn.
  - injection H as <-. rewrite Hp, E. reflexivity.
  - rewrite E. auto.
Qed.

Lemma update_first_none {A : Type} (p : A -> bool) f (l : list A) :
  find p l = None -> update_first p f l = l.
Proof.
  induction l as [| x l IH]; cbn; [trivial |].
  destruct (p x); [discriminate |]. intros H. rewrite IH; trivial.
Qed.

Lemma update_first_length {A : Type} (p : A -> bool) f (l : list A) :
  List.length (update_first p f l) = List.length l.
Proof.
  induction l as [| x l IH]; cbn; [trivial |].
  destruct (p x); cbn; congruence.
Qed.

Lemma update_first_idem {A : Type} (p : A -> bool) f (l : list A) :
  (forall x, p (f x) = p x) -> (forall x, f (f x) = f x) ->
  update_first p f (update_first p f l) = update_first p f l.
Proof.
  intros Hp Hf. induction l as [| x l IH]; cbn; [trivial |].
  destruct (p x) eqn:E; cbn.
  - rewrite Hp, E, Hf. reflexivity.
  - rewrite E, IH. reflexivity.
Qed.

Lemma update_first_others {A : Type} (p : A -> bool) f (l : list A) b :
  p b = false -> (forall x, p (f x) = p x) ->
  In b (update_first p f l) <-> In b l.
Proof.
  intros Hb Hp. induction l as [| x l IH]; cbn; [tauto |].
  destruct (p x) eqn:E; cbn.
  - split; intros [H | H]; auto; subst; [rewrite Hp in Hb |]; congruence.
  - rewrite IH. tauto.
Qed.

(** The count of the documents that satisfy [c] after the first one that
    satisfies [p] was updated by [f], when [f] takes a document out of [c]. *)
Lemma update_first_count {A : Type} (p c : A -> bool) f (l : list A) a :
  find p l = Some a -> (forall x, c (f x) = false) ->
  List.length (filter c (update_first p f l))
  = (List.length (filter c l) - (if c a then 1 else 0))%nat.
Proof.
  intros H Hc. induction l as [| x l IH]; cbn in *; [discriminate |].
  destruct (p x) eqn:E.
  - injection H as <-. cbn. rewrite Hc. destruct (c x); cbn; lia.
  - cbn. specialize (IH H). destruct (c x); cbn; [| exact IH].
    rewrite IH. destruct (c a) eqn:Ea; [| lia].
    assert (In a (filter c l)).
    { apply filter_In. split; [| exact Ea]. apply (find_some _ _ H). }
    destruct (filter c l); [contradiction | cbn; lia].
Qed.

Lemma Alert_findByIdAndUpdate_none id f w :
  faults w CAlert = [] ->
  find (alert_has_id id) (alerts w) = None ->
  Alert_findByIdAndUpdate id f w = (Ok None, w).
Proof.
  intros H N. unfold Alert_findByIdAndUpdate.
  rewrite (bind_ok _ _ _ _ _ (dbcall_up _ _ H)).
  unfold bind, gets. rewrite N. reflexivity.
Qed.

Lemma Alert_findByIdAndUpdate_some id f w a :
  faults w CAlert = [] ->
  find (alert_has_id id) (alerts w) = Some a ->
  Alert_findByIdAndUpdate id f w
  = (Ok (Some (f a)),
     set_alerts (update_first (alert_has_id id) f (alerts w)) w).
Proof.
  intros H N. unfold Alert_findByIdAndUpdate.
  rewrite (bind_ok _ _ _ _ _ (dbcall_up _ _ H)).
  unfold bind, gets. rewrite N. reflexivity.
Qed.

Lemma Alert_findById_up id w :
  faults w CAlert = [] ->
  Alert_findById id w = (Ok (find (alert_has_id id) (alerts w)), w).
Proof.
  intros H. unfold Alert_findById.
  rewrite (bind_ok _ _ _ _ _ (dbcall_up _ _ H)). reflexivity.
Qed.

Lemma listed_active q w a :
  faults w CAlert = [] -> faults w CUser = [] ->
  In a (listed (fst (alerts_get q w))) ->
  In a (alerts w) /\ Alert.isActive a = true.
Proof.
  intros A U. destruct (alert_query_validators q) eqn:V.
  - rewrite (alerts_get_up q w V A U). cbn [fst listed]. intros H.
    apply In_skip_limit, in_rev, filter_In in H as [Hin Hf]. split; trivial.
    unfold alert_filter in Hf. repeat (apply andb_prop in Hf as [Hf _]).
    exact Hf.
  - unfold alerts_get, try_catch. cbv zeta. rewrite V. cbn. contradiction.
Qed.

(** X4.  While the store answers: an alert that is not there answers 404 on
    DELETE, on PATCH read and on GET, and nothing changes.  DELETE on a stored
    alert answers 200 and only clears its [isActive]: the document stays in
    the collection, GET /:id answers 404 for it from then on, no listing
    shows it, and a second DELETE answers 200 again and changes nothing. *)
Theorem alert_soft_delete id w :
  faults w CAlert = [] -> faults w CUser = [] ->
  (find (alert_has_id id) (alerts w) = None ->
   alerts_delete id w = (Ok (mkReply 404 (PMessage "Alert not found")), w)
   /\ alerts_patch_read id w = (Ok (mkReply 404 (PMessage "Alert not found")), w)
   /\ alerts_get_id id w = (Ok (mkReply 404 (PMessage "Alert not found")), w))
  /\ (forall a, find (alert_has_id id) (alerts w) = Some a ->
      exists w',
        alerts_delete id w
        = (Ok (mkReply 200 (PMessage "Alert deleted successfully")), w')
        /\ find (alert_has_id id) (alerts w')
           = Some (Alert_set_isActive false a)
        /\ List.length (alerts w') = List.length (alerts w)
        /\ (forall b, alert_has_id id b = false ->
              In b (alerts w') <-> In b (alerts w))
        /\ alerts_get_id id w'
           = (Ok (mkReply 404 (PMessage "Alert not found")), w')
        /\ alerts_delete id w'
           = (Ok (mkReply 200 (PMessage "Alert deleted successfully")), w')
        /\ (forall q,
              ~ In (Alert_set_isActive false a)
                   (listed (fst (alerts_get q w'))))).
Proof.
  intros A U. split.
  - intros N. unfold alerts_delete, alerts_patch_read, alerts_get_id, try_catch.
    rewrite !(bind_ok _ _ _ _ _ (Alert_findByIdAndUpdate_none _ _ w A N)).
    rewrite (bind_ok _ _ _ _ _ (Alert_findById_up _ w A)).
    rewrite (bind_ok _ _ _ _ _ (dbcall_up _ _ U)).
    rewrite N. auto.
  - intros a Hf.
    set (w' := set_alerts
                 (update_first (alert_has_id id) (Alert_set_isActive false)
                    (alerts w)) w).
    assert (A' : faults w' CAlert = []) by exact A.
    assert (U' : faults w' CUser = []) by exact U.
    assert (Hf' : find (alert_has_id id) (alerts w')
                  = Some (Alert_set_isActive false a)).
    { unfold w'. wsimpl. apply update_first_find; [exact Hf | reflexivity]. }
    exists w'. splits.
    + unfold alerts_delete, try_catch.
      rewrite (bind_ok _ _ _ _ _ (Alert_findByIdAndUpdate_some _ _ w _ A Hf)).
      reflexivity.
    + exact Hf'.
    + apply update_first_length.
    + intros b Hb. apply update_first_others; [exact Hb | reflexivity].
    + unfold alerts_get_id, try_catch.
      rewrite (bind_ok _ _ _ _ _ (Alert_findById_up _ w' A')).
      rewrite (bind_ok _ _ _ _ _ (dbcall_up _ _ U')), Hf'. reflexivity.
    + unfold alerts_delete, try_catch.
      rewrite (bind_ok _ _ _ _ _ (Alert_findByIdAndUpdate_some _ _ w' _ A' Hf')).
      unfold w'. wsimpl.
      rewrite update_first_idem; reflexivity.
    + intros q H. apply (listed_active q w' _ A' U') in H as [_ H].
      discriminate.
Qed.

(** X5.  While the store answers, PATCH /:id/read on a stored alert answers
    200 with the alert marked read, marks that alert and no other, and lowers
    the count of unread alerts by one when the alert was active and unread
    and not at all otherwise; it asks for no [isActive], so that a deleted
    alert is marked as well.  A second call answers the same and changes
    nothing. *)
Theorem alert_mark_read id a w :
  faults w CAlert = [] ->
  find (alert_has_id id) (alerts w) = Some a ->
  exists w',
    alerts_patch_read id w
    = (Ok (mkReply 200 (PAlert (Alert_set_isRead true a))), w')
    /\ find (alert_has_id id) (alerts w') = Some (Alert_set_isRead true a)
    /\ (forall b, alert_has_id id b = false ->
          In b (alerts w') <-> In b (alerts w))
    /\ List.length (filter unread (alerts w'))
       = (List.length (filter unread (alerts w))
          - (if unread a then 1 else 0))%nat
    /\ alerts_patch_read id w'
       = (Ok (mkReply 200 (PAlert (Alert_set_isRead true a))), w').
Proof.
  intros A Hf.
  set (w' := set_alerts
               (update_first (alert_has_id id) (Alert_set_isRead true)
                  (alerts w)) w).
  assert (A' : faults w' CAlert = []) by exact A.
  assert (Hf' : find (alert_has_id id) (alerts w')
                = Some (Alert_set_isRead true a)).
  { unfold w'. wsimpl. apply update_first_find; [exact Hf | reflexivity]. }
  exists w'. splits.
  - unfold alerts_patch_read, try_catch.
    rewrite (bind_ok _ _ _ _ _ (Alert_findByIdAndUpdate_some _ _ w _ A Hf)).
    reflexivity.
  - exact Hf'.
  - intros b Hb. apply update_first_others; [exact Hb | reflexivity].
  - unfold w'. wsimpl. apply update_first_count; [exact Hf |].
    intros x. unfold unread. cbn. apply andb_false_r.
  - unfold alerts_patch_read, try_catch.
    rewrite (bind_ok _ _ _ _ _ (Alert_findByIdAndUpdate_some _ _ w' _ A' Hf')).
    unfold w'. wsimpl.
    rewrite update_first_idem; reflexivity.
Qed.

Lemma Alert_updateMany_up c f w :
  faults w CAlert = [] ->
  Alert_updateMany c f w
  = (Ok tt, set_alerts (map (fun a => if c a then f a else a) (alerts w)) w).
Proof.
  intros H. unfold Alert_updateMany.
  rewrite (bind_ok _ _ _ _ _ (dbcall_up _ _ H)). reflexivity.
Qed.

Lemma filter_map_if_nil {A : Type} (c : A -> bool) f (l : list A) :
  (forall x, c (f x) = false) ->
  filter c (map (fun a => if c a then f a else a) l) = [].
Proof.
  intros H. induction l as [| x l IH]; cbn; [trivial |].
  destruct (c x) eqn:E; [rewrite H | rewrite E]; exact IH.
Qed.

(** X6.  While the store answers, PATCH /mark-all-read answers 200 and leaves
    no active alert unread: every listing that follows reports
    [unreadCount = 0].  The alerts that were read or deleted before are
    untouched, and no alert is added or removed. *)
Theorem mark_all_read_clears_unread w :
  faults w CAlert = [] ->
  exists w',
    alerts_mark_all_read w
    = (Ok (mkReply 200 (PMessage "All alerts marked as read")), w')
    /\ filter unread (alerts w') = []
    /\ alerts w'
       = map (fun a => if unread a then Alert_set_isRead true a else a) (alerts w)
    /\ (forall q, alert_query_validators q = [] -> faults w CUser = [] ->
        exists items pagination,
          alerts_get q w'
          = (Ok (mkReply 200 (PAlertPage items 0 pagination)), w')).
Proof.
  intros A.
  set (w' := set_alerts
               (map (fun a => if unread a then Alert_set_isRead true a else a)
                  (alerts w)) w).
  assert (E : filter unread (alerts w') = []).
  { unfold w'. wsimpl. apply filter_map_if_nil. intros x. unfold unread. cbn.
    apply andb_false_r. }
  exists w'. splits.
  - unfold alerts_mark_all_read, try_catch.
    rewrite (bind_ok _ _ _ _ _ (Alert_updateMany_up _ _ w A)). reflexivity.
  - exact E.
  - reflexivity.
  - intros q V U. eexists _, _.
    rewrite (alerts_get_up q w' V A U), E. reflexivity.
Qed.

(** ** The activity log of a mutation *)

Lemma length_append (s1 s2 : string) :
  String.length (s1 ++ s2) = (String.length s1 + String.length s2)%nat.
Proof. induction s1 as [| c s1 IH]; cbn; congruence. Qed.

Lemma required_append (s1 s2 : string) :
  required_str s1 = true -> required_str (s1 ++ s2) = true.
Proof. destruct s1; [discriminate | reflexivity]. Qed.

(** [logActivity] returns normally.  It calls [save()] on the one entry that
    it builds, and the entry is stored iff the schema and the store take
    it. *)
Lemma logActivity_run actionType entityType entityId performedBy description
    oldData newData req w :
  let entry :=
    ActivityLog.mk (nextId w) actionType entityType entityId performedBy
      description oldData newData
      (match req with
       | Some r => if truthy_str (ip r) then ip r else remoteAddress r
       | None => None
       end)
      (match req with
       | Some r => userAgent r
       | None => None
       end) in
  exists ok w',
    logActivity actionType entityType entityId performedBy description
                oldData newData req w = (Ok tt, w')
    /\ activitylogs w'
       = (if ok : bool then activitylogs w ++ [entry] else activitylogs w)%list
    /\ journal w' = (journal w ++ [(WActivityLog entry, ok)])%list
    /\ medicines w' = medicines w /\ issuances w' = issuances w
    /\ users w' = users w /\ alerts w' = alerts w
    /\ nextId w' = N.succ (nextId w)
    /\ clock w' = clock w /\ ticks w' = ticks w
    /\ (forall c, faults w c = [] -> faults w' c = [])
    /\ (ok = true -> ActivityLog.validate entry = true)
    /\ (ActivityLog.validate entry = true -> faults w CActivityLog = [] ->
        ok = true).
Proof.
  intros entry. unfold logActivity, try_catch.
  rewrite (bind_ok _ _ w (nextId w) (set_nextId (N.succ (nextId w)) w) eq_refl).
  cbv beta zeta. fold entry.
  unfold ActivityLog_save, save_with.
  destruct (ActivityLog.validate entry) eqn:Ev.
  - unfold try_catch, bind, dbcall, log_write, throw, gets, modify, ret. wsimpl.
    destruct (faults w CActivityLog) as [| [|] rest] eqn:Ef;
      (eexists _, _; split; [reflexivity |]); wsimpl;
      splits; trivial; try reflexivity; try discriminate.
    all: intros c H; destruct c; cbn; trivial; congruence.
  - unfold bind, log_write, throw, ret.
    exists false. eexists; split; [reflexivity |]; wsimpl.
    splits; trivial; discriminate.
Qed.

Lemma delete_description_valid m :
  Medicine.validate m = true ->
  required_str ("Deleted medicine: " ++ Medicine.name m) = true
  /\ maxlength 500 ("Deleted medicine: " ++ Medicine.name m) = true.
Proof.
  intros V. split; [reflexivity |]. unfold Medicine.validate in V.
  do 8 (apply andb_prop in V as [V _]). apply andb_prop in V as [_ V].
  unfold maxlength in *. apply Nat.leb_le in V. apply Nat.leb_le.
  rewrite length_append. cbn [String.length]. lia.
Qed.

Lemma validate_flags m b u :
  Medicine.validate (Medicine.set_updatedBy u (Medicine.set_isActive b m))
  = Medicine.validate m.
Proof. reflexivity. Qed.

(** ** DELETE /api/medicines/:id *)

Lemma medicines_delete_run req id w m :
  faults w CMedicine = [] ->
  Medicine.validate m = true -> barcode_taken m (medicines w) = false ->
  find (has_id id) (medicines w) = Some m -> Medicine.isActive m = true ->
  let m' := Medicine.set_updatedBy (reqUser req) (Medicine.set_isActive false m) in
  let entry :=
    ActivityLog.mk (nextId w) "Delete" "Medicine" (Medicine._id m) (reqUser req)
      ("Deleted medicine: " ++ Medicine.name m)
      (Some (SnapMedicine m)) (Some (SnapIsActive false))
      (if truthy_str (ip req) then ip req else remoteAddress req)
      (userAgent req) in
  exists ok w',
    medicines_delete req id w
    = (Ok (mkResponse 200 (JMessage "Medicine deleted successfully")), w')
    /\ medicines w' = replace_medicine m' (medicines w)
    /\ issuances w' = issuances w /\ users w' = users w
    /\ alerts w' = alerts w
    /\ activitylogs w'
       = (if ok : bool then activitylogs w ++ [entry] else activitylogs w)%list
    /\ journal w'
       = (journal w ++ [(WMedicine m', true); (WActivityLog entry, ok)])%list
    /\ (forall c, faults w c = [] -> faults w' c = [])
    /\ (faults w CActivityLog = [] -> ok = true).
Proof.
  intros U V B Hf Ha m' entry.
  unfold medicines_delete, try_catch.
  rewrite (bind_ok _ _ _ _ _ (Medicine_findById_up id w U)), Hf, Ha.
  cbn [negb]. fold m'.
  rewrite (bind_ok _ _ _ _ _ (Medicine_save_up false m' w V U B)).
  match goal with
  | |- context [bind (logActivity ?a ?b ?c ?d ?e ?f ?g ?h) _ ?w1] =>
      destruct (logActivity_run a b c d e f g h w1)
        as (ok & w' & E & L1 & L2 & L3 & L4 & L5 & L6 & _ & _ & _ & L7 & _ & L8)
  end.
  wsimpl. rewrite (bind_ok _ _ _ _ _ E). exists ok, w'.
  splits; trivial.
  - rewrite L2, <- app_assoc. reflexivity.
  - intros T. apply L8; [| exact T].
    destruct (delete_description_valid m V) as [D1 D2].
    unfold ActivityLog.validate. cbn. cbn in D1, D2. rewrite D2. reflexivity.
Qed.

(** X7.  While the store answers, DELETE on an active medicine answers 200
    and only clears [isActive]: the record stays in the collection with its
    stock.  From then on GET, PUT and DELETE on its id answer 404, and so does
    an issue from it; none of them changes the world. *)
Theorem medicine_soft_delete req id w m :
  faults w CMedicine = [] -> faults w CUser = [] ->
  consistent (medicines w) = true ->
  find (has_id id) (medicines w) = Some m -> Medicine.isActive m = true ->
  let m' := Medicine.set_updatedBy (reqUser req) (Medicine.set_isActive false m) in
  let gone := Ok (mkResponse 404 (JMessage "Medicine not found")) in
  exists w',
    medicines_delete req id w
    = (Ok (mkResponse 200 (JMessage "Medicine deleted successfully")), w')
    /\ find (has_id id) (medicines w') = Some m'
    /\ List.length (medicines w') = List.length (medicines w)
    /\ Medicine.quantity m' = Medicine.quantity m
    /\ Medicine.initialStock m' = Medicine.initialStock m
    /\ medicines_get_id id w' = (gone, w')
    /\ (forall req', medicines_delete req' id w' = (gone, w'))
    /\ (forall req' body, patch_validators body = [] ->
          medicines_put req' id body w' = (gone, w'))
    /\ (forall req' body, issuance_validators body = [] ->
          ib_medicineId body = id -> issuances_post req' body w' = (gone, w')).
Proof.
  intros U Uu C Hf Ha m' gone.
  destruct (consistent_find _ _ _ C Hf) as [V B].
  destruct (medicines_delete_run req id w m U V B Hf Ha)
    as (ok & w' & E & M & _ & _ & _ & _ & _ & F & _).
  fold m' in M. exists w'.
  assert (Hf' : find (has_id id) (medicines w') = Some m').
  { rewrite M. apply (find_replace_same _ m); [exact Hf |].
    exact (find_has_id _ _ _ Hf). }
  pose proof (F _ U) as U'. pose proof (F _ Uu) as Uu'.
  splits; trivial.
  - rewrite M. unfold replace_medicine. apply length_map.
  - unfold medicines_get_id, try_catch.
    rewrite (bind_ok _ _ _ _ _ (Medicine_findById_up id w' U')).
    rewrite !(bind_ok _ _ _ _ _ (dbcall_up _ _ Uu')), Hf'. reflexivity.
  - intros req'. unfold medicines_delete, try_catch.
    rewrite (bind_ok _ _ _ _ _ (Medicine_findById_up id w' U')), Hf'.
    reflexivity.
  - intros req' body Vb. unfold medicines_put, try_catch. cbv zeta.
    rewrite Vb. cbn [isEmpty negb].
    rewrite (bind_ok _ _ _ _ _ (Medicine_findById_up id w' U')), Hf'.
    reflexivity.
  - intros req' body Vb <-. unfold issuances_post, try_catch. cbv zeta.
    rewrite Vb. cbn [isEmpty negb].
    rewrite (bind_ok _ _ _ _ _ (Medicine_findById_up _ w' U')), Hf'.
    reflexivity.
Qed.

Lemma ActivityLog_find_latest_up n w :
  faults w CActivityLog = [] ->
  ActivityLog_find_latest n w = (Ok (firstn n (rev (activitylogs w))), w).
Proof.
  intros H. unfold ActivityLog_find_latest.
  rewrite (bind_ok _ _ _ _ _ (dbcall_up _ _ H)). reflexivity.
Qed.

Lemma firstn_rev_snoc {A : Type} (n : nat) (l : list A) x :
  firstn (S n) (rev (l ++ [x])) = x :: firstn n (rev l).
Proof. rewrite rev_app_distr. reflexivity. Qed.

(** X8.  While the store answers, the soft delete of a medicine appends one
    entry to the activity log: a [Delete] on the medicine, by the caller,
    with the record as it was; and GET /api/dashboard/recent-activities then
    lists this entry first, followed by the nine entries that were the most
    recent before. *)
Theorem deletion_is_logged req id w m :
  faults w CMedicine = [] -> faults w CActivityLog = [] ->
  faults w CUser = [] ->
  consistent (medicines w) = true ->
  find (has_id id) (medicines w) = Some m -> Medicine.isActive m = true ->
  exists w' entry,
    medicines_delete req id w
    = (Ok (mkResponse 200 (JMessage "Medicine deleted successfully")), w')
    /\ activitylogs w' = (activitylogs w ++ [entry])%list
    /\ ActivityLog.actionType entry = "Delete"
    /\ ActivityLog.entityType entry = "Medicine"
    /\ ActivityLog.entityId entry = id
    /\ ActivityLog.performedBy entry = reqUser req
    /\ ActivityLog.description entry = "Deleted medicine: " ++ Medicine.name m
    /\ ActivityLog.oldData entry = Some (SnapMedicine m)
    /\ ActivityLog.newData entry = Some (SnapIsActive false)
    /\ dashboard_recent_activities w'
       = (Ok (mkReply 200
                (PActivities (entry :: firstn 9 (rev (activitylogs w))))), w').
Proof.
  intros U Ul Uu C Hf Ha.
  destruct (consistent_find _ _ _ C Hf) as [V B].
  destruct (medicines_delete_run req id w m U V B Hf Ha)
    as (ok & w' & E & _ & _ & _ & _ & L & _ & F & K).
  rewrite (K Ul) in L. exists w'. eexists.
  split; [exact E |]. split; [exact L |]. splits; try reflexivity.
  - exact (find_has_id _ _ _ Hf).
  - unfold dashboard_recent_activities, try_catch.
    rewrite (bind_ok _ _ _ _ _ (ActivityLog_find_latest_up _ _ (F _ Ul))).
    rewrite (bind_ok _ _ _ _ _ (dbcall_up _ _ (F _ Uu))).
    rewrite L. rewrite (firstn_rev_snoc 9). reflexivity.
Qed.

(** ** POST /api/medicines and PUT /api/medicines/:id: the record stored *)

Lemma find_app_none {A : Type} (p : A -> bool) l1 l2 :
  find p l1 = None -> find p (l1 ++ l2) = find p l2.
Proof.
  induction l1 as [| x l1 IH]; [reflexivity |].
  cbn. destruct (p x); [discriminate | exact IH].
Qed.

Lemma medicines_post_record req body w :
  wp (medicines_post req body)
     (fun r w' =>
        forall m', r = Ok (mkResponse 201 (JMedicine m')) ->
          m' = Medicine.mk (Medicine._id m') (mb_name body) (mb_barcode body)
                 (mb_category body) (mb_quantity body) (mb_quantity body)
                 (mb_minQuantity body) (mb_price body) (mb_expiryDate body)
                 (mb_supplier body) (mb_batchNumber body) (mb_description body)
                 (nullish (mb_isActive body) true) (reqUser req)
                 (mb_updatedBy body)
          /\ medicines w' = (medicines w ++ [m'])%list)
     w.
Proof.
  unfold medicines_post, Medicine_findOne_barcode, Medicine_save, save_with,
    commit_medicine.
  repeat wp_alert_step.
  all: intros m' Hr; try discriminate Hr.
  all: try (injection Hr as ->; cbn in Hs; destruct Hs; discriminate).
  all: injection Hr as <-.
  all: split; [reflexivity |].
  all: destruct R as (_ & _ & _ & _ & _ & _ & _ & _ & _ & M & _);
    to_start; reflexivity.
Qed.

(** X9.  A medicine that POST /api/medicines answers with 201 carries the
    fields of the body, starts with [initialStock = quantity] (so with nothing
    gone out) and names the caller as its creator.  It is active unless the
    body says otherwise: an [isActive] of the body is stored as it is, and so
    is an [updatedBy].  The record is appended to the collection, and, its id
    being fresh, GET /:id returns it as long as the store answers when it is
    active, and answers 404 when the body made it inactive. *)
Theorem create_then_get req body w m' w' :
  medicines_post req body w = (Ok (mkResponse 201 (JMedicine m')), w') ->
  (Medicine.name m' = mb_name body
   /\ Medicine.barcode m' = mb_barcode body
   /\ Medicine.category m' = mb_category body
   /\ Medicine.quantity m' = mb_quantity body
   /\ Medicine.initialStock m' = mb_quantity body
   /\ Medicine.minQuantity m' = mb_minQuantity body
   /\ Medicine.price m' = mb_price body
   /\ Medicine.expiryDate m' = mb_expiryDate body
   /\ Medicine.isActive m' = nullish (mb_isActive body) true
   /\ Medicine.createdBy m' = reqUser req
   /\ Medicine.updatedBy m' = mb_updatedBy body
   /\ Medicine.stockOut m' = 0)
  /\ medicines w' = (medicines w ++ [m'])%list
  /\ (find (has_id (Medicine._id m')) (medicines w) = None ->
      faults w' CMedicine = [] -> faults w' CUser = [] ->
      medicines_get_id (Medicine._id m') w'
      = (Ok (if Medicine.isActive m' then mkResponse 200 (JMedicine m')
             else mkResponse 404 (JMessage "Medicine not found")), w')).
Proof.
  intros E. pose proof (medicines_post_record req body w) as W.
  unfold wp in W. rewrite E in W. cbn [fst snd] in W.
  destruct (W m' eq_refl) as [Em M]. split; [| split; [exact M |]].
  - rewrite Em. cbn. splits; trivial. unfold Medicine.stockOut. cbn.
    destruct (mb_quantity body =? 0); lia.
  - intros N U Uu. unfold medicines_get_id, try_catch.
    rewrite (bind_ok _ _ _ _ _ (Medicine_findById_up _ w' U)).
    rewrite !(bind_ok _ _ _ _ _ (dbcall_up _ _ Uu)).
    rewrite M, (find_app_none _ _ _ N). cbn [find].
    unfold has_id at 1. rewrite N.eqb_refl.
    destruct (Medicine.isActive m'); reflexivity.
Qed.

Lemma medicines_put_record req id body w :
  wp (medicines_put req id body)
     (fun r w' =>
        forall m', r = Ok (mkResponse 200 (JMedicine m')) ->
          exists m,
            find (has_id id) (medicines w) = Some m
            /\ Medicine.isActive m = true
            /\ m' = Medicine.set_updatedBy (reqUser req)
                      (assign_patch body
                         (if 0 <? nullish (mp_stockToAdd body) 0
                          then
                            Medicine.set_initialStock
                              (Medicine.initialStock m
                               + nullish (mp_stockToAdd body) 0)
                              (Medicine.set_quantity
                                 (Medicine.quantity m
                                  + nullish (mp_stockToAdd body) 0) m)
                          else m))
            /\ medicines w' = replace_medicine m' (medicines w))
     w.
Proof.
  unfold medicines_put, Medicine_findById, Medicine_findOne_barcode_ne,
    Medicine_save, save_with, commit_medicine.
  repeat wp_alert_step.
  all: intros m' Hr; try discriminate Hr.
  all: try (injection Hr as ->; cbn in Hs; destruct Hs; discriminate).
  all: injection Hr as <-.
  all: match goal with
       | H : find (has_id _) _ = Some ?m |- _ => exists m
       end.
  all: split; [congruence |].
  all: split;
    [ match goal with
      | H : negb (Medicine.isActive ?m) = false |- _ =>
          destruct (Medicine.isActive m); [reflexivity | discriminate]
      end |].
  all: split; [reflexivity |].
  all: destruct R as (_ & _ & _ & _ & _ & _ & _ & _ & _ & M & _);
    to_start; reflexivity.
Qed.

(** X10.  The record that PUT /api/medicines/:id answers with 200 is the
    active record it found, with the eight assignable fields taken from the
    body where the body has them, [stockToAdd], when positive, added to
    [quantity] and to [initialStock], and the caller as [updatedBy].  A
    [quantity] or a [minQuantity] in the body is validated and then ignored:
    the threshold of a medicine cannot be changed by this route, nor can its
    id, its creator or its [isActive]. *)
Theorem update_applies_patch req id body w m' w' :
  medicines_put req id body w = (Ok (mkResponse 200 (JMedicine m')), w') ->
  exists m,
    find (has_id id) (medicines w) = Some m
    /\ Medicine.isActive m = true
    /\ find (has_id id) (medicines w') = Some m'
    /\ (Medicine._id m' = id
        /\ Medicine.minQuantity m' = Medicine.minQuantity m
        /\ Medicine.isActive m' = true
        /\ Medicine.createdBy m' = Medicine.createdBy m
        /\ Medicine.updatedBy m' = Some (reqUser req))
    /\ (Medicine.name m' = nullish (mp_name body) (Medicine.name m)
        /\ Medicine.category m' = nullish (mp_category body) (Medicine.category m)
        /\ Medicine.price m' = nullish (mp_price body) (Medicine.price m)
        /\ Medicine.expiryDate m'
           = nullish (mp_expiryDate body) (Medicine.expiryDate m))
    /\ (let d := nullish (mp_stockToAdd body) 0 in
        Medicine.quantity m' = Medicine.quantity m + Z.max 0 d
        /\ Medicine.initialStock m' = Medicine.initialStock m + Z.max 0 d)
    /\ Medicine.initialStock m' - Medicine.quantity m'
       = Medicine.initialStock m - Medicine.quantity m.
Proof.
  intros E. pose proof (medicines_put_record req id body w) as W.
  unfold wp in W. rewrite E in W. cbn [fst snd] in W.
  destruct (W m' eq_refl) as (m & Hf & Ha & Em & M). exists m.
  pose proof (find_has_id _ _ _ Hf) as Hid.
  assert (Hid' : Medicine._id m' = id).
  { rewrite Em. destruct (0 <? nullish (mp_stockToAdd body) 0); exact Hid. }
  split; [exact Hf |]. split; [exact Ha |]. split.
  { rewrite M. apply (find_replace_same _ m); assumption. }
  rewrite Em.
  destruct (0 <? nullish (mp_stockToAdd body) 0) eqn:D;
    [apply Z.ltb_lt in D | apply Z.ltb_ge in D]; cbn; splits; trivial; lia.
Qed.

(** ** The listings and the stock check *)

Lemma count_low t1 t2 t3 m :
  count_kind ("stock_low", "warning") (stock_alerts_at t1 t2 t3 m)
  = if Medicine.quantity m <=? Medicine.minQuantity m then 1%nat else 0%nat.
Proof.
  unfold stock_alerts_at, count_kind.
  destruct (Medicine.quantity m <=? Medicine.minQuantity m);
    destruct ((Medicine.expiryDate m <=? addDays 30 t1)
              && (t2 <? Medicine.expiryDate m));
    destruct (Medicine.expiryDate m <=? t3); reflexivity.
Qed.

Lemma count_expiring t1 t2 t3 m :
  count_kind ("medicine_expiring", "warning") (stock_alerts_at t1 t2 t3 m)
  = if (Medicine.expiryDate m <=? addDays 30 t1) && (t2 <? Medicine.expiryDate m)
    then 1%nat else 0%nat.
Proof.
  unfold stock_alerts_at, count_kind.
  destruct (Medicine.quantity m <=? Medicine.minQuantity m);
    destruct ((Medicine.expiryDate m <=? addDays 30 t1)
              && (t2 <? Medicine.expiryDate m));
    destruct (Medicine.expiryDate m <=? t3); reflexivity.
Qed.

(** X11.  While the store answers, GET /api/medicines/alerts/low-stock lists,
    in store order, exactly the active medicines with
    [quantity <= minQuantity]: the ones for which the virtual [isLowStock]
    holds, and the ones for which the stock check says [stock_low]. *)
Theorem low_stock_listing_agrees w :
  faults w CMedicine = [] -> faults w CUser = [] ->
  exists l,
    medicines_alerts_low_stock w = (Ok (mkResponse 200 (JMedicines l)), w)
    /\ (forall m, In m l -> In m (medicines w) /\ Medicine.isActive m = true)
    /\ (forall m, In m (medicines w) -> Medicine.isActive m = true ->
          (In m l <-> Medicine.quantity m <= Medicine.minQuantity m)
          /\ (In m l <-> Medicine.isLowStock m = true)
          /\ (forall t1 t2 t3,
                In m l <->
                count_kind ("stock_low", "warning") (stock_alerts_at t1 t2 t3 m)
                = 1%nat)).
Proof.
  intros U Uu. eexists. split.
  { unfold medicines_alerts_low_stock, try_catch.
    rewrite (bind_ok _ _ _ _ _ (Medicine_find_up _ w U)).
    rewrite (bind_ok _ _ _ _ _ (dbcall_up _ _ Uu)). reflexivity. }
  split.
  - intros m H. apply filter_In in H as [H1 H2].
    apply andb_prop in H2 as [H2 _]. auto.
  - intros m Hm Ha.
    assert (X : In m (filter (fun m => Medicine.isActive m
                                && (Medicine.quantity m <=? Medicine.minQuantity m))
                         (medicines w))
                <-> Medicine.quantity m <= Medicine.minQuantity m).
    { rewrite filter_In, Ha. cbn [andb]. rewrite Z.leb_le. tauto. }
    splits.
    + exact X.
    + rewrite X. unfold Medicine.isLowStock. symmetry. apply Z.leb_le.
    + intros t1 t2 t3. rewrite X, count_low.
      destruct (Z.leb_spec (Medicine.quantity m) (Medicine.minQuantity m));
        split; intros; trivial; try lia; discriminate.
Qed.

(** X12.  While the store answers and the clock stands at [now],
    GET /api/medicines/alerts/expiring lists exactly the active medicines
    with [now < expiryDate <= now + 30 days]: the ones for which the virtual
    [isExpiringSoon] holds and the ones for which the stock check says
    [medicine_expiring]; and the dashboard counts as many. *)
Theorem expiring_listing_agrees w :
  ticks w = [] -> faults w CMedicine = [] -> faults w CUser = [] ->
  let now := clock w in
  exists l,
    medicines_alerts_expiring w = (Ok (mkResponse 200 (JMedicines l)), w)
    /\ dashboard_expiringMedicines w = (Ok (List.length l), w)
    /\ (forall m, In m l -> In m (medicines w) /\ Medicine.isActive m = true)
    /\ (forall m, In m (medicines w) -> Medicine.isActive m = true ->
          (In m l <-> now < Medicine.expiryDate m <= now + 30 * msPerDay)
          /\ (In m l <-> Medicine.isExpiringSoon now m = true)
          /\ (In m l <->
              count_kind ("medicine_expiring", "warning")
                (stock_alerts_at now now now m) = 1%nat)).
Proof.
  intros T U Uu now. eexists. split; [| split].
  { unfold medicines_alerts_expiring, try_catch.
    rewrite !(bind_ok _ _ _ _ _ (new_Date_stopped w T)).
    rewrite (bind_ok _ _ _ _ _ (Medicine_find_up _ w U)).
    rewrite (bind_ok _ _ _ _ _ (dbcall_up _ _ Uu)). reflexivity. }
  { unfold dashboard_expiringMedicines.
    rewrite !(bind_ok _ _ _ _ _ (new_Date_stopped w T)).
    rewrite (bind_ok _ _ _ _ _ (Medicine_find_up _ w U)). reflexivity. }
  split.
  - intros m H. apply filter_In in H as [H1 H2]. unfold expiring_query in H2.
    repeat (apply andb_prop in H2 as [H2 _]). auto.
  - intros m Hm Ha. fold now.
    assert (X : In m (filter (expiring_query (addDays 30 now) now) (medicines w))
                <-> now < Medicine.expiryDate m <= now + 30 * msPerDay).
    { rewrite filter_In. unfold expiring_query, addDays. rewrite Ha.
      cbn [andb]. rewrite andb_true_iff, Z.leb_le, Z.ltb_lt. tauto. }
    splits.
    + exact X.
    + rewrite X. unfold Medicine.isExpiringSoon, addDays. cbv zeta.
      rewrite andb_true_iff, Z.leb_le, Z.ltb_lt. tauto.
    + rewrite X, count_expiring. unfold addDays.
      destruct (Z.leb_spec (Medicine.expiryDate m) (now + 30 * msPerDay));
        destruct (Z.ltb_spec now (Medicine.expiryDate m)); cbn [andb];
        split; intros; trivial; try lia; discriminate.
Qed.

(** ** GET /api/reports/expiry *)

Lemma insert_by_expiry_Forall (P : Medicine.t -> Prop) m l :
  P m -> Forall P l -> Forall P (insert_by_expiry m l).
Proof.
  intros Hm H. induction H as [| x l Hx H IH]; cbn; [auto |].
  destruct (Medicine.expiryDate m <=? Medicine.expiryDate x); auto.
Qed.

Lemma insert_by_expiry_sorted m l :
  StronglySorted by_expiry l -> StronglySorted by_expiry (insert_by_expiry m l).
Proof.
  intros H. induction H as [| x l H IH F]; cbn.
  - repeat constructor.
  - destruct (Z.leb_spec (Medicine.expiryDate m) (Medicine.expiryDate x)).
    + constructor; [constructor; assumption |].
      constructor; [assumption |].
      eapply Forall_impl; [| exact F]. unfold by_expiry. intros; lia.
    + constructor; [exact IH |].
      apply insert_by_expiry_Forall; [unfold by_expiry; lia | exact F].
Qed.

Lemma sort_by_expiry_sorted l : StronglySorted by_expiry (sort_by_expiry l).
Proof.
  unfold sort_by_expiry. induction l as [| m l IH]; cbn; [constructor |].
  apply insert_by_expiry_sorted, IH.
Qed.

Lemma insert_by_expiry_perm m l : Permutation (insert_by_expiry m l) (m :: l).
Proof.
  induction l as [| x l IH]; cbn; [reflexivity |].
  destruct (Medicine.expiryDate m <=? Medicine.expiryDate x); [reflexivity |].
  rewrite IH. apply perm_swap.
Qed.

Lemma sort_by_expiry_perm l : Permutation (sort_by_expiry l) l.
Proof.
  unfold sort_by_expiry. induction l as [| m l IH]; cbn; [constructor |].
  rewrite insert_by_expiry_perm. constructor. exact IH.
Qed.

(** X13.  While the store answers and the clock stands at [now],
    GET /api/reports/expiry sorts the active medicines into three lists by
    their expiry date: before [now]; from [now] to [now + 30 days]; after
    that and up to [now + 60 days].  No record is in two of the lists; each
    list is a rearrangement of the stored records of its window, in
    ascending order of expiry. *)
Theorem expiry_report_partitions w :
  ticks w = [] -> faults w CMedicine = [] ->
  let now := clock w in
  let within lo hi m :=
    Medicine.isActive m && (lo <=? Medicine.expiryDate m)
    && (Medicine.expiryDate m <=? hi) in
  exists expired soon later,
    reports_expiry w
    = (Ok (mkResponse 200 (JExpiryReport expired soon later now)), w)
    /\ (forall m,
          (In m expired <->
           In m (medicines w) /\ Medicine.isActive m = true
           /\ Medicine.expiryDate m < now)
          /\ (In m soon <->
              In m (medicines w) /\ Medicine.isActive m = true
              /\ now <= Medicine.expiryDate m <= now + 30 * msPerDay)
          /\ (In m later <->
              In m (medicines w) /\ Medicine.isActive m = true
              /\ now + 30 * msPerDay < Medicine.expiryDate m
                 <= now + 60 * msPerDay))
    /\ (forall m, ~ (In m expired /\ In m soon) /\ ~ (In m soon /\ In m later)
                  /\ ~ (In m expired /\ In m later))
    /\ StronglySorted by_expiry expired
    /\ StronglySorted by_expiry soon
    /\ StronglySorted by_expiry later
    /\ Permutation soon (filter (within now (now + 30 * msPerDay)) (medicines w))
    /\ Permutation later
         (filter (within (now + 30 * msPerDay + 1) (now + 60 * msPerDay))
                 (medicines w)).
Proof.
  clear toDateString.
  intros T U now within.
  eexists _, _, _. split; [apply (reports_expiry_run w T U) |].
  fold now.
  assert (X : forall m,
             (In m (sort_by_expiry
                      (filter (fun m => Medicine.isActive m
                                   && (Medicine.expiryDate m <? now))
                              (medicines w))) <->
              In m (medicines w) /\ Medicine.isActive m = true
              /\ Medicine.expiryDate m < now)
             /\ (In m (sort_by_expiry
                         (filter (fun m => Medicine.isActive m
                                      && (now <=? Medicine.expiryDate m)
                                      && (Medicine.expiryDate m <=? addDays 30 now))
                                 (medicines w))) <->
                 In m (medicines w) /\ Medicine.isActive m = true
                 /\ now <= Medicine.expiryDate m <= now + 30 * msPerDay)
             /\ (In m (sort_by_expiry
                         (filter (fun m => Medicine.isActive m
                                      && (addDays 30 now <? Medicine.expiryDate m)
                                      && (Medicine.expiryDate m <=? addDays 60 now))
                                 (medicines w))) <->
                 In m (medicines w) /\ Medicine.isActive m = true
                 /\ now + 30 * msPerDay < Medicine.expiryDate m
                    <= now + 60 * msPerDay)).
  { intros m. rewrite !In_sort_by_expiry, !filter_In. unfold addDays.
    rewrite !andb_true_iff, !Z.leb_le, !Z.ltb_lt. tauto. }
  splits.
  - exact X.
  - intros m. destruct (X m) as (X1 & X2 & X3).
    rewrite X1, X2, X3. unfold msPerDay. splits; intros H; lia.
  - apply sort_by_expiry_sorted.
  - apply sort_by_expiry_sorted.
  - apply sort_by_expiry_sorted.
  - rewrite sort_by_expiry_perm. unfold within, addDays. reflexivity.
  - rewrite sort_by_expiry_perm. unfold within, addDays.
    erewrite filter_ext; [reflexivity |]. intros m. cbv beta.
    f_equal. f_equal.
    destruct (Z.ltb_spec (now + 30 * msPerDay) (Medicine.expiryDate m));
      destruct (Z.leb_spec (now + 30 * msPerDay + 1) (Medicine.expiryDate m));
      trivial; lia.
Qed.

(** ** POST /api/issuances: how it ends *)

Lemma wp_side_bind {A B : Type} (m : M A) (f : A -> M B)
    (Q : Result B -> World -> Prop) w :
  side_only m -> (forall a w', side_frame w w' -> wp (f a) Q w') ->
  wp (bind m f) Q w.
Proof.
  intros S H. apply wp_bind. apply wp_side; [exact S |]. exact H.
Qed.

(** A step that takes a call of a side channel as a whole. *)
Ltac wp_side_step :=
  lazymatch goal with
  | |- wp (bind (logActivity _ _ _ _ _ _ _ _) _) _ _ =>
      apply wp_side_bind; [solve [auto with side] | intros ? ? ?]
  | |- wp (bind (createMedicineAlert _ _ _ _ _) _) _ _ =>
      apply wp_side_bind; [solve [auto with side] | intros ? ? ?]
  | |- wp (bind (createUserAlert _ _ _ _) _) _ _ =>
      apply wp_side_bind; [solve [auto with side] | intros ? ? ?]
  | |- wp (bind (checkAndCreateStockAlerts _ _) _) _ _ =>
      apply wp_side_bind; [solve [auto with side] | intros ? ? ?]
  | |- wp (bind (when _ _) _) _ _ =>
      apply wp_side_bind; [solve [side_tail] | intros ? ? ?]
  | _ => wp_step
  end; cbv beta iota; wsimpl.

Ltac all_side_facts := repeat side_facts.

Lemma issuances_post_outcome req body w :
  wp (issuances_post req body) (issue_outcome req body w) w.
Proof.
  unfold issuances_post, Medicine_findById, Issuance_save, Medicine_save,
    save_with, commit_medicine.
  repeat wp_side_step.
  all: all_side_facts.
  all: unfold issue_outcome; cbv zeta; wsimpl.
  all: try solve
         [ left; splits;
           [ to_origin; reflexivity
           | to_origin; reflexivity
           | eexists; split; [reflexivity | cbn; auto ] ] ].
  all: right.
  all: match goal with
       | Hi : issuances _ = (_ ++ [?i])%list |- _ => pose (entry := i)
       | |- context [((issuances _ ++ [?i])%list = _)] => pose (entry := i)
       end.
  all: match goal with
       | H : find (has_id _) _ = Some ?m,
         V : negb (isEmpty (issuance_validators _)) = false |- _ =>
           exists m, entry; subst entry; splits;
           [ congruence
           | destruct (Medicine.isActive m); [reflexivity | discriminate]
           | apply isEmpty_nil, issuance_validators_ok in V;
             destruct V as (_ & _ & _ & ? & _); trivial
           | apply Z.ltb_ge; assumption
           | unfold ledger_entry_of; cbn; splits; reflexivity
           | to_origin; reflexivity
           | ]
       end.
  all: first [ left; split; [to_origin; reflexivity | reflexivity]
             | right; split; [to_origin; reflexivity | auto] ].
Qed.

(** X14.  POST /api/issuances always answers, and ends in one of four ways,
    whatever the store does: nothing is written and the answer is 400, 404
    or 500; or the ledger entry is written, and then the record is not and
    the answer is 500, or the record is decremented and the answer is 201
    with that entry, or the record is decremented and the answer is 500
    all the same.  A ledger entry is only written for an active medicine that
    holds the quantity asked for, and carries the fields of the body. *)
Theorem issue_ends_in_one_of_four_ways req body w :
  issue_outcome req body w (fst (issuances_post req body w))
                (snd (issuances_post req body w)).
Proof. exact (issuances_post_outcome req body w). Qed.

Lemma Issuance_findById_up id w :
  faults w CIssuance = [] ->
  Issuance_findById id w = (Ok (find (issuance_has_id id) (issuances w)), w).
Proof.
  intros H. unfold Issuance_findById.
  rewrite (bind_ok _ _ _ _ _ (dbcall_up _ _ H)). reflexivity.
Qed.

Lemma find_snoc_fresh id (xs : list Issuance.t) i :
  find (issuance_has_id id) xs = None -> Issuance._id i = id ->
  find (issuance_has_id id) (xs ++ [i]) = Some i.
Proof.
  intros N E. rewrite (find_app_none _ _ _ N). cbn.
  unfold issuance_has_id. rewrite E, N.eqb_refl. reflexivity.
Qed.

(** X15.  The ledger entry that POST /api/issuances answers with 201 is
    appended to the ledger with the fields of the body and the caller as
    issuer, the record it names holds the quantity asked for less, and, the
    id of the entry being fresh, GET /api/issuances/:id returns the entry
    as long as the store answers. *)
Theorem issue_then_get req body w i w' :
  issuances_post req body w = (Ok (mkResponse 201 (JIssuance i)), w') ->
  ledger_entry_of req body i
  /\ issuances w' = (issuances w ++ [i])%list
  /\ (exists m,
        find (has_id (ib_medicineId body)) (medicines w) = Some m
        /\ find (has_id (ib_medicineId body)) (medicines w')
           = Some (issued_from req (ib_quantityIssued body) m)
        /\ Medicine.quantity (issued_from req (ib_quantityIssued body) m)
           = Medicine.quantity m - Issuance.quantityIssued i)
  /\ (find (issuance_has_id (Issuance._id i)) (issuances w) = None ->
      faults w' CIssuance = [] -> faults w' CMedicine = [] ->
      faults w' CUser = [] ->
      issuances_get_id (Issuance._id i) w'
      = (Ok (mkResponse 200 (JIssuance i)), w')).
Proof.
  intros E. pose proof (issuances_post_outcome req body w) as W.
  unfold wp in W. rewrite E in W. cbn [fst snd] in W.
  destruct W as [(_ & _ & resp & [= <-] & S)
                | (m & i' & Hf & _ & _ & L & I & [[_ [=]] | [M [[= <-] | [=]]]])].
  { cbn in S. lia. }
  splits; trivial.
  - exists m. splits; trivial.
    + rewrite M. apply (find_replace_same _ m); [exact Hf |].
      exact (find_has_id _ _ _ Hf).
    + destruct L as (_ & -> & _). reflexivity.
  - intros N U1 U2 U3. unfold issuances_get_id, try_catch.
    rewrite (bind_ok _ _ _ _ _ (Issuance_findById_up _ _ U1)).
    rewrite (bind_ok _ _ _ _ _ (dbcall_up _ _ U2)).
    rewrite (bind_ok _ _ _ _ _ (dbcall_up _ _ U3)).
    rewrite I, (find_snoc_fresh _ _ _ N eq_refl). reflexivity.
Qed.

(** ** The ledger and the stock *)

Ltac same_ledger := wsimpl; all_side_facts; to_origin; reflexivity.

Lemma others_keep_ledger rq w :
  (forall req body, rq <> PostIssuance req body) ->
  issuances (after rq w) = issuances w.
Proof.
  intros N. unfold after. destruct rq; cbn [handle];
    try (exfalso; eapply N; reflexivity).
  - change (wp (medicines_post req body)
              (fun _ w' => issuances w' = issuances w) w).
    unfold medicines_post, Medicine_findOne_barcode, Medicine_save, save_with,
      commit_medicine.
    repeat wp_step; same_ledger.
  - change (wp (medicines_put req id body)
              (fun _ w' => issuances w' = issuances w) w).
    unfold medicines_put, Medicine_findById, Medicine_findOne_barcode_ne,
      Medicine_save, save_with, commit_medicine.
    repeat wp_step; same_ledger.
  - change (wp (medicines_delete req id)
              (fun _ w' => issuances w' = issuances w) w).
    unfold medicines_delete, Medicine_findById, Medicine_save, save_with,
      commit_medicine.
    repeat wp_step; same_ledger.
  - change (wp medicines_alerts_expiring
              (fun _ w' => issuances w' = issuances w) w).
    unfold medicines_alerts_expiring, Medicine_find.
    repeat wp_step; same_ledger.
  - change (wp reports_expiry (fun _ w' => issuances w' = issuances w) w).
    unfold reports_expiry, Medicine_find.
    repeat wp_step; same_ledger.
  - change (wp (users_put req id body)
              (fun _ w' => issuances w' = issuances w) w).
    unfold users_put, User_findById, User_findOne_email_ne, User_save, save_with.
    repeat wp_step; same_ledger.
  - change (wp (users_delete req id)
              (fun _ w' => issuances w' = issuances w) w).
    unfold users_delete, User_findById, User_count_admins_ne,
      User_findByIdAndDelete, save_with.
    repeat wp_step; same_ledger.
Qed.

Lemma issued_total_cons id x xs :
  issued_total id (x :: xs)
  = if (Issuance.medicineId x =? id)%N
    then Issuance.quantityIssued x + issued_total id xs
    else issued_total id xs.
Proof. reflexivity. Qed.

Lemma issued_total_app id xs ys :
  issued_total id (xs ++ ys) = issued_total id xs + issued_total id ys.
Proof.
  induction xs as [| x xs IH]; [reflexivity |].
  rewrite <- app_comm_cons, !issued_total_cons, IH.
  destruct (Issuance.medicineId x =? id)%N; lia.
Qed.

Lemma issued_total_nonneg id xs :
  Forall (fun i => 0 <= Issuance.quantityIssued i) xs -> 0 <= issued_total id xs.
Proof.
  induction 1 as [| x xs Hx H IH]; [cbn; lia |].
  rewrite issued_total_cons.
  destruct (Issuance.medicineId x =? id)%N; lia.
Qed.

Lemma replace_keeps_cover m m' ms xs :
  In m ms -> Medicine._id m' = Medicine._id m ->
  Medicine.initialStock m' - Medicine.quantity m'
  = Medicine.initialStock m - Medicine.quantity m ->
  (forall x, In x ms ->
     Medicine.initialStock x - Medicine.quantity x
     <= issued_total (Medicine._id x) xs) ->
  forall x, In x (replace_medicine m' ms) ->
    Medicine.initialStock x - Medicine.quantity x
    <= issued_total (Medicine._id x) xs.
Proof.
  intros Hm Hid Hs H x Hx.
  apply In_replace_medicine in Hx as [-> | [Hx _]]; [| auto].
  rewrite Hs, Hid. auto.
Qed.

Lemma after_ledger_covers rq w : ledger_covers w -> ledger_covers (after rq w).
Proof.
  intros [P C].
  assert (K : (forall req body, rq <> PostIssuance req body) ->
              ledger_covers (after rq w)).
  { intros N. unfold ledger_covers. rewrite (others_keep_ledger rq w N).
    split; [exact P |].
    pose proof (after_stock_change rq w) as S.
    inversion S; subst.
    - exact C.
    - intros x Hx. apply in_app_or in Hx as [Hx | [<- | []]]; [auto |].
      pose proof (issued_total_nonneg (Medicine._id m) _ P). lia.
    - match goal with
      | Hf : find (has_id _) _ = Some ?m |- _ =>
          apply (replace_keeps_cover m); trivial;
          [ apply (find_some _ _ Hf)
          | rewrite (find_has_id _ _ _ Hf); reflexivity
          | lia ]
      end.
    - match goal with
      | Hf : find (has_id _) _ = Some ?m |- _ =>
          apply (replace_keeps_cover m); trivial;
          [ apply (find_some _ _ Hf)
          | rewrite (find_has_id _ _ _ Hf); reflexivity
          | lia ]
      end.
    - exfalso. eapply N. reflexivity. }
  destruct rq; try (apply K; intros; discriminate).
  clear K. unfold after. cbn [handle].
  pose proof (issuances_post_outcome req body w) as W. unfold wp in W.
  destruct W as [(I & M & _) | (m & i & Hf & _ & Hq & L & I & D)].
  - unfold ledger_covers. rewrite I, M. auto.
  - destruct L as (Lm & Lq & _).
    assert (T : forall id, issued_total id (issuances w)
                           <= issued_total id (issuances w ++ [i])).
    { intros id. rewrite issued_total_app, issued_total_cons. cbn.
      destruct (Issuance.medicineId i =? id)%N; lia. }
    unfold ledger_covers. rewrite I. split.
    + apply Forall_app. split; [exact P |]. repeat constructor. lia.
    + destruct D as [[M _] | [M _]]; rewrite M.
      * intros x Hx. specialize (C x Hx). specialize (T (Medicine._id x)). lia.
      * intros x Hx. apply In_replace_medicine in Hx as [-> | [Hx _]].
        -- pose proof (find_some _ _ Hf) as [Hm _]. specialize (C m Hm).
           rewrite issued_total_app, issued_total_cons. cbn.
           rewrite Lm, (find_has_id _ _ _ Hf), N.eqb_refl.
           rewrite (find_has_id _ _ _ Hf) in C. lia.
        -- specialize (C x Hx). specialize (T (Medicine._id x)). lia.
Qed.

(** X16.  After any sequence of requests, and whatever the store answered
    to them, what left the stock of a medicine is covered by its ledger
    entries: [initialStock - quantity] is at most the sum of the quantities
    that the ledger holds as issued from it.  (It can be less: an issue whose
    write of the record failed has left its ledger entry behind.) *)
Theorem ledger_covers_stock_out rs w :
  ledger_covers w -> ledger_covers (serve rs w).
Proof.
  revert w. induction rs as [| rq rs IH]; intros w H; [exact H |].
  cbn [serve fold_left]. apply IH, after_ledger_covers, H.
Qed.

(** ** An issue whose second write fails *)

Lemma new_Date_keeps w :
  exists w',
    new_Date w = (Ok (clock w), w')
    /\ medicines w' = medicines w /\ issuances w' = issuances w
    /\ nextId w' = nextId w /\ faults w' = faults w.
Proof.
  unfold new_Date. destruct (ticks w); eexists; split; try reflexivity; auto.
Qed.

Lemma Medicine_save_down isNew m w rest :
  faults w CMedicine = true :: rest ->
  exists e w',
    Medicine_save isNew m w = (Throw e, w')
    /\ medicines w' = medicines w /\ issuances w' = issuances w.
Proof.
  intros H. unfold Medicine_save, save_with.
  destruct (Medicine.validate m).
  - unfold bind, try_catch, dbcall, log_write, throw. rewrite H.
    eexists _, _. split; [reflexivity | auto].
  - unfold bind, log_write, throw. eexists _, _. split; [reflexivity | auto].
Qed.

(** X17.  POST /api/issuances is not atomic.  When the read of the medicine
    goes through and the write of the decremented record fails, the request
    is answered 500, the stock is what it was, and the ledger has an entry
    for the quantity all the same: nothing takes it back. *)
Theorem issue_is_not_atomic req body w m rest :
  issuance_validators body = [] ->
  faults w CMedicine = false :: true :: rest ->
  faults w CIssuance = [] ->
  find (has_id (ib_medicineId body)) (medicines w) = Some m ->
  Medicine.isActive m = true ->
  ib_quantityIssued body <= Medicine.quantity m ->
  clock w < Medicine.expiryDate m ->
  exists i w',
    issuances_post req body w
    = (Ok (mkResponse 500 (JMessage "Failed to issue medicine")), w')
    /\ ledger_entry_of req body i
    /\ issuances w' = (issuances w ++ [i])%list
    /\ medicines w' = medicines w.
Proof.
  intros Hval Um Ui Hf Ha Hq He.
  set (w1 := set_faults CMedicine (true :: rest) w).
  assert (E1 : Medicine_findById (ib_medicineId body) w = (Ok (Some m), w1)).
  { unfold Medicine_findById, bind, dbcall, gets, ret. rewrite Um. fold w1.
    unfold w1. wsimpl. rewrite Hf. reflexivity. }
  destruct (new_Date_keeps w1) as (w2 & E2 & M2 & I2 & N2 & F2).
  destruct (new_Date_keeps (set_nextId (N.succ (nextId w2)) w2))
    as (w3 & E3 & M3 & I3 & N3 & F3).
  wsimpl.
  set (i := Issuance.mk (nextId w2) (ib_medicineId body) (ib_issuedTo body)
              (ib_recipientName body) (ib_recipientID body)
              (ib_quantityIssued body) (ib_prescribedBy body) (ib_notes body)
              (reqUser req) (clock w2)).
  assert (E4 : Issuance_save i w3
               = (Ok tt,
                  set_journal (journal w3 ++ [(WIssuance i, true)])
                    (set_issuances (issuances w3 ++ [i]) w3))).
  { apply Issuance_save_up; [apply issuance_valid, Hval |].
    rewrite F3. wsimpl. rewrite F2. unfold w1. wsimpl. exact Ui. }
  set (w4 := set_journal (journal w3 ++ [(WIssuance i, true)])
               (set_issuances (issuances w3 ++ [i]) w3)) in E4.
  destruct (Medicine_save_down false
              (Medicine.set_updatedBy (reqUser req)
                 (Medicine.set_quantity
                    (Medicine.quantity m - ib_quantityIssued body) m))
              w4 rest) as (e & w5 & E5 & M5 & I5).
  { unfold w4. wsimpl. rewrite F3. wsimpl. rewrite F2. reflexivity. }
  exists i, w5. split.
  - unfold issuances_post, try_catch. cbv zeta. rewrite Hval.
    cbn [isEmpty negb].
    rewrite (bind_ok _ _ _ _ _ E1), Ha. cbn [negb].
    replace (Medicine.quantity m <? ib_quantityIssued body) with false
      by (symmetry; apply Z.ltb_ge; lia).
    rewrite (bind_ok _ _ _ _ _ E2).
    replace (Medicine.expiryDate m <=? clock w1) with false
      by (symmetry; apply Z.leb_gt; exact He).
    rewrite (bind_ok _ _ w2 (nextId w2) (set_nextId (N.succ (nextId w2)) w2)
               eq_refl).
    rewrite (bind_ok _ _ _ _ _ E3). wsimpl. fold i.
    rewrite (bind_ok _ _ _ _ _ E4).
    rewrite (bind_throw _ _ _ _ _ E5). reflexivity.
  - splits.
    + unfold ledger_entry_of. cbn. splits; reflexivity.
    + rewrite I5. unfold w4. wsimpl. rewrite I3. wsimpl. rewrite I2.
      reflexivity.
    + rewrite M5. unfold w4. wsimpl. rewrite M3. wsimpl. rewrite M2.
      reflexivity.
Qed.

(** ** routes/users.js *)

Ltac same_users := wsimpl; all_side_facts; to_origin; reflexivity.

Lemma users_delete_effect req id w :
  wp (users_delete req id) (fun _ w' => user_delete_effect req id w w') w.
Proof.
  unfold users_delete, User_findById, User_count_admins_ne,
    User_findByIdAndDelete, save_with.
  repeat wp_side_step.
  all: all_side_facts.
  all: unfold user_delete_effect; wsimpl.
  all: try solve [left; to_origin; reflexivity].
  all: right.
  all: match goal with
       | H : find (user_has_id _) _ = Some ?u |- _ => exists u
       end.
  all: match goal with
       | H : find (user_has_id _) _ = Some ?u |- _ =>
           pose proof (find_some _ _ H) as [_ Hid];
           unfold user_has_id in Hid; apply N.eqb_eq in Hid
       end.
  all: splits;
    [ to_origin; congruence
    | to_origin; reflexivity
    | match goal with
      | H : (_ =? reqUser _)%N = false |- _ =>
          apply N.eqb_neq in H; congruence
      end
    | ].
  all: intros A; unfold is_admin in A.
  all: try congruence.
  all: match goal with
       | H : (List.length (filter ?p ?l) =? 0)%nat = false |- _ =>
           apply Nat.eqb_neq in H;
           destruct (filter p l) as [| adm others] eqn:Ef; [contradiction |];
           assert (Hin : In adm (filter p l)) by (rewrite Ef; left; reflexivity);
           apply filter_In in Hin as [Hin Hp];
           apply andb_prop in Hp as [Hp1 Hp2];
           exists adm; splits;
           [ revert Hin; to_origin; trivial
           | exact Hp1
           | apply negb_true_iff in Hp2; rewrite <- Hid; exact Hp2 ]
       end.
Qed.

Lemma users_put_effect req id body w :
  wp (users_put req id body) (fun _ w' => user_update_effect id body w w') w.
Proof.
  unfold users_put, User_findById, User_findOne_email_ne, User_save, save_with.
  repeat wp_side_step.
  all: all_side_facts.
  all: unfold user_update_effect; wsimpl.
  all: try solve [left; to_origin; reflexivity].
  all: right.
  all: match goal with
       | H : find (user_has_id _) _ = Some ?u |- _ =>
           exists u;
           pose proof (find_some _ _ H) as [_ Hid];
           unfold user_has_id in Hid; apply N.eqb_eq in Hid
       end.
  all: splits; [to_origin; congruence | to_origin; cbn; rewrite ?Hid; reflexivity |].
  all: intros C x Hx Hn; try congruence.
  all: match goal with
       | H : find _ _ = None |- _ =>
           revert Hx; to_origin; intros Hx;
           revert H; to_origin; intros H;
           pose proof (find_none _ _ H x Hx) as K; cbv beta in K;
           rewrite Hid, Hn in K; cbn in K;
           rewrite andb_true_r in K; apply String.eqb_neq in K; exact K
       end.
Qed.

Lemma NoDup_key_eq {A B : Type} (key : A -> B) (l : list A) x y :
  NoDup (map key l) -> In x l -> In y l -> key x = key y -> x = y.
Proof.
  induction l as [| a l IH]; cbn; [contradiction |].
  intros N Hx Hy E. inversion N as [| ? ? Ha N']; subst.
  destruct Hx as [-> | Hx], Hy as [-> | Hy]; trivial.
  - exfalso. apply Ha. rewrite E. apply in_map, Hy.
  - exfalso. apply Ha. rewrite <- E. apply in_map, Hx.
  - auto.
Qed.

Lemma NoDup_map_filter {A B : Type} (key : A -> B) (p : A -> bool) (l : list A) :
  NoDup (map key l) -> NoDup (map key (filter p l)).
Proof.
  induction l as [| a l IH]; cbn; [trivial |].
  intros N. inversion N as [| ? ? Ha N']; subst.
  destruct (p a); cbn; [| auto].
  constructor; [| auto]. intros H. apply Ha.
  apply in_map_iff in H as (x & E & Hx). apply filter_In in Hx as [Hx _].
  rewrite <- E. apply in_map, Hx.
Qed.

(** X18.  DELETE /api/users/:id removes at most the user of that id and adds
    nobody; and a caller who names their own id removes nobody, whatever the
    store answers. *)
Theorem own_account_is_never_deleted req id w :
  let w' := snd (users_delete req id w) in
  (forall x, In x (users w') -> In x (users w))
  /\ (forall x, In x (users w) -> user_has_id id x = false -> In x (users w'))
  /\ (id = reqUser req -> users w' = users w).
Proof.
  cbv zeta. pose proof (users_delete_effect req id w) as W. unfold wp in W.
  destruct W as [E | (u & Hf & E & Hn & _)]; rewrite E; splits; trivial.
  - intros x Hx. apply filter_In in Hx as [Hx _]. exact Hx.
  - intros x Hx Hi. apply filter_In. rewrite Hi. auto.
  - intros ->. contradiction.
Qed.

Lemma others_keep_users rq w :
  (forall req id body, rq <> PutUser req id body) ->
  (forall req id, rq <> DeleteUser req id) ->
  users (after rq w) = users w.
Proof.
  intros N1 N2. unfold after. destruct rq; cbn [handle];
    try (exfalso; eapply N1; reflexivity);
    try (exfalso; eapply N2; reflexivity).
  - change (wp (medicines_post req body) (fun _ w' => users w' = users w) w).
    unfold medicines_post, Medicine_findOne_barcode, Medicine_save, save_with,
      commit_medicine.
    repeat wp_step; same_users.
  - change (wp (medicines_put req id body) (fun _ w' => users w' = users w) w).
    unfold medicines_put, Medicine_findById, Medicine_findOne_barcode_ne,
      Medicine_save, save_with, commit_medicine.
    repeat wp_step; same_users.
  - change (wp (medicines_delete req id) (fun _ w' => users w' = users w) w).
    unfold medicines_delete, Medicine_findById, Medicine_save, save_with,
      commit_medicine.
    repeat wp_step; same_users.
  - change (wp medicines_alerts_expiring (fun _ w' => users w' = users w) w).
    unfold medicines_alerts_expiring, Medicine_find.
    repeat wp_step; same_users.
  - change (wp (issuances_post req body) (fun _ w' => users w' = users w) w).
    unfold issuances_post, Medicine_findById, Issuance_save, Medicine_save,
      save_with, commit_medicine.
    repeat wp_step; same_users.
  - change (wp reports_expiry (fun _ w' => users w' = users w) w).
    unfold reports_expiry, Medicine_find.
    repeat wp_step; same_users.
Qed.

Lemma after_keeps_an_admin rq w :
  not_user_update rq ->
  NoDup (map User._id (users w)) -> existsb is_admin (users w) = true ->
  NoDup (map User._id (users (after rq w)))
  /\ existsb is_admin (users (after rq w)) = true.
Proof.
  intros Hn N A.
  assert (K : (forall req id, rq <> DeleteUser req id) ->
              NoDup (map User._id (users (after rq w)))
              /\ existsb is_admin (users (after rq w)) = true).
  { intros N2. rewrite others_keep_users; auto.
    intros req id body ->. exact Hn. }
  destruct rq; try (apply K; intros; discriminate). clear K.
  unfold after. cbn [handle].
  pose proof (users_delete_effect req id w) as W. unfold wp in W.
  destruct W as [E | (u & Hf & E & _ & Ha)]; rewrite E; [auto |].
  split; [apply NoDup_map_filter, N |].
  apply existsb_exists in A as (a & Hin & Adm).
  apply existsb_exists.
  destruct (is_admin u) eqn:Au.
  - destruct (Ha eq_refl) as (b & Hb & Ab & Ib). exists b. split; [| exact Ab].
    apply filter_In. rewrite Ib. auto.
  - exists a. split; [| exact Adm]. apply filter_In. split; [exact Hin |].
    destruct (user_has_id id a) eqn:Ia; [| reflexivity]. exfalso.
    pose proof (find_some _ _ Hf) as [Hu Iu].
    assert (a = u).
    { apply (NoDup_key_eq User._id (users w)); trivial.
      unfold user_has_id in *. apply N.eqb_eq in Ia, Iu. congruence. }
    congruence.
Qed.

(** X19.  As long as no PUT /api/users/:id is served, the server keeps an
    administrator: if the users have distinct ids and one of them is an
    [Admin], one of them is an [Admin] after any sequence of the other
    requests, deletions of users included, whatever the store answered. *)
Theorem an_admin_survives rs w :
  Forall not_user_update rs ->
  NoDup (map User._id (users w)) -> existsb is_admin (users w) = true ->
  NoDup (map User._id (users (serve rs w)))
  /\ existsb is_admin (users (serve rs w)) = true.
Proof.
  intros H. revert w. induction H as [| rq rs Hr H IH]; intros w N A; [auto |].
  cbn [serve fold_left].
  destruct (after_keeps_an_admin rq w Hr N A) as [N' A'].
  exact (IH _ N' A').
Qed.

Lemma map_replace_key {A B : Type} (key : A -> B) (p : A -> bool) a'
    (l : list A) :
  (forall x, In x l -> p x = true -> key a' = key x) ->
  map key (map (fun x => if p x then a' else x) l) = map key l.
Proof.
  intros H. rewrite map_map. apply map_ext_in. intros x Hx.
  destruct (p x) eqn:E; [apply H; assumption | reflexivity].
Qed.

Lemma NoDup_map_replace {A B : Type} (key : A -> B) (p : A -> bool) a'
    (l : list A) :
  NoDup (map key l) ->
  (forall x, In x l -> p x = false -> key x <> key a') ->
  (forall x y, In x l -> In y l -> p x = true -> p y = true -> x = y) ->
  NoDup (map key (map (fun x => if p x then a' else x) l)).
Proof.
  induction l as [| a l IH]; cbn; [trivial |].
  intros N H2 H3. inversion N as [| ? ? Ha N']; subst.
  assert (IH' : NoDup (map key (map (fun x => if p x then a' else x) l))).
  { apply IH; auto. }
  constructor; [| exact IH'].
  rewrite map_map, in_map_iff. intros (x & E & Hx).
  destruct (p a) eqn:Pa, (p x) eqn:Px.
  - assert (a = x) by (apply H3; auto). subst x.
    apply Ha, in_map, Hx.
  - apply (H2 x); auto.
  - apply (H2 a); auto.
  - apply Ha. rewrite <- E. apply in_map, Hx.
Qed.

(** X20.  PUT /api/users/:id keeps the emails of the users distinct: if the
    users have distinct ids and distinct emails, and the email of the body,
    when there is one, is not empty (as [isEmail] demands), they have
    distinct ids and distinct emails after the request, whatever the store
    answered. *)
Theorem user_emails_stay_distinct req id body w :
  NoDup (map User._id (users w)) -> NoDup (map User.email (users w)) ->
  up_email body <> Some "" ->
  let w' := snd (users_put req id body w) in
  map User._id (users w') = map User._id (users w)
  /\ NoDup (map User.email (users w')).
Proof.
  intros Ni Ne Hb. cbv zeta.
  pose proof (users_put_effect req id body w) as W. unfold wp in W.
  destruct W as [E | (u & Hf & E & Hc)]; rewrite E; [auto |].
  pose proof (find_some _ _ Hf) as [Hu Iu].
  assert (Same : forall x, In x (users w) -> user_has_id id x = true -> x = u).
  { intros x Hx Ix. apply (NoDup_key_eq User._id (users w)); trivial.
    unfold user_has_id in *. apply N.eqb_eq in Ix, Iu. congruence. }
  split.
  - apply map_replace_key. intros x Hx Ix. rewrite (Same x Hx Ix). reflexivity.
  - apply NoDup_map_replace; trivial.
    + intros x Hx Ix. unfold assign_user. cbn [User.email].
      destruct (up_email body) as [e |] eqn:Eb; cbn [nullish] in *.
      * destruct (String.eqb_spec e (User.email u)) as [-> | Ne'].
        -- intros Ee. assert (x = u)
             by (apply (NoDup_key_eq User.email (users w)); trivial).
           subst x. congruence.
        -- apply (Hc); trivial.
           destruct e; [congruence | reflexivity].
      * intros Ee. assert (x = u)
          by (apply (NoDup_key_eq User.email (users w)); trivial).
        subst x. congruence.
    + intros x y Hx Hy Ix Iy. rewrite (Same x Hx Ix), (Same y Hy Iy).
      reflexivity.
Qed.

(** ** No handler lets an exception out *)

Ltac answered :=
  repeat wp_side_step; cbn;
  repeat match goal with
         | H : status _ = _ \/ status _ = _ |- _ => destruct H as [-> | ->]
         end;
  auto 10.

(** X21.  Every handler answers, whatever the store does: no exception
    leaves a route, and the status of the answer is one of those that the
    route names. *)
Theorem every_request_is_answered w :
  (forall req body, answered_with [201; 400; 500] (fst (medicines_post req body w)))
  /\ (forall req id body,
        answered_with [200; 400; 404; 500] (fst (medicines_put req id body w)))
  /\ (forall req id, answered_with [200; 404; 500] (fst (medicines_delete req id w)))
  /\ (forall id, answered_with [200; 404; 500] (fst (medicines_get_id id w)))
  /\ answered_with [200; 500] (fst (medicines_alerts_low_stock w))
  /\ answered_with [200; 500] (fst (medicines_alerts_expiring w))
  /\ (forall req body,
        answered_with [201; 400; 404; 500] (fst (issuances_post req body w)))
  /\ (forall id, answered_with [200; 404; 500] (fst (issuances_get_id id w)))
  /\ answered_with [200; 500] (fst (reports_expiry w))
  /\ (forall req id body,
        answered_with [200; 400; 404; 500] (fst (users_put req id body w)))
  /\ (forall req id, answered_with [200; 400; 404; 500] (fst (users_delete req id w)))
  /\ (forall q, replied_with [200; 400; 500] (fst (alerts_get q w)))
  /\ (forall id, replied_with [200; 404; 500] (fst (alerts_patch_read id w)))
  /\ replied_with [200; 500] (fst (alerts_mark_all_read w))
  /\ (forall id, replied_with [200; 404; 500] (fst (alerts_delete id w)))
  /\ (forall id, replied_with [200; 404; 500] (fst (alerts_get_id id w)))
  /\ replied_with [200; 500] (fst (dashboard_recent_activities w))
  /\ (forall q, replied_with [200; 400; 500] (fst (reports_inventory q w)))
  /\ (forall q, replied_with [200; 400; 500] (fst (reports_issuances q w))).
Proof.
  splits; intros.
  - change (wp (medicines_post req body)
              (fun r _ => answered_with [201; 400; 500] r) w).
    unfold medicines_post, Medicine_findOne_barcode, Medicine_save, save_with,
      commit_medicine. answered.
  - change (wp (medicines_put req id body)
              (fun r _ => answered_with [200; 400; 404; 500] r) w).
    unfold medicines_put, Medicine_findById, Medicine_findOne_barcode_ne,
      Medicine_save, save_with, commit_medicine. answered.
  - change (wp (medicines_delete req id)
              (fun r _ => answered_with [200; 404; 500] r) w).
    unfold medicines_delete, Medicine_findById, Medicine_save, save_with,
      commit_medicine. answered.
  - change (wp (medicines_get_id id)
              (fun r _ => answered_with [200; 404; 500] r) w).
    unfold medicines_get_id, Medicine_findById. answered.
  - change (wp medicines_alerts_low_stock
              (fun r _ => answered_with [200; 500] r) w).
    unfold medicines_alerts_low_stock, Medicine_find. answered.
  - change (wp medicines_alerts_expiring
              (fun r _ => answered_with [200; 500] r) w).
    unfold medicines_alerts_expiring, Medicine_find. answered.
  - change (wp (issuances_post req body)
              (fun r _ => answered_with [201; 400; 404; 500] r) w).
    unfold issuances_post, Medicine_findById, Issuance_save, Medicine_save,
      save_with, commit_medicine. answered.
  - change (wp (issuances_get_id id)
              (fun r _ => answered_with [200; 404; 500] r) w).
    unfold issuances_get_id, Issuance_findById. answered.
  - change (wp reports_expiry (fun r _ => answered_with [200; 500] r) w).
    unfold reports_expiry, Medicine_find. answered.
  - change (wp (users_put req id body)
              (fun r _ => answered_with [200; 400; 404; 500] r) w).
    unfold users_put, User_findById, User_findOne_email_ne, User_save,
      save_with. answered.
  - change (wp (users_delete req id)
              (fun r _ => answered_with [200; 400; 404; 500] r) w).
    unfold users_delete, User_findById, User_count_admins_ne,
      User_findByIdAndDelete, save_with. answered.
  - change (wp (alerts_get q) (fun r _ => replied_with [200; 400; 500] r) w).
    unfold alerts_get, Alert_find_page, Alert_countDocuments. answered.
  - change (wp (alerts_patch_read id)
              (fun r _ => replied_with [200; 404; 500] r) w).
    unfold alerts_patch_read, Alert_findByIdAndUpdate. answered.
  - change (wp alerts_mark_all_read (fun r _ => replied_with [200; 500] r) w).
    unfold alerts_mark_all_read, Alert_updateMany. answered.
  - change (wp (alerts_delete id)
              (fun r _ => replied_with [200; 404; 500] r) w).
    unfold alerts_delete, Alert_findByIdAndUpdate. answered.
  - change (wp (alerts_get_id id)
              (fun r _ => replied_with [200; 404; 500] r) w).
    unfold alerts_get_id, Alert_findById. answered.
  - change (wp dashboard_recent_activities
              (fun r _ => replied_with [200; 500] r) w).
    unfold dashboard_recent_activities, ActivityLog_find_latest. answered.
  - change (wp (reports_inventory q)
              (fun r _ => replied_with [200; 400; 500] r) w).
    unfold reports_inventory, Medicine_find. answered.
  - change (wp (reports_issuances q)
              (fun r _ => replied_with [200; 400; 500] r) w).
    unfold reports_issuances, Issuance_find. answered.
Qed.

(** ** An alert from its creation to its listing *)

Lemma createAlert_up type title message entityType entityId triggeredBy
    severity w :
  let a := Alert.mk (nextId w) type title message severity entityType entityId
                    triggeredBy false true (clock w + 7 * msPerDay) in
  Alert.validate a = true -> faults w CAlert = [] ->
  exists w',
    createAlert type title message entityType entityId triggeredBy severity w
    = (Ok (Some a), w')
    /\ alerts w' = (alerts w ++ [a])%list
    /\ medicines w' = medicines w /\ issuances w' = issuances w
    /\ users w' = users w /\ activitylogs w' = activitylogs w
    /\ journal w' = (journal w ++ [(WAlert a, true)])%list
    /\ faults w' = faults w.
Proof.
  intros a V U. unfold createAlert, try_catch.
  rewrite (bind_ok _ _ w (nextId w) (set_nextId (N.succ (nextId w)) w) eq_refl).
  assert (X : exists c t,
             new_Date (set_nextId (N.succ (nextId w)) w)
             = (Ok (clock w), set_time c t (set_nextId (N.succ (nextId w)) w))).
  { unfold new_Date. wsimpl. destruct (ticks w) as [| d rest] eqn:T.
    - exists (clock w), []. destruct w. cbn in *. subst. reflexivity.
    - eexists _, _. reflexivity. }
  destruct X as (c & t & E1). rewrite (bind_ok _ _ _ _ _ E1). fold a.
  unfold Alert_save, save_with. rewrite V.
  unfold bind, try_catch, dbcall, gets, modify, log_write, ret. wsimpl.
  rewrite U. eexists. split; [reflexivity |]. wsimpl. splits; reflexivity.
Qed.

Lemma filter_snoc {A : Type} (p : A -> bool) (l : list A) a :
  p a = true -> filter p (l ++ [a]) = (filter p l ++ [a])%list.
Proof. intros H. rewrite filter_app. cbn. rewrite H. reflexivity. Qed.

(** X22.  While the store answers, [createAlert] with a type, a severity and
    an entity type of the schema, and a title and a message within its
    lengths, stores one alert and returns it: unread, active, expiring seven
    days after its creation.  GET /api/alerts without parameters then lists
    it first, and counts one unread alert more. *)
Theorem created_alert_is_listed_first type title message entityType entityId
    triggeredBy severity w :
  isIn type Alert.types = true ->
  isLength 1 200 title = true -> isLength 1 500 message = true ->
  isIn severity Alert.severities = true ->
  isIn entityType Alert.entityTypes = true ->
  faults w CAlert = [] -> faults w CUser = [] ->
  exists a w',
    createAlert type title message entityType entityId triggeredBy severity w
    = (Ok (Some a), w')
    /\ alerts w' = (alerts w ++ [a])%list
    /\ brief a = (type, severity, message)
    /\ Alert.title a = title /\ Alert.entityType a = entityType
    /\ Alert.entityId a = entityId /\ Alert.triggeredBy a = triggeredBy
    /\ Alert.isRead a = false /\ Alert.isActive a = true
    /\ Alert.expiresAt a = clock w + 7 * msPerDay
    /\ exists rest pagination,
         alerts_get no_query w'
         = (Ok (mkReply 200
                  (PAlertPage (a :: rest)
                     (Z.of_nat (List.length (filter unread (alerts w))) + 1)
                     pagination)), w').
Proof.
  intros Ht Hti Hm Hs He U Uu.
  destruct (isLength_required 1 200 _ (le_n _) Hti) as [T1 T2].
  destruct (isLength_required 1 500 _ (le_n _) Hm) as [M1 M2].
  destruct (createAlert_up type title message entityType entityId triggeredBy
              severity w) as (w' & E & A & _ & _ & _ & _ & _ & F); trivial.
  { unfold Alert.validate.
    cbn [Alert.type Alert.title Alert.message Alert.severity Alert.entityType].
    rewrite Ht, T1, T2, M1, M2, Hs, He. reflexivity. }
  eexists _, w'. split; [exact E |]. split; [exact A |].
  splits; try reflexivity.
  eexists _, _.
  rewrite (alerts_get_up no_query w' eq_refl); try (rewrite F; assumption).
  rewrite A. rewrite !filter_snoc by reflexivity.
  rewrite rev_app_distr, length_app. cbn [rev app List.length].
  unfold skip_limit. cbn [no_query aq_page aq_limit nullish].
  change (Z.to_nat ((1 - 1) * 20)) with 0%nat. rewrite skipn_0.
  change (Z.to_nat 20) with 20%nat. rewrite firstn_cons.
  rewrite Nat2Z.inj_add. reflexivity.
Qed.

(** ** DELETE /api/users/:id and its alert *)

Lemma User_findById_up id w :
  faults w CUser = [] ->
  User_findById id w = (Ok (find (user_has_id id) (users w)), w).
Proof.
  intros H. unfold User_findById.
  rewrite (bind_ok _ _ _ _ _ (dbcall_up _ _ H)). reflexivity.
Qed.

Lemma User_count_admins_ne_up id w :
  faults w CUser = [] ->
  User_count_admins_ne id w
  = (Ok (List.length (filter (fun u => (User.role u =? "Admin")%string
                                       && negb (user_has_id id u)) (users w))),
     w).
Proof.
  intros H. unfold User_count_admins_ne.
  rewrite (bind_ok _ _ _ _ _ (dbcall_up _ _ H)). reflexivity.
Qed.

Lemma User_findByIdAndDelete_up id w :
  faults w CUser = [] ->
  User_findByIdAndDelete id w
  = (Ok tt,
     set_journal (journal w ++ [(WUserDelete id, true)])
       (set_users (filter (fun u => negb (user_has_id id u)) (users w)) w)).
Proof.
  intros U. unfold User_findByIdAndDelete. rewrite (save_with_up _ _ _ _ U).
  reflexivity.
Qed.

Lemma existsb_filter_length {A : Type} (p : A -> bool) (l : list A) :
  existsb p l = true -> (List.length (filter p l) =? 0)%nat = false.
Proof.
  intros H. apply existsb_exists in H as (x & Hx & Px).
  assert (I : In x (filter p l)) by (apply filter_In; auto).
  destruct (filter p l); [contradiction | reflexivity].
Qed.

(** X23.  While the store answers, DELETE /api/users/:id on a user who is
    not the caller, and not the only administrator, answers 200, removes the
    user and stores one alert: [user_deleted], of severity [warning], about
    that user, by the caller, with the name of the user in its message.  The
    name must fit: over 460 characters the message exceeds the 500 of the
    schema. *)
Theorem user_deletion_raises_alert req id w u :
  faults w CUser = [] -> faults w CAlert = [] ->
  find (user_has_id id) (users w) = Some u ->
  id <> reqUser req ->
  (is_admin u = true ->
   existsb (fun x => is_admin x && negb (user_has_id id x)) (users w) = true) ->
  (String.length (User.name u) <= 460)%nat ->
  exists w' a,
    users_delete req id w
    = (Ok (mkResponse 200 (JMessage "User deleted successfully")), w')
    /\ users w' = filter (fun x => negb (user_has_id id x)) (users w)
    /\ alerts w' = (alerts w ++ [a])%list
    /\ brief a
       = ("user_deleted", "warning",
          "User " ++ quoted (User.name u) ++ " has been removed from the system")
    /\ Alert.entityType a = "User" /\ Alert.entityId a = id
    /\ Alert.triggeredBy a = reqUser req
    /\ Alert.isRead a = false /\ Alert.isActive a = true.
Proof.
  intros U Ua Hf Hn Hadm Hlen.
  pose proof (find_some _ _ Hf) as [_ Hid].
  unfold user_has_id in Hid. apply N.eqb_eq in Hid.
  assert (E0 : (if (User.role u =? "Admin")%string
                then adminCount <- User_count_admins_ne (User._id u) ;;
                     ret (adminCount =? 0)%nat
                else ret false) w = (Ok false, w)).
  { destruct (User.role u =? "Admin")%string eqn:R; [| reflexivity].
    rewrite (bind_ok _ _ _ _ _ (User_count_admins_ne_up _ w U)).
    unfold ret. rewrite Hid. f_equal. f_equal.
    apply existsb_filter_length. apply Hadm. exact R. }
  set (w1 := set_journal (journal w ++ [(WUserDelete id, true)])
               (set_users (filter (fun x => negb (user_has_id id x)) (users w))
                  w)).
  destruct (logActivity_run "Delete" "User" (User._id u) (reqUser req)
              ("Deleted user: " ++ User.name u) (Some (SnapUser u)) None
              (Some req) w1)
    as (ok & w2 & E2 & _ & _ & _ & _ & L5 & L6 & _ & _ & _ & L7 & _).
  set (msg := "User " ++ quoted (User.name u)
              ++ " has been removed from the system").
  destruct (createAlert_up "user_deleted" "User Deleted" msg "User"
              (User._id u) (reqUser req) "warning" w2)
    as (w3 & E3 & A3 & _ & _ & U3 & _).
  { unfold Alert.validate.
    cbn [Alert.type Alert.title Alert.message Alert.severity Alert.entityType].
    cbn [isIn existsb String.eqb Ascii.eqb Bool.eqb orb andb required_str negb
         Alert.types Alert.severities Alert.entityTypes maxlength
         String.length Nat.leb].
    unfold msg, maxlength, quoted, dquote. rewrite !length_append.
    rewrite (required_append "User " _ eq_refl).
    cbn [String.length andb]. rewrite !andb_true_r. apply Nat.leb_le. lia. }
  { apply L7. exact Ua. }
  match type of E3 with
  | _ = (Ok (Some ?a), _) => exists w3, a
  end.
  split.
  - unfold users_delete, try_catch.
    rewrite (bind_ok _ _ _ _ _ (User_findById_up id w U)), Hf.
    rewrite (bind_ok _ _ _ _ _ E0).
    replace (User._id u =? reqUser req)%N with false
      by (symmetry; apply N.eqb_neq; congruence).
    rewrite (bind_ok _ _ _ _ _ (User_findByIdAndDelete_up id w U)). fold w1.
    rewrite (bind_ok _ _ _ _ _ E2).
    unfold createUserAlert. cbv zeta.
    cbn [lookup user_alerts String.eqb Ascii.eqb Bool.eqb ad_type ad_title
         ad_message ad_severity].
    fold msg. rewrite (bind_ok _ _ _ _ _ E3). reflexivity.
  - splits; try reflexivity.
    + rewrite U3, L5. reflexivity.
    + rewrite A3, L6. reflexivity.
    + exact Hid.
Qed.

(** ** The schema and the barcode index, for the user of the store *)

(** X24.  The stored medicines keep the schema and the unique barcode index
    through any sequence of requests, whatever the store answered: no
    quantity and no initial stock is ever negative, no threshold is below
    one, and no two records with different ids, active or deleted, carry the
    same barcode. *)
Theorem stored_medicines_stay_valid rs w :
  consistent (medicines w) = true ->
  forall m, In m (medicines (serve rs w)) ->
    Medicine.validate m = true
    /\ 0 <= Medicine.quantity m /\ 0 <= Medicine.initialStock m
    /\ 1 <= Medicine.minQuantity m
    /\ (forall m2 b, In m2 (medicines (serve rs w)) ->
          Medicine._id m2 <> Medicine._id m ->
          Medicine.barcode m = Some b -> Medicine.barcode m2 <> Some b).
Proof.
  intros C m Hm.
  pose proof (proj1 (consistent_spec _) (serve_consistent rs w C) m Hm) as [V B].
  split; [exact V |].
  pose proof V as V'. unfold Medicine.validate in V'.
  repeat match goal with
         | H : (_ && _) = true |- _ => apply andb_prop in H as [H ?]
         end.
  repeat match goal with
         | H : (_ <=? _) = true |- _ => apply Z.leb_le in H
         end.
  splits; trivial.
  intros m2 b Hm2 Hne Eb Eb2. specialize (B m2 Hm2). unfold collide in B.
  rewrite Eb, Eb2 in B. cbn in B. rewrite String.eqb_refl, andb_true_r in B.
  apply negb_false_iff in B. unfold has_id in B. apply N.eqb_eq in B.
  congruence.
Qed.

Lemma Medicine_findOne_barcode_ne_up b id w :
  faults w CMedicine = [] ->
  Medicine_findOne_barcode_ne b id w
  = (Ok (find (fun m => opt_str_eqb (Medicine.barcode m) (Some b)
                        && Medicine.isActive m
                        && negb (has_id id m)) (medicines w)), w).
Proof.
  intros H. unfold Medicine_findOne_barcode_ne.
  rewrite (bind_ok _ _ _ _ _ (dbcall_up _ _ H)). reflexivity.
Qed.

(** X25.  While the store answers, PUT /api/medicines/:id with a barcode
    other than the one of the record, while another active record carries
    that barcode, answers 400 with the message of a duplicate barcode and
    changes nothing. *)
Theorem update_refuses_taken_barcode req id body w m b x :
  patch_validators body = [] -> faults w CMedicine = [] ->
  find (has_id id) (medicines w) = Some m -> Medicine.isActive m = true ->
  mp_barcode body = Some b -> b <> "" -> Medicine.barcode m <> Some b ->
  In x (medicines w) -> Medicine.barcode x = Some b ->
  Medicine.isActive x = true -> Medicine._id x <> id ->
  medicines_put req id body w
  = (Ok (mkResponse 400
           (JMessage "Medicine with this barcode already exists")), w).
Proof.
  intros V U Hf Ha Eb Hb Hn Hx Bx Ax Ix.
  unfold medicines_put, try_catch. cbv zeta. rewrite V. cbn [isEmpty negb].
  rewrite (bind_ok _ _ _ _ _ (Medicine_findById_up id w U)), Hf, Ha.
  cbn [negb]. rewrite Eb.
  assert (T : truthy_str (Some b) = true)
    by (destruct b; [congruence | reflexivity]).
  assert (D : opt_str_eqb (Some b) (Medicine.barcode m) = false).
  { destruct (Medicine.barcode m) as [b' |]; [| reflexivity]. cbn.
    apply String.eqb_neq. congruence. }
  rewrite T, D. cbn [negb andb nullish].
  rewrite (bind_ok _ _ _ _ _ (Medicine_findOne_barcode_ne_up _ _ w U)).
  match goal with
  | |- context [match find ?p (medicines w) with _ => _ end] =>
      destruct (find p (medicines w)) eqn:F
  end; [reflexivity |].
  exfalso. pose proof (find_none _ _ F x Hx) as K. cbv beta in K.
  rewrite Bx, Ax in K. cbn in K. rewrite String.eqb_refl in K.
  rewrite (find_has_id _ _ _ Hf) in K. unfold has_id in K.
  apply N.eqb_neq in Ix. rewrite Ix in K. discriminate.
Qed.

(** ** GET /api/reports/inventory *)

Lemma insert_by_name_perm m l : Permutation (insert_by_name m l) (m :: l).
Proof.
  induction l as [| x l IH]; cbn; [reflexivity |].
  destruct (String.leb (Medicine.name m) (Medicine.name x)); [reflexivity |].
  rewrite IH. apply perm_swap.
Qed.

Lemma sort_by_name_perm l : Permutation (sort_by_name l) l.
Proof.
  unfold sort_by_name. induction l as [| m l IH]; cbn; [constructor |].
  rewrite insert_by_name_perm. constructor. exact IH.
Qed.

Lemma insert_by_name_sorted m l :
  Sorted by_name l -> Sorted by_name (insert_by_name m l).
Proof.
  intros H. induction H as [| x l H IH Hd]; cbn.
  - repeat constructor.
  - destruct (String.leb (Medicine.name m) (Medicine.name x)) eqn:E.
    + constructor; [constructor; assumption |]. constructor. exact E.
    + assert (X : by_name x m).
      { unfold by_name. destruct (String.leb_total (Medicine.name x)
                                    (Medicine.name m)); congruence. }
      constructor; [exact IH |].
      destruct l as [| y l]; cbn; [constructor; exact X |].
      destruct (String.leb (Medicine.name m) (Medicine.name y));
        constructor; [exact X |].
      inversion Hd; assumption.
Qed.

Lemma sort_by_name_sorted l : Sorted by_name (sort_by_name l).
Proof.
  unfold sort_by_name. induction l as [| m l IH]; cbn; [constructor |].
  apply insert_by_name_sorted, IH.
Qed.

Lemma filter_all {A : Type} (p : A -> bool) (l : list A) :
  (forall x, In x l -> p x = true) -> filter p l = l.
Proof.
  induction l as [| a l IH]; cbn; [trivial |]. intros H.
  rewrite (H a) by auto. rewrite IH; auto.
Qed.

Lemma filter_length_le {A : Type} (p : A -> bool) (l : list A) :
  (List.length (filter p l) <= List.length l)%nat.
Proof.
  induction l as [| a l IH]; cbn; [lia |]. destruct (p a); cbn; lia.
Qed.

(** X26.  While the store answers, GET /api/reports/inventory with a valid
    query answers 200 with medicines that are stored, active and of the
    category asked for, in the order of their names.  [totalMedicines] is
    their number and [lowStockCount] the number of those at or below their
    threshold; with [lowStock=true] the two are equal.  Any other value of
    [lowStock] that the validator lets through filters nothing: without a
    category and without [expiring=true], all the active medicines are
    listed. *)
Theorem inventory_report_counts q w :
  inventory_query_validators q = [] ->
  faults w CMedicine = [] -> faults w CUser = [] ->
  exists listing summary w',
    reports_inventory q w
    = (Ok (mkReply 200 (PInventoryReport listing summary)), w')
    /\ medicines w' = medicines w
    /\ Sorted by_name listing
    /\ (forall m, In m listing ->
          In m (medicines w) /\ Medicine.isActive m = true
          /\ (truthy_str (iq_category q) = true ->
              Medicine.category m = nullish (iq_category q) ""))
    /\ totalMedicines summary = Z.of_nat (List.length listing)
    /\ lowStockCount summary
       = Z.of_nat (List.length (filter Medicine.isLowStock listing))
    /\ 0 <= lowStockCount summary <= totalMedicines summary
    /\ (iq_lowStock q = Some "true" ->
        lowStockCount summary = totalMedicines summary)
    /\ (iq_lowStock q <> Some "true" -> iq_expiring q <> Some "true" ->
        truthy_str (iq_category q) = false ->
        Permutation listing (filter Medicine.isActive (medicines w))).
Proof.
  intros V U Uu.
  assert (X : exists win w1,
             (if opt_str_eqb (iq_expiring q) (Some "true") then
                d <- new_Date ;;
                let thirtyDaysFromNow := addDays 30 d in
                now <- new_Date ;;
                ret (Some (thirtyDaysFromNow, now))
              else ret None) w = (Ok win, w1)
             /\ medicines w1 = medicines w /\ faults w1 = faults w
             /\ (iq_expiring q <> Some "true" -> win = None)).
  { destruct (opt_str_eqb (iq_expiring q) (Some "true")) eqn:E.
    - destruct (new_Date_keeps w) as (w1 & E1 & M1 & _ & _ & F1).
      destruct (new_Date_keeps w1) as (w2 & E2 & M2 & _ & _ & F2).
      eexists _, w2. rewrite (bind_ok _ _ _ _ _ E1). cbv zeta.
      rewrite (bind_ok _ _ _ _ _ E2). splits; try reflexivity; try congruence.
      intros N. exfalso. apply N.
      destruct (iq_expiring q) as [s |]; [| discriminate]. cbn in E.
      apply String.eqb_eq in E. congruence.
    - exists None, w. splits; reflexivity. }
  destruct X as (win & w1 & E1 & M1 & F1 & W1).
  set (query := fun m =>
         Medicine.isActive m
         && (if truthy_str (iq_category q)
             then (Medicine.category m =? nullish (iq_category q) "")%string
             else true)
         && (if opt_str_eqb (iq_lowStock q) (Some "true")
             then Medicine.quantity m <=? Medicine.minQuantity m else true)
         && match win with
            | Some (hi, lo) =>
                (Medicine.expiryDate m <=? hi) && (lo <? Medicine.expiryDate m)
            | None => true
            end).
  destruct (new_Date_keeps w1) as (w2 & E2 & M2 & _ & _ & _).
  assert (U1 : faults w1 CMedicine = []) by (rewrite F1; exact U).
  assert (Uu1 : faults w1 CUser = []) by (rewrite F1; exact Uu).
  exists (sort_by_name (filter query (medicines w1))). eexists. exists w2.
  split.
  { unfold reports_inventory, try_catch. cbv zeta. rewrite V.
    cbn [isEmpty negb]. rewrite (bind_ok _ _ _ _ _ E1).
    rewrite (bind_ok _ _ _ _ _ (Medicine_find_up _ w1 U1)).
    rewrite (bind_ok _ _ _ _ _ (dbcall_up _ _ Uu1)).
    rewrite (bind_ok _ _ _ _ _ E2). reflexivity. }
  cbn [totalMedicines lowStockCount]. rewrite M1.
  assert (In_l : forall m, In m (sort_by_name (filter query (medicines w)))
                           <-> In m (medicines w) /\ query m = true).
  { intros m. rewrite <- filter_In. split; apply Permutation_in;
      [| symmetry]; apply sort_by_name_perm. }
  splits.
  - congruence.
  - apply sort_by_name_sorted.
  - intros m Hm. apply In_l in Hm as [Hm Hq]. unfold query in Hq.
    repeat (apply andb_prop in Hq as [Hq ?]). splits; trivial.
    intros T. rewrite T in *. apply String.eqb_eq. assumption.
  - reflexivity.
  - reflexivity.
  - lia.
  - apply Nat2Z.inj_le, filter_length_le.
  - intros L. f_equal. f_equal. apply filter_all.
    intros m Hm. apply In_l in Hm as [_ Hq]. unfold query in Hq.
    rewrite L in Hq. cbn [opt_str_eqb] in Hq. rewrite String.eqb_refl in Hq.
    apply andb_prop in Hq as [Hq _]. apply andb_prop in Hq as [_ Hq].
    exact Hq.
  - intros L Ex C. rewrite sort_by_name_perm.
    erewrite filter_ext; [reflexivity |]. intros m. unfold query.
    rewrite C, (W1 Ex).
    replace (opt_str_eqb (iq_lowStock q) (Some "true")) with false.
    + rewrite !andb_true_r. reflexivity.
    + destruct (iq_lowStock q) as [s |]; [| reflexivity]. cbn. symmetry.
      apply String.eqb_neq. congruence.
Qed.

(** ** GET /api/reports/issuances *)

Lemma insert_by_issuedAt_perm i l : Permutation (insert_by_issuedAt i l) (i :: l).
Proof.
  induction l as [| x l IH]; cbn; [reflexivity |].
  destruct (Issuance.issuedAt x <=? Issuance.issuedAt i); [reflexivity |].
  rewrite IH. apply perm_swap.
Qed.

Lemma sort_by_issuedAt_desc_perm l : Permutation (sort_by_issuedAt_desc l) l.
Proof.
  unfold sort_by_issuedAt_desc. induction l as [| i l IH]; cbn; [constructor |].
  rewrite insert_by_issuedAt_perm. constructor. exact IH.
Qed.

Lemma insert_by_issuedAt_sorted i l :
  Sorted newest_first l -> Sorted newest_first (insert_by_issuedAt i l).
Proof.
  intros H. induction H as [| x l H IH Hd]; cbn.
  - repeat constructor.
  - destruct (Z.leb_spec (Issuance.issuedAt x) (Issuance.issuedAt i)).
    + constructor; [constructor; assumption |]. constructor. assumption.
    + assert (X : newest_first x i) by (unfold newest_first; lia).
      constructor; [exact IH |].
      destruct l as [| y l]; cbn; [constructor; exact X |].
      destruct (Issuance.issuedAt y <=? Issuance.issuedAt i);
        constructor; [exact X |].
      inversion Hd; assumption.
Qed.

Lemma sort_by_issuedAt_desc_sorted l :
  Sorted newest_first (sort_by_issuedAt_desc l).
Proof.
  unfold sort_by_issuedAt_desc. induction l as [| i l IH]; cbn; [constructor |].
  apply insert_by_issuedAt_sorted, IH.
Qed.

Lemma fold_quantity (l : list Issuance.t) a :
  fold_left (fun sum iss => sum + Issuance.quantityIssued iss) l a
  = a + quantity_sum l.
Proof.
  revert a. induction l as [| i l IH]; intros a; cbn; [lia |].
  rewrite IH. unfold quantity_sum. lia.
Qed.

Lemma group_add_sums k q acc :
  count_sum (group_add k q acc) = count_sum acc + 1
  /\ group_quantity_sum (group_add k q acc) = group_quantity_sum acc + q.
Proof.
  induction acc as [| [k' [c s]] acc [IH1 IH2]]; cbn; [lia |].
  destruct (k' =? k)%string; cbn; [lia |].
  unfold count_sum, group_quantity_sum in *. cbn in *. lia.
Qed.

Lemma group_add_keys k q acc x :
  In x (map fst (group_add k q acc)) <-> x = k \/ In x (map fst acc).
Proof.
  clear toDateString.
  induction acc as [| [k' [c s]] acc IH]; cbn; [intuition |].
  destruct (String.eqb_spec k' k) as [-> | N]; cbn; [intuition |].
  rewrite IH. intuition.
Qed.

Lemma group_add_NoDup k q acc :
  NoDup (map fst acc) -> NoDup (map fst (group_add k q acc)).
Proof.
  induction acc as [| [k' [c s]] acc IH]; cbn; intros N.
  - repeat constructor. intros [].
  - inversion N as [| ? ? Hk N']; subst.
    destruct (String.eqb_spec k' k) as [-> | Ne]; cbn.
    + constructor; assumption.
    + constructor; [| auto]. rewrite group_add_keys. intros [-> | H]; auto.
Qed.

Lemma group_add_of k q acc k' :
  group_of k' (group_add k q acc)
  = if (k =? k')%string
    then Some (fst (nullish (group_of k acc) (0, 0)) + 1,
               snd (nullish (group_of k acc) (0, 0)) + q)
    else group_of k' acc.
Proof.
  induction acc as [| [k0 [c s]] acc IH]; cbn.
  - rewrite String.eqb_sym. destruct (k' =? k)%string; reflexivity.
  - destruct (String.eqb_spec k0 k) as [-> | N]; cbn.
    + destruct (k =? k')%string; reflexivity.
    + rewrite IH.
      destruct (String.eqb_spec k0 k') as [-> | N'],
        (String.eqb_spec k k') as [-> | N'']; try reflexivity.
      congruence.
Qed.

Lemma grouped_sums (l : list Issuance.t) acc :
  let groups :=
    fold_left (fun acc iss =>
                 group_add (Issuance.issuedTo iss) (Issuance.quantityIssued iss)
                           acc) l acc in
  count_sum groups = count_sum acc + Z.of_nat (List.length l)
  /\ group_quantity_sum groups = group_quantity_sum acc + quantity_sum l
  /\ (NoDup (map fst acc) -> NoDup (map fst groups))
  /\ forall k,
       group_of k groups
       = match issued_to k l with
         | [] => group_of k acc
         | _ :: _ =>
             Some (fst (nullish (group_of k acc) (0, 0))
                   + Z.of_nat (List.length (issued_to k l)),
                   snd (nullish (group_of k acc) (0, 0))
                   + quantity_sum (issued_to k l))
         end.
Proof.
  cbv zeta. revert acc. induction l as [| i l IH]; intros acc.
  - unfold issued_to, quantity_sum.
    cbn [fold_left filter fold_right List.length]. splits; trivial; lia.
  - cbn [fold_left].
    destruct (IH (group_add (Issuance.issuedTo i) (Issuance.quantityIssued i)
                    acc)) as (C & Q & N & G).
    destruct (group_add_sums (Issuance.issuedTo i) (Issuance.quantityIssued i)
                acc) as [C1 Q1].
    splits.
    + rewrite C, C1. cbn [List.length]. lia.
    + rewrite Q, Q1. unfold quantity_sum. cbn. lia.
    + intros H. apply N, group_add_NoDup, H.
    + intros k. rewrite G, group_add_of. unfold issued_to. cbn [filter].
      destruct (String.eqb_spec (Issuance.issuedTo i) k) as [E | E].
      * cbn [nullish fst snd].
        destruct (filter (fun i0 => (Issuance.issuedTo i0 =? k)%string) l);
          f_equal; cbn [List.length quantity_sum fold_right]; f_equal;
          rewrite E; unfold quantity_sum; cbn; lia.
      * reflexivity.
Qed.

(** X27.  While the store answers, GET /api/reports/issuances with a valid
    query answers 200 with the ledger entries of the period and of the
    recipient type asked for, the newest first.  [totalIssuances] is their
    number and [totalQuantity] the sum of their quantities; [groupedByType]
    has one entry for each recipient type that occurs, with the number and
    the quantity of its entries, so that the counts of the groups add up to
    [totalIssuances] and their quantities to [totalQuantity]. *)
Theorem issuance_report_adds_up q w :
  issuance_report_validators q = [] ->
  faults w CIssuance = [] -> faults w CMedicine = [] -> faults w CUser = [] ->
  exists listing summary w',
    reports_issuances q w
    = (Ok (mkReply 200 (PIssuanceReport listing summary)), w')
    /\ issuances w' = issuances w
    /\ Sorted newest_first listing
    /\ (forall i, In i listing <-> In i (issuances w) /\ in_report q i)
    /\ totalIssuances summary = Z.of_nat (List.length listing)
    /\ totalQuantity summary = quantity_sum listing
    /\ count_sum (groupedByType summary) = totalIssuances summary
    /\ group_quantity_sum (groupedByType summary) = totalQuantity summary
    /\ NoDup (map fst (groupedByType summary))
    /\ (forall k,
          group_of k (groupedByType summary)
          = match issued_to k listing with
            | [] => None
            | _ :: _ =>
                Some (Z.of_nat (List.length (issued_to k listing)),
                      quantity_sum (issued_to k listing))
            end)
    /\ period summary = (rq_startDate q, rq_endDate q).
Proof.
  intros V Ui Um Uu.
  destruct (new_Date_keeps w) as (w' & E & _ & I & _ & _).
  set (query := fun i =>
         optional (fun d => d <=? Issuance.issuedAt i) (rq_startDate q)
         && optional (fun d => Issuance.issuedAt i <=? d) (rq_endDate q)
         && (if truthy_str (rq_issuedTo q)
             then (Issuance.issuedTo i =? nullish (rq_issuedTo q) "")%string
             else true)).
  set (listing := sort_by_issuedAt_desc (filter query (issuances w))).
  exists listing. eexists. exists w'. split.
  { unfold reports_issuances, try_catch. cbv zeta. rewrite V.
    cbn [isEmpty negb]. unfold Issuance_find.
    rewrite (bind_ok _ _ w (filter query (issuances w)) w).
    2:{ rewrite (bind_ok _ _ _ _ _ (dbcall_up _ _ Ui)). reflexivity. }
    rewrite (bind_ok _ _ _ _ _ (dbcall_up _ _ Um)).
    rewrite (bind_ok (gets medicines) _ w (medicines w) w eq_refl).
    rewrite (bind_ok _ _ _ _ _ (dbcall_up _ _ Uu)).
    rewrite (bind_ok _ _ _ _ _ E). fold listing. reflexivity. }
  cbn [totalIssuances totalQuantity groupedByType period].
  destruct (grouped_sums listing []) as (C & Q & N & G).
  splits; trivial.
  - apply sort_by_issuedAt_desc_sorted.
  - intros i. unfold listing.
    assert (P : In i (sort_by_issuedAt_desc (filter query (issuances w)))
                <-> In i (filter query (issuances w))).
    { split; apply Permutation_in; [| symmetry];
        apply sort_by_issuedAt_desc_perm. }
    rewrite P, filter_In. unfold query, in_report.
    rewrite !andb_true_iff.
    destruct (rq_startDate q) as [s |], (rq_endDate q) as [e |],
      (rq_issuedTo q) as [[| c k] |]; cbn; rewrite ?Z.leb_le, ?String.eqb_eq;
      split; intros (Hi & H); (split; [exact Hi |]);
      repeat match goal with
             | H : _ /\ _ |- _ => destruct H
             end;
      splits; trivial; try discriminate; try congruence;
      try (intros ? [= <-]; trivial; fail);
      try (match goal with
           | H : forall d, Some ?x = Some d -> _ |- _ => apply (H x eq_refl)
           end);
      try (match goal with
           | H : forall k, Some ?x = Some k -> _ -> _ |- _ =>
               apply (H x eq_refl); discriminate
           end);
      try discriminate.
  - apply fold_quantity.
  - rewrite Q, fold_quantity. reflexivity.
  - apply N. constructor.
Qed.

(** ** POST /api/medicines and a barcode that is taken *)

(** X28.  While the store answers, POST /api/medicines with a barcode that a
    stored record carries, active or deleted, is answered 400 with the
    message of a duplicate barcode, and stores no medicine, no alert and no
    log entry: by the check of the route when the holder is active, by the
    unique index otherwise. *)
Theorem create_refuses_taken_barcode req body w b x :
  medicine_validators body = [] -> faults w CMedicine = [] ->
  mb_barcode body = Some b -> b <> "" ->
  In x (medicines w) -> Medicine.barcode x = Some b ->
  Medicine._id x <> nextId w ->
  exists w',
    medicines_post req body w
    = (Ok (mkResponse 400
             (JMessage "Medicine with this barcode already exists")), w')
    /\ medicines w' = medicines w /\ alerts w' = alerts w
    /\ activitylogs w' = activitylogs w
    /\ (Medicine.isActive x = true -> w' = w).
Proof.
  intros V U Eb Hb Hx Bx Ix.
  destruct (find (fun m => opt_str_eqb (Medicine.barcode m) (Some b)
                           && Medicine.isActive m) (medicines w)) as [y |] eqn:F.
  - exists w. splits; trivial.
    apply (medicines_post_duplicate_active req body w b y); assumption.
  - destruct (medicines_post_duplicate_index req body w V U)
      as (w' & E & M & A & L).
    + rewrite Eb. exact F.
    + unfold barcode_taken. cbn [Medicine.barcode Medicine._id]. rewrite Eb.
      apply existsb_exists. exists x. split; [exact Hx |].
      rewrite Bx. cbn. rewrite String.eqb_refl, andb_true_r.
      apply negb_true_iff. unfold has_id. apply N.eqb_neq. exact Ix.
    + exists w'. splits; trivial. intros Ax. exfalso.
      pose proof (find_none _ _ F x Hx) as K. cbv beta in K.
      rewrite Bx, Ax in K. cbn in K. rewrite String.eqb_refl in K.
      discriminate.
Qed.

End Handlers.

(** * Instances on the sample data *)

(** An issue of two units of the five on hand, with the alert and
    activity-log collections down: answered 201, three units left. *)
Lemma issue_decrements_or_rejects_witness :
  exists w' issuance m',
    issuances_post demo_toDateString demo_req (demo_issue 2) demo_world_side_down
    = (Ok (mkResponse 201 (JIssuance issuance)), w')
    /\ find (has_id 1%N) (medicines w') = Some m'
    /\ Medicine.quantity m' = 3.
Proof.
  refine (proj1 (issue_decrements_or_rejects demo_toDateString demo_req
                   (demo_issue 2) demo_world_side_down demo_medicine
                   _ _ _ _ _) _ _).
  - reflexivity.
  - repeat split.
  - reflexivity.
  - reflexivity.
  - reflexivity.
  - cbn. lia.
  - cbn. lia.
Defined.

(** C2, as stated: the decrement would precede the ledger append of a
    successful issue.  On the sample world the issue is answered 201 and its
    write sequence has the ledger append first; and when the write of the
    record fails, the ledger holds an entry although nothing was
    decremented. *)
Lemma decrement_before_ledger_refuted :
  status_of (fst (issuances_post demo_toDateString demo_req (demo_issue 2)
                    demo_world)) = 201
  /\ precedes stock_write ledger_append
       (journal (snd (issuances_post demo_toDateString demo_req (demo_issue 2)
                        demo_world))) = false
  /\ precedes ledger_append stock_write
       (journal (snd (issuances_post demo_toDateString demo_req (demo_issue 2)
                        demo_world))) = true
  /\ status_of (fst (issuances_post demo_toDateString demo_req (demo_issue 2)
                       demo_world_save_fails)) = 500
  /\ map Issuance.quantityIssued
       (issuances (snd (issuances_post demo_toDateString demo_req (demo_issue 2)
                          demo_world_save_fails))) = [2]
  /\ map Medicine.quantity
       (medicines (snd (issuances_post demo_toDateString demo_req (demo_issue 2)
                          demo_world_save_fails))) = [5; 0].
Proof. vm_compute. repeat split. Qed.

Lemma ledger_precedes_decrement_witness :
  exists m i ls,
    find (has_id 1%N) (medicines demo_world) = Some m
    /\ journal (snd (issuances_post demo_toDateString demo_req (demo_issue 2)
                       demo_world))
       = (journal demo_world
          ++ (WIssuance i, true)
             :: (WMedicine (issued_from demo_req 2 m), true) :: ls)%list
    /\ Forall side_entry ls.
Proof.
  destruct (ledger_precedes_decrement demo_toDateString demo_req (demo_issue 2)
              demo_world
              (answer (fst (issuances_post demo_toDateString demo_req
                              (demo_issue 2) demo_world)))
              (snd (issuances_post demo_toDateString demo_req (demo_issue 2)
                      demo_world)))
    as [(m & i & ls & Hf & Hj & Hs & _) _].
  - vm_compute. reflexivity.
  - vm_compute. reflexivity.
  - exists m, i, ls. auto.
Defined.



(** An issue that goes through while every write of the side channels
    fails. *)
Lemma side_channels_never_throw_witness :
  status_of (fst (issuances_post demo_toDateString demo_req (demo_issue 2)
                    demo_world_side_down)) = 201
  /\ medicines (snd (issuances_post demo_toDateString demo_req (demo_issue 2)
                       demo_world_side_down))
     = replace_medicine (issued_from demo_req 2 demo_medicine)
                        (medicines demo_world_side_down).
Proof.
  refine (proj2 (proj2 (proj2 (proj2 (proj2
            (side_channels_never_throw demo_toDateString)))))
            demo_req (demo_issue 2) demo_world_side_down demo_medicine
            _ _ _ _ _ _ _).
  - reflexivity.
  - repeat split.
  - reflexivity.
  - reflexivity.
  - reflexivity.
  - cbn. lia.
  - cbn. lia.
Defined.

(** A restock of twenty, an issue of two and an issue of thirty (refused),
    served in this order: the record holds 23 of 25. *)
Lemma stock_out_invariant_witness :
  Medicine.stockOut
    (issued_from demo_req 2
       (Medicine.set_updatedBy 7%N
          (Medicine.set_initialStock 25 (Medicine.set_quantity 25 demo_medicine))))
  = 2
  /\ 0 <= Medicine.stockOut
            (issued_from demo_req 2
               (Medicine.set_updatedBy 7%N
                  (Medicine.set_initialStock 25
                     (Medicine.set_quantity 25 demo_medicine)))).
Proof.
  refine (proj1 (stock_out_invariant demo_toDateString
                   [ PutMedicine demo_req 1%N (demo_restock 20);
                     PostIssuance demo_req (demo_issue 2);
                     PostIssuance demo_req (demo_issue 30) ]
                   demo_world _) _ _).
  - repeat constructor; unfold stock_inv; cbn; lia.
  - vm_compute. left. reflexivity.
Defined.

(** Nine units asked of five, of a record that is expired as well. *)
Lemma insufficient_stock_reported_first_witness :
  issuances_post demo_toDateString demo_req (demo_issue 9) demo_world_late
  = (Ok (mkResponse 400
           (JMessage "Insufficient stock. Available: 5, Requested: 9")),
     demo_world_late).
Proof.
  refine (proj1 (insufficient_stock_reported_first demo_toDateString demo_req
                   (demo_issue 9) demo_world_late demo_medicine _ _ _ _) _).
  - reflexivity.
  - reflexivity.
  - reflexivity.
  - reflexivity.
  - cbn. lia.
Defined.

(** * Where the code departs from the claims *)

(** C4.  A restock by [stockToAdd] raises the quantity from 5 to 25 and no
    [stock_entry] alert is emitted; a restock of 2 leaves the record under
    its threshold and [stock_low] is the only alert; and a body that names a
    quantity above the old one, without adding stock, emits [stock_entry]
    although the quantity is still 5. *)
Theorem restock_without_stock_entry :
  status_of (fst (medicines_put demo_toDateString demo_req 1%N (demo_restock 20)
                    demo_world)) = 200
  /\ map Medicine.quantity
       (medicines (snd (medicines_put demo_toDateString demo_req 1%N
                          (demo_restock 20) demo_world))) = [25; 0]
  /\ map brief
       (alert_calls (journal (snd (medicines_put demo_toDateString demo_req 1%N
                                     (demo_restock 20) demo_world)))) = []
  /\ map Medicine.quantity
       (medicines (snd (medicines_put demo_toDateString demo_req 1%N
                          (demo_restock 2) demo_world))) = [7; 0]
  /\ map kind
       (map brief
          (alert_calls (journal (snd (medicines_put demo_toDateString demo_req
                                        1%N (demo_restock 2) demo_world)))))
     = [("stock_low", "warning")]
  /\ map Medicine.quantity
       (medicines (snd (medicines_put demo_toDateString demo_req 1%N
                          (demo_edit_quantity 50) demo_world))) = [5; 0]
  /\ map kind
       (map brief
          (alert_calls (journal (snd (medicines_put demo_toDateString demo_req
                                        1%N (demo_edit_quantity 50) demo_world)))))
     = [("stock_entry", "info"); ("stock_low", "warning")].
Proof. vm_compute. repeat split. Qed.

(** C5.  A user update is answered 200, and its alert, of type
    [user_updated], is refused by the schema of the alert collection: the
    type is not in the enumeration, the call of [save()] fails inside
    [createAlert], and no alert is stored. *)
Theorem user_update_alert_is_refused :
  status_of (fst (users_put demo_req 8%N demo_rename demo_world)) = 200
  /\ alerts (snd (users_put demo_req 8%N demo_rename demo_world)) = []
  /\ map (fun e => (match fst e with
                    | WAlert a => brief a
                    | _ => ("", "", "")
                    end, snd e))
       (filter (fun e => match fst e with
                         | WAlert _ => true
                         | _ => false
                         end)
          (journal (snd (users_put demo_req 8%N demo_rename demo_world))))
     = [(("user_updated", "info",
          "User " ++ quoted "Robert" ++ " details have been updated"), false)]
  /\ isIn "user_updated" Alert.types = false.
Proof. vm_compute. repeat split. Qed.

(** C6.  At the instant [expiryDate = now] the stock check says expired and
    not expiring, the dashboard and the listing agree with it, and the
    expiry report files the record under expiring soon and not under
    expired; the virtuals of the record say neither. *)
Theorem expiry_boundary_disagrees :
  Medicine.expiryDate demo_medicine = clock demo_world_boundary
  /\ Medicine.isExpired (clock demo_world_boundary) demo_medicine = false
  /\ Medicine.isExpiringSoon (clock demo_world_boundary) demo_medicine = false
  /\ map kind
       (map brief
          (alert_calls
             (journal (snd (checkAndCreateStockAlerts demo_toDateString
                              demo_medicine 7%N demo_world_boundary)))))
     = [("stock_low", "warning"); ("medicine_expired", "danger")]
  /\ fst (dashboard_expiringMedicines demo_world_boundary) = Ok 0%nat
  /\ fst (medicines_alerts_expiring demo_world_boundary)
     = Ok (mkResponse 200 (JMedicines []))
  /\ fst (reports_expiry demo_world_boundary)
     = Ok (mkResponse 200
             (JExpiryReport [] [demo_medicine] [] (clock demo_world_boundary))).
Proof. vm_compute. repeat split. Qed.

(** C7.  The barcode B-200 is borne by a soft-deleted record only.  The
    check of the route finds no active record with it, and the create is
    refused all the same: [save()] runs into the unique index and the catch
    clause answers 400 with the duplicate-barcode message. *)
Theorem soft_deleted_barcode_blocks_create :
  find (fun m => opt_str_eqb (Medicine.barcode m) (Some "B-200")
                 && Medicine.isActive m) (medicines demo_world) = None
  /\ medicine_validators demo_reuse = []
  /\ fst (medicines_post demo_toDateString demo_req demo_reuse demo_world)
     = Ok (mkResponse 400
             (JMessage "Medicine with this barcode already exists"))
  /\ medicines (snd (medicines_post demo_toDateString demo_req demo_reuse
                       demo_world)) = medicines demo_world
  /\ map snd (journal (snd (medicines_post demo_toDateString demo_req
                              demo_reuse demo_world))) = [false].
Proof. vm_compute. repeat split. Qed.


(** * Instances of the further properties *)

(** Page 2 of the alerts, one to the page: the last page, and not empty. *)
Lemma alerts_get_page_witness :
  exists items,
    alerts_get demo_alert_query demo_world_alerts
    = (Ok (mkReply 200 (PAlertPage items 1 (mkPagination 2 2 2 1))),
       demo_world_alerts)
    /\ items <> [].
Proof.
  destruct (alerts_get_page demo_alert_query demo_world_alerts
              eq_refl eq_refl eq_refl)
    as (items & E & _ & _ & _ & Hp & _).
  exists items. split.
  - exact E.
  - apply Hp. vm_compute. discriminate.
Defined.

(** The two pages of one alert each list the two active alerts, the newest
    first. *)
Lemma alerts_pages_cover_witness :
  List.concat
    (map (fun p => listed (fst (alerts_get (with_page p demo_alert_query)
                                  demo_world_alerts)))
         (page_numbers 2))
  = [demo_alert 4%N true true; demo_alert 3%N false true].
Proof.
  exact (proj1 (alerts_pages_cover demo_alert_query demo_world_alerts
                  eq_refl eq_refl eq_refl)).
Defined.

(** The alert of id 3 is deleted, and not found afterwards. *)
Lemma alert_soft_delete_witness :
  exists w',
    alerts_delete 3%N demo_world_alerts
    = (Ok (mkReply 200 (PMessage "Alert deleted successfully")), w')
    /\ find (alert_has_id 3%N) (alerts w') = Some (demo_alert 3%N false false)
    /\ alerts_get_id 3%N w' = (Ok (mkReply 404 (PMessage "Alert not found")), w').
Proof.
  destruct (proj2 (alert_soft_delete 3%N demo_world_alerts eq_refl eq_refl)
              (demo_alert 3%N false true) eq_refl)
    as (w' & E & F & _ & _ & G & _).
  exists w'. split; [exact E | split; [exact F | exact G]].
Defined.

(** The deleted alert of id 5 is marked read, and the count of unread alerts
    stays at one. *)
Lemma alert_mark_read_witness :
  exists w',
    alerts_patch_read 5%N demo_world_alerts
    = (Ok (mkReply 200 (PAlert (demo_alert 5%N true false))), w')
    /\ List.length (filter unread (alerts w')) = 1%nat.
Proof.
  destruct (alert_mark_read 5%N (demo_alert 5%N false false) demo_world_alerts
              eq_refl eq_refl)
    as (w' & E & _ & _ & L & _).
  exists w'. split; [exact E | exact L].
Defined.

Lemma mark_all_read_clears_unread_witness :
  exists w',
    alerts_mark_all_read demo_world_alerts
    = (Ok (mkReply 200 (PMessage "All alerts marked as read")), w')
    /\ alerts w'
       = [demo_alert 3%N true true; demo_alert 4%N true true;
          demo_alert 5%N false false].
Proof.
  destruct (mark_all_read_clears_unread demo_world_alerts eq_refl)
    as (w' & E & _ & A & _).
  exists w'. split; [exact E | exact A].
Defined.

(** The medicine of id 1 is deleted: it keeps its five units and is not
    found afterwards. *)
Lemma medicine_soft_delete_witness :
  exists w',
    medicines_delete demo_req 1%N demo_world
    = (Ok (mkResponse 200 (JMessage "Medicine deleted successfully")), w')
    /\ map Medicine.quantity (medicines w') = [5; 0]
    /\ medicines_get_id 1%N w'
       = (Ok (mkResponse 404 (JMessage "Medicine not found")), w').
Proof.
  destruct (medicine_soft_delete demo_toDateString demo_req 1%N demo_world
              demo_medicine eq_refl eq_refl eq_refl eq_refl eq_refl)
    as (w' & E & _ & _ & _ & _ & G & _).
  exists w'. split; [exact E | split; [| exact G]].
  inversion E. reflexivity.
Defined.

Lemma deletion_is_logged_witness :
  exists w' entry,
    medicines_delete demo_req 1%N demo_world
    = (Ok (mkResponse 200 (JMessage "Medicine deleted successfully")), w')
    /\ activitylogs w' = [entry]
    /\ ActivityLog.description entry = "Deleted medicine: Aspirin"
    /\ dashboard_recent_activities w'
       = (Ok (mkReply 200 (PActivities [entry])), w').
Proof.
  destruct (deletion_is_logged demo_req 1%N demo_world demo_medicine
              eq_refl eq_refl eq_refl eq_refl eq_refl eq_refl)
    as (w' & entry & E & A & _ & _ & _ & _ & D & _ & _ & R).
  exists w', entry.
  split; [exact E | split; [exact A | split; [exact D | exact R]]].
Defined.

(** The creation of [demo_new], and the read of the record that follows;
    and the same with [isActive: false] in the body: created all the same,
    and not found. *)
Lemma create_then_get_witness :
  (Medicine.stockOut demo_created = 0
   /\ medicines (snd (medicines_post demo_toDateString demo_req demo_new
                        demo_world))
      = [demo_medicine; demo_deleted; demo_created]
   /\ medicines_get_id 3%N
        (snd (medicines_post demo_toDateString demo_req demo_new demo_world))
      = (Ok (mkResponse 200 (JMedicine demo_created)),
         snd (medicines_post demo_toDateString demo_req demo_new demo_world)))
  /\ (medicines (snd (medicines_post demo_toDateString demo_req
                        demo_new_inactive demo_world))
      = [demo_medicine; demo_deleted; demo_created_inactive]
      /\ medicines_get_id 3%N
           (snd (medicines_post demo_toDateString demo_req demo_new_inactive
                   demo_world))
         = (Ok (mkResponse 404 (JMessage "Medicine not found")),
            snd (medicines_post demo_toDateString demo_req demo_new_inactive
                   demo_world))).
Proof.
  split.
  - destruct (create_then_get demo_toDateString demo_req demo_new demo_world
                demo_created
                (snd (medicines_post demo_toDateString demo_req demo_new
                        demo_world)))
      as (F & A & G).
    + vm_compute. reflexivity.
    + split; [apply F | split; [exact A |]].
      apply G; reflexivity.
  - destruct (create_then_get demo_toDateString demo_req demo_new_inactive
                demo_world demo_created_inactive
                (snd (medicines_post demo_toDateString demo_req
                        demo_new_inactive demo_world)))
      as (_ & A & G).
    + vm_compute. reflexivity.
    + split; [exact A |]. apply G; reflexivity.
Defined.

(** A restock of twenty: both counters go up by twenty. *)
Lemma update_applies_patch_witness :
  exists m,
    find (has_id 1%N) (medicines demo_world) = Some m
    /\ Medicine.quantity
         (Medicine.set_updatedBy 7%N
            (Medicine.set_initialStock 25
               (Medicine.set_quantity 25 demo_medicine)))
       = Medicine.quantity m + 20
    /\ Medicine.initialStock
         (Medicine.set_updatedBy 7%N
            (Medicine.set_initialStock 25
               (Medicine.set_quantity 25 demo_medicine)))
       = Medicine.initialStock m + 20.
Proof.
  destruct (update_applies_patch demo_toDateString demo_req 1%N
              (demo_restock 20) demo_world
              (Medicine.set_updatedBy 7%N
                 (Medicine.set_initialStock 25
                    (Medicine.set_quantity 25 demo_medicine)))
              (snd (medicines_put demo_toDateString demo_req 1%N
                      (demo_restock 20) demo_world)))
    as (m & F & _ & _ & _ & _ & (Q & I) & _).
  - vm_compute. reflexivity.
  - exists m. split; [exact F | split; [exact Q | exact I]].
Defined.

(** Five units under a threshold of ten: the medicine is listed. *)
Lemma low_stock_listing_agrees_witness :
  exists l,
    medicines_alerts_low_stock demo_world
    = (Ok (mkResponse 200 (JMedicines l)), demo_world)
    /\ In demo_medicine l.
Proof.
  destruct (low_stock_listing_agrees demo_toDateString demo_world
              eq_refl eq_refl)
    as (l & E & _ & H).
  exists l. split; [exact E |].
  apply (proj1 (H demo_medicine (or_introl eq_refl) eq_refl)).
  vm_compute. discriminate.
Defined.

(** Of the two medicines, the one that expires in twenty days is listed and
    the one that expires in a hundred days is not. *)
Lemma expiring_listing_agrees_witness :
  exists l,
    medicines_alerts_expiring demo_world_two
    = (Ok (mkResponse 200 (JMedicines l)), demo_world_two)
    /\ In demo_second l /\ ~ In demo_medicine l.
Proof.
  destruct (expiring_listing_agrees demo_toDateString demo_world_two
              eq_refl eq_refl eq_refl)
    as (l & E & _ & _ & H).
  exists l. split; [exact E | split].
  - apply (proj1 (H demo_second (or_intror (or_introl eq_refl)) eq_refl)).
    vm_compute. split; [reflexivity | discriminate].
  - intros Hin.
    apply (proj1 (H demo_medicine (or_introl eq_refl) eq_refl)) in Hin.
    vm_compute in Hin. destruct Hin as [_ Hin]. apply Hin. reflexivity.
Defined.

Lemma expiry_report_partitions_witness :
  exists expired soon later,
    reports_expiry demo_world_two
    = (Ok (mkResponse 200 (JExpiryReport expired soon later 1000)),
       demo_world_two)
    /\ In demo_second soon /\ ~ In demo_second later.
Proof.
  destruct (expiry_report_partitions demo_world_two
              eq_refl eq_refl)
    as (expired & soon & later & E & H & Hd & _).
  exists expired, soon, later. split; [exact E |].
  assert (Hs : In demo_second soon).
  { apply (proj1 (proj2 (H demo_second))). split.
    - right. left. reflexivity.
    - split; [reflexivity |]. vm_compute. split; discriminate. }
  split; [exact Hs |].
  intros Hl. apply (proj1 (proj2 (Hd demo_second))). split; assumption.
Defined.

(** An issue of two units, and the read of the ledger entry that follows. *)
Lemma issue_then_get_witness :
  issuances (snd (issuances_post demo_toDateString demo_req (demo_issue 2)
                    demo_world))
  = [demo_entry 3%N "Employee" 2 1000]
  /\ issuances_get_id 3%N
       (snd (issuances_post demo_toDateString demo_req (demo_issue 2)
               demo_world))
     = (Ok (mkResponse 200 (JIssuance (demo_entry 3%N "Employee" 2 1000))),
        snd (issuances_post demo_toDateString demo_req (demo_issue 2)
               demo_world)).
Proof.
  destruct (issue_then_get demo_toDateString demo_req (demo_issue 2)
              demo_world (demo_entry 3%N "Employee" 2 1000)
              (snd (issuances_post demo_toDateString demo_req (demo_issue 2)
                      demo_world)))
    as (_ & A & _ & G).
  - vm_compute. reflexivity.
  - split; [exact A |]. apply G; reflexivity.
Defined.

(** An issue of two units and a restock of twenty, from a state with an
    empty ledger and nothing gone out. *)
Lemma ledger_covers_stock_out_witness :
  ledger_covers
    (serve demo_toDateString
       [PostIssuance demo_req (demo_issue 2);
        PutMedicine demo_req 1%N (demo_restock 20)]
       demo_world_fresh).
Proof.
  apply (ledger_covers_stock_out demo_toDateString).
  split.
  - constructor.
  - intros m [<- | []]. vm_compute. discriminate.
Defined.

(** The write of the record fails after its read went through: answered 500,
    five units on hand as before, and two units in the ledger. *)
Lemma issue_is_not_atomic_witness :
  exists i w',
    issuances_post demo_toDateString demo_req (demo_issue 2)
                   demo_world_save_fails
    = (Ok (mkResponse 500 (JMessage "Failed to issue medicine")), w')
    /\ Issuance.quantityIssued i = 2
    /\ issuances w' = [i]
    /\ medicines w' = [demo_medicine; demo_deleted].
Proof.
  destruct (issue_is_not_atomic demo_toDateString demo_req (demo_issue 2)
              demo_world_save_fails demo_medicine [])
    as (i & w' & E & L & A & S).
  - reflexivity.
  - reflexivity.
  - reflexivity.
  - reflexivity.
  - reflexivity.
  - vm_compute. discriminate.
  - vm_compute. reflexivity.
  - exists i, w'.
    split; [exact E | split; [exact (proj1 (proj2 L)) | split; [exact A | exact S]]].
Defined.

(** The pharmacist asks for the deletion of the only administrator, and the
    administrator for that of the pharmacist. *)
Lemma an_admin_survives_witness :
  existsb is_admin
    (users (serve demo_toDateString
              [DeleteUser demo_req_pharmacist 7%N; DeleteUser demo_req 8%N]
              demo_world)) = true.
Proof.
  apply (an_admin_survives demo_toDateString).
  - repeat constructor.
  - vm_compute. repeat constructor; intros H; vm_compute in H; intuition discriminate.
  - reflexivity.
Defined.

(** The pharmacist is given the email of the administrator. *)
Lemma user_emails_stay_distinct_witness :
  NoDup (map User.email
           (users (snd (users_put demo_req 8%N demo_steal_email demo_world)))).
Proof.
  apply user_emails_stay_distinct.
  - repeat constructor; cbn; intuition discriminate.
  - repeat constructor; cbn; intuition discriminate.
  - discriminate.
Defined.

(** A fourth alert: listed first, and two unread instead of one. *)
Lemma created_alert_is_listed_first_witness :
  exists a w' rest pagination,
    createAlert "stock_low" "Low Stock Alert" "Running low" "Medicine" 1%N 7%N
                "warning" demo_world_alerts
    = (Ok (Some a), w')
    /\ alerts_get no_query w'
       = (Ok (mkReply 200 (PAlertPage (a :: rest) 2 pagination)), w').
Proof.
  destruct (created_alert_is_listed_first "stock_low" "Low Stock Alert"
              "Running low" "Medicine" 1%N 7%N "warning" demo_world_alerts
              eq_refl eq_refl eq_refl eq_refl eq_refl eq_refl eq_refl)
    as (a & w' & E & _ & _ & _ & _ & _ & _ & _ & _ & _ & rest & pg & G).
  exists a, w', rest, pg. split; [exact E | exact G].
Defined.

(** The administrator deletes the pharmacist. *)
Lemma user_deletion_raises_alert_witness :
  exists w' a,
    users_delete demo_req 8%N demo_world
    = (Ok (mkResponse 200 (JMessage "User deleted successfully")), w')
    /\ users w' = [demo_user]
    /\ alerts w' = [a]
    /\ Alert.message a
       = "User " ++ quoted "Bob" ++ " has been removed from the system".
Proof.
  destruct (user_deletion_raises_alert demo_req 8%N demo_world demo_pharmacist)
    as (w' & a & E & U & A & B & _).
  - reflexivity.
  - reflexivity.
  - reflexivity.
  - discriminate.
  - discriminate.
  - cbn. lia.
  - exists w', a.
    split; [exact E | split; [exact U | split; [exact A |]]].
    exact (f_equal snd B).
Defined.

(** A creation under a fresh barcode and one under the barcode of the
    soft-deleted record: the records that are stored are valid. *)
Lemma stored_medicines_stay_valid_witness :
  Medicine.validate demo_created = true
  /\ 0 <= Medicine.quantity demo_created
  /\ 0 <= Medicine.initialStock demo_created
  /\ 1 <= Medicine.minQuantity demo_created.
Proof.
  destruct (stored_medicines_stay_valid demo_toDateString
              [PostMedicine demo_req demo_new; PostMedicine demo_req demo_reuse]
              demo_world eq_refl demo_created)
    as (V & Q & I & T & _).
  - vm_compute. right. right. left. reflexivity.
  - split; [exact V | split; [exact Q | split; [exact I | exact T]]].
Defined.

(** The second medicine asks for the barcode of the first. *)
Lemma update_refuses_taken_barcode_witness :
  medicines_put demo_toDateString demo_req 2%N demo_rebarcode demo_world_two
  = (Ok (mkResponse 400
           (JMessage "Medicine with this barcode already exists")),
     demo_world_two).
Proof.
  apply (update_refuses_taken_barcode demo_toDateString demo_req 2%N
           demo_rebarcode demo_world_two demo_second "B-100" demo_medicine).
  - reflexivity.
  - reflexivity.
  - reflexivity.
  - reflexivity.
  - reflexivity.
  - discriminate.
  - discriminate.
  - left. reflexivity.
  - reflexivity.
  - reflexivity.
  - discriminate.
Defined.

(** The report of the medicines that are low in stock. *)
Lemma inventory_report_counts_witness :
  exists listing summary w',
    reports_inventory demo_inventory_query demo_world
    = (Ok (mkReply 200 (PInventoryReport listing summary)), w')
    /\ totalMedicines summary = Z.of_nat (List.length listing)
    /\ lowStockCount summary = totalMedicines summary.
Proof.
  destruct (inventory_report_counts demo_inventory_query demo_world
              eq_refl eq_refl eq_refl)
    as (listing & summary & w' & E & _ & _ & _ & T & _ & _ & L & _).
  exists listing, summary, w'.
  split; [exact E | split; [exact T | exact (L eq_refl)]].
Defined.

(** The report of a ledger of three entries, two to employees and one to a
    guest. *)
Lemma issuance_report_adds_up_witness :
  exists listing summary w',
    reports_issuances demo_report_query demo_world_ledger
    = (Ok (mkReply 200 (PIssuanceReport listing summary)), w')
    /\ totalIssuances summary = Z.of_nat (List.length listing)
    /\ count_sum (groupedByType summary) = totalIssuances summary
    /\ group_quantity_sum (groupedByType summary) = quantity_sum listing.
Proof.
  destruct (issuance_report_adds_up demo_report_query
              demo_world_ledger eq_refl eq_refl eq_refl eq_refl)
    as (listing & summary & w' & E & _ & _ & _ & T & Q & C & G & _).
  exists listing, summary, w'.
  split; [exact E | split; [exact T | split; [exact C |]]].
  rewrite G. exact Q.
Defined.

(** A creation under the barcode of the soft-deleted record. *)
Lemma create_refuses_taken_barcode_witness :
  exists w',
    medicines_post demo_toDateString demo_req demo_reuse demo_world
    = (Ok (mkResponse 400
             (JMessage "Medicine with this barcode already exists")), w')
    /\ medicines w' = [demo_medicine; demo_deleted].
Proof.
  destruct (create_refuses_taken_barcode demo_toDateString demo_req demo_reuse
              demo_world "B-200" demo_deleted)
    as (w' & E & S & _).
  - reflexivity.
  - reflexivity.
  - reflexivity.
  - discriminate.
  - right. left. reflexivity.
  - reflexivity.
  - discriminate.
  - exists w'. split; [exact E | exact S].
Defined.

(** The administrator asks for the deletion of their own account. *)
Lemma own_account_is_never_deleted_witness :
  users (snd (users_delete demo_req 7%N demo_world)) = users demo_world.
Proof.
  exact (proj2 (proj2 (own_account_is_never_deleted demo_req 7%N demo_world)) eq_refl).
Defined.

